(** * Kit Cat DOOM Player: engine resolution, acquisition and mod export

    A shallow embedding of [doom_v2.py]: [find_engine], [download_gzdoom],
    [run_wad], [export_mods], the list of mods, the presets and
    [download_freedoom], with the properties the specification states
    about them and further ones read off the code.

    Conventions of the embedding.
    - Python [str] values are [string]s of bytes; [str.lower] folds the
      ASCII letters.
    - [os.path] is [posixpath]: the separator is [/].
    - Everything the program asks of its surroundings (the search path, the
      dialogs, the network, the archive readers, the files on disk, the
      order in which a directory is listed, the wording of an OS error) is
      a field of a [world] record; the program's own effects are recorded
      as a trace of [event]s next to the tree of the engine directory.
    - A Python exception that no handler of the modelled function catches
      is the outcome [Raised] of the call. *)

From Stdlib Require Import String Ascii List ZArith Bool Lia Permutation.
From Stdlib Require Import DecimalString.
Import ListNotations.
Set Warnings "-register-all".
Local Open Scope string_scope.
Local Open Scope list_scope.

(** ** Python strings *)

Module PyStr.

(** [c.lower()] on one byte. *)
Definition lower_ascii (c : ascii) : ascii :=
  let n := nat_of_ascii c in
  if andb (Nat.leb 65 n) (Nat.leb n 90) then ascii_of_nat (n + 32) else c.

(** [s.lower()] *)
Fixpoint lower (s : string) : string :=
  match s with
  | EmptyString => EmptyString
  | String c r => String (lower_ascii c) (lower r)
  end.

(** [s.startswith(p)] *)
Definition startswith (p s : string) : bool := String.prefix p s.

(** [sub in s] *)
Fixpoint contains (sub s : string) : bool :=
  if startswith sub s then true
  else match s with
       | EmptyString => false
       | String _ r => contains sub r
       end.

(** [s.endswith(suf)] *)
Fixpoint endswith (suf s : string) : bool :=
  if String.eqb s suf then true
  else match s with
       | EmptyString => false
       | String _ r => endswith suf r
       end.

(** Truth value of a [str]: the empty string is false. *)
Definition truthy (s : string) : bool :=
  match s with EmptyString => false | _ => true end.

(** [str(n)] for an integer. *)
Definition of_Z (n : Z) : string := NilZero.string_of_int (Z.to_int n).

(** [sep.join(l)] *)
Fixpoint join (sep : string) (l : list string) : string :=
  match l with
  | [] => ""
  | [x] => x
  | x :: r => x ++ sep ++ join sep r
  end.

(** The characters of a string, as iterating over it yields them. *)
Fixpoint chars (s : string) : list string :=
  match s with
  | EmptyString => []
  | String c r => String c EmptyString :: chars r
  end.

End PyStr.

(** ** [posixpath] *)

Module PosixPath.
Import PyStr.

Definition sep : string := "/".

(** [os.path.basename(p)]: what follows the last separator. *)
Fixpoint basename (p : string) : string :=
  match p with
  | EmptyString => EmptyString
  | String c r =>
      if contains sep r then basename r
      else if Ascii.eqb c "/" then r
      else p
  end.

(** [p[:p.rfind('/') + 1]]: the path up to and including its last
    separator. *)
Fixpoint head_of (p : string) : string :=
  match p with
  | EmptyString => EmptyString
  | String c r =>
      if contains sep r then String c (head_of r)
      else if Ascii.eqb c "/" then sep
      else EmptyString
  end.

Fixpoint all_seps (s : string) : bool :=
  match s with
  | EmptyString => true
  | String c r => andb (Ascii.eqb c "/") (all_seps r)
  end.

(** [s.rstrip('/')] *)
Fixpoint rstrip_sep (s : string) : string :=
  match s with
  | EmptyString => EmptyString
  | String c r => if all_seps s then EmptyString else String c (rstrip_sep r)
  end.

(** [os.path.dirname(p)] *)
Definition dirname (p : string) : string :=
  let head := head_of p in
  if andb (truthy head) (negb (all_seps head)) then rstrip_sep head else head.

(** One step of [os.path.join]: an absolute [b] replaces [a]. *)
Definition join2 (a b : string) : string :=
  if startswith sep b then b
  else if orb (negb (truthy a)) (endswith sep a) then a ++ b
  else a ++ sep ++ b.

(** [os.path.join(a, *ps)] *)
Definition join (a : string) (ps : list string) : string :=
  fold_left join2 ps a.

Fixpoint all_dots (s : string) : bool :=
  match s with
  | EmptyString => true
  | String c r => andb (Ascii.eqb c ".") (all_dots r)
  end.

(** [n.rfind('.')] as a cut: what precedes the last dot of [n], and [n]
    from that dot on. *)
Fixpoint rsplit_dot (n : string) : option (string * string) :=
  match n with
  | EmptyString => None
  | String c r =>
      match rsplit_dot r with
      | Some (b, e) => Some (String c b, e)
      | None => if Ascii.eqb c "." then Some (EmptyString, n) else None
      end
  end.

(** [os.path.splitext(p)[1]], from [genericpath._splitext] with
    [sep = "/"], no [altsep] and [extsep = "."]: the extension starts at
    the last dot of the path when that dot lies after the last separator
    and a character other than a dot stands between the two.  A dot after
    the last separator is a dot of [basename p], so the search runs on
    that component. *)
Definition splitext_ext (p : string) : string :=
  match rsplit_dot (basename p) with
  | Some (b, e) => if all_dots b then EmptyString else e
  | None => EmptyString
  end.

End PosixPath.

(** ** JSON values, as [json.load] returns them

    Numbers are integers here; a JSON object is the list of its members in
    the order [json.load] keeps them, one per key. *)

Inductive json : Type :=
| JNull
| JBool (b : bool)
| JNum (n : Z)
| JStr (s : string)
| JList (items : list json)
| JDict (members : list (string * json)).

(** Exceptions that leave a modelled function uncaught. *)
Inductive exn : Type := AttributeError | KeyError | TypeError.

(** A pure Python expression that may raise. *)
Inductive result (A : Type) : Type :=
| Ok (a : A)
| Err (e : exn).
Arguments Ok {A} a.
Arguments Err {A} e.

Module Py.

(** Truth value of an object: [None], [False], [0] and the empty string,
    list and dict are false. *)
Definition truthy (v : json) : bool :=
  match v with
  | JNull => false
  | JBool b => b
  | JNum n => negb (Z.eqb n 0)
  | JStr s => PyStr.truthy s
  | JList items => match items with [] => false | _ :: _ => true end
  | JDict members => match members with [] => false | _ :: _ => true end
  end.

(** Lookup in a list of members, by key. *)
Fixpoint assoc {A : Type} (k : string) (l : list (string * A)) : option A :=
  match l with
  | [] => None
  | (k', v) :: r => if String.eqb k' k then Some v else assoc k r
  end.

(** [l[k] = v] on an insertion-ordered mapping: an existing key keeps its
    place, a new key goes last. *)
Fixpoint set_assoc {A : Type} (k : string) (v : A) (l : list (string * A))
  : list (string * A) :=
  match l with
  | [] => [(k, v)]
  | (k', v') :: r =>
      if String.eqb k' k then (k, v) :: r else (k', v') :: set_assoc k v r
  end.

(** [v.get(k, default)]: only a dict has [get]. *)
Definition get (v : json) (k : string) (default : json) : result json :=
  match v with
  | JDict members =>
      Ok (match assoc k members with Some x => x | None => default end)
  | _ => Err AttributeError
  end.

(** [v[k]] with a string key [k]. *)
Definition getitem (v : json) (k : string) : result json :=
  match v with
  | JDict members =>
      match assoc k members with Some x => Ok x | None => Err KeyError end
  | _ => Err TypeError
  end.

(** [v.lower()]: only a string has [lower]. *)
Definition lower (v : json) : result string :=
  match v with
  | JStr s => Ok (PyStr.lower s)
  | _ => Err AttributeError
  end.

(** What [for x in v] runs over. *)
Definition iter (v : json) : result (list json) :=
  match v with
  | JList items => Ok items
  | JDict members => Ok (map (fun kv => JStr (fst kv)) members)
  | JStr s => Ok (map JStr (PyStr.chars s))
  | _ => Err TypeError
  end.

(** [os.path.basename(v)] needs a string. *)
Definition as_path (v : json) : result string :=
  match v with
  | JStr s => Ok s
  | _ => Err TypeError
  end.

End Py.

(** ** Directory trees

    A directory holds its regular files (name and content) and its
    subdirectories, each kept in the order the entries were made; names
    compare byte for byte.  The order in which a listing shows them is the
    file system's, see [FS.listed]. *)

Inductive dir : Type :=
| Dir (files : list (string * string)) (subdirs : list (string * dir)).

Definition empty_dir : dir := Dir [] [].
Definition dir_files (d : dir) : list (string * string) :=
  match d with Dir fs _ => fs end.
Definition dir_subdirs (d : dir) : list (string * dir) :=
  match d with Dir _ ds => ds end.

(** An operation on files that may fail; [text] is the [strerror] of the
    OS error for the operations of [FS], the text of the exception
    otherwise. *)
Inductive io (A : Type) : Type :=
| Done (a : A)
| Failed (text : string).
Arguments Done {A} a.
Arguments Failed {A} text.

Module FS.

Definition has {A : Type} (n : string) (l : list (string * A)) : bool :=
  match Py.assoc n l with Some _ => true | None => false end.

(** A name that can be given to a new file or directory. *)
Definition valid_name (n : string) : bool :=
  negb (orb (String.eqb n "") (orb (String.eqb n ".") (String.eqb n ".."))).

(** [open(path, 'wb')] and the write of [data], below [d]; [path] is given
    by its components.  Directories missing on the way are created, as the
    archive readers do before they open a member ([os.makedirs]); the
    download and the copy write straight into a directory that exists.  A
    failure carries the [strerror] of its OS error; the text of the
    exception is made from it where the program shows it. *)
Fixpoint write_file (path : list string) (data : string) (d : dir) : io dir :=
  match path with
  | [] => Failed "Is a directory"
  | n :: rest =>
      if negb (valid_name n) then Failed "Is a directory"
      else
        match rest with
        | [] =>
            if has n (dir_subdirs d) then Failed "Is a directory"
            else Done (Dir (Py.set_assoc n data (dir_files d)) (dir_subdirs d))
        | _ :: _ =>
            if has n (dir_files d) then Failed "Not a directory"
            else
              let sub := match Py.assoc n (dir_subdirs d) with
                         | Some sub => sub
                         | None => empty_dir
                         end in
              match write_file rest data sub with
              | Done sub' =>
                  Done (Dir (dir_files d) (Py.set_assoc n sub' (dir_subdirs d)))
              | Failed text => Failed text
              end
        end
  end.

(** [os.makedirs(path)] below [d], for a directory member of an archive:
    an existing directory is kept, and so is the tree from a component on
    that names no directory of its own. *)
Fixpoint make_dirs (path : list string) (d : dir) : io dir :=
  match path with
  | [] => Done d
  | n :: rest =>
      if negb (valid_name n) then Done d
      else if has n (dir_files d)
      then Failed (match rest with [] => "File exists" | _ :: _ => "Not a directory" end)
      else
        let sub := match Py.assoc n (dir_subdirs d) with
                   | Some sub => sub
                   | None => empty_dir
                   end in
        match make_dirs rest sub with
        | Done sub' =>
            Done (Dir (dir_files d) (Py.set_assoc n sub' (dir_subdirs d)))
        | Failed text => Failed text
        end
  end.

(** What a failed [write_file] or [make_dirs] of [path] leaves below [d]:
    the directories made on the way to the failure. *)
Fixpoint made_on_the_way (path : list string) (d : dir) : dir :=
  match path with
  | [] => d
  | n :: rest =>
      match rest with
      | [] => d
      | _ :: _ =>
          if (negb (valid_name n) || has n (dir_files d))%bool then d
          else
            let sub := match Py.assoc n (dir_subdirs d) with
                       | Some sub => sub
                       | None => empty_dir
                       end in
            Dir (dir_files d) (Py.set_assoc n (made_on_the_way rest sub) (dir_subdirs d))
      end
  end.

(** [l] with [x] at position [i], or at the end when [i] is past it. *)
Definition insert_at {A : Type} (i : nat) (x : A) (l : list A) : list A :=
  firstn i l ++ x :: skipn i l.

(** The entries of a directory in the order a listing ([os.scandir])
    shows them.  That order is the file system's own: [place n names] is the
    position at which it shows the name [n] among [names], the names it
    shows of the other entries.  Whatever [place] answers, the listing
    holds every entry once. *)
Fixpoint arrange {A : Type} (place : string -> list string -> nat)
         (l : list (string * A)) : list (string * A) :=
  match l with
  | [] => []
  | x :: r =>
      let r' := arrange place r in
      insert_at (place (fst x) (map fst r')) x r'
  end.

(** A tree with every directory in listing order; [place] is asked with
    the components of the directory below the root. *)
Fixpoint listed (place : list string -> string -> list string -> nat)
         (at_ : list string) (d : dir) : dir :=
  match d with
  | Dir fs ds =>
      Dir (arrange (place at_) fs)
          (arrange (place at_)
             (map (fun nd => (fst nd, listed place (at_ ++ [fst nd]) (snd nd))) ds))
  end.

(** [os.walk(top)] over a tree in listing order, top-down: a directory
    with its files, then the walks of its subdirectories.  A directory is
    named by its components below [top]; [os.walk] yields the names of the
    files, kept here with the bytes a later read of that file gives. *)
Fixpoint walk (at_ : list string) (d : dir)
  : list (list string * list (string * string)) :=
  match d with
  | Dir fs ds =>
      (at_, fs) :: flat_map (fun nd => walk (at_ ++ [fst nd]) (snd nd)) ds
  end.

End FS.

(** A member of an archive: its name as the archive lists it, and the
    components of the sanitised name it is extracted under.  [MBad] is a
    file member whose data cannot be read to the end: [data] is what
    reaches the file before the reader raises [text]. *)
Inductive member : Type :=
| MFile (name : string) (path : list string) (data : string)
| MDir (name : string) (path : list string)
| MBad (name : string) (path : list string) (data : string) (text : string).

(** A name of an archive member as [zf.namelist()] gives it. *)
Definition member_name (m : member) : string :=
  match m with
  | MFile name _ _ => name
  | MDir name _ => name
  | MBad name _ _ _ => name
  end.

(** ** The surroundings of the program *)

(** [urlopen(req)] followed by [json.load(resp)]. *)
Inductive response : Type :=
| RespOk (data : json)
| RespHTTPError (code : Z)
| RespError (text : string).

(** [urlretrieve(url, path)]: the bytes written to [path], or the error.
    An HTTP error is raised by [urlopen], before [path] is opened; another
    exception may come after that, and then [partial] is what [path] holds
    of the transfer ([None] when [path] was not opened). *)
Inductive retrieved : Type :=
| Fetched (content : string)
| FetchHTTPError (code : Z) (reason : string)
| FetchError (text : string) (partial : option string).

Record world : Type := {
  script_dir : string;                   (* os.path.dirname(__file__) *)
  system : string;                       (* platform.system() *)
  which : string -> option string;       (* shutil.which *)
  ask_download : bool;                   (* answer to "Download GZDoom now?" *)
  api_latest : response;                 (* the releases/latest query *)
  urlretrieve : string -> retrieved;     (* download of a URL *)
  unzip : string -> io (list member);    (* zipfile.ZipFile on these bytes *)
  untar : string -> io (list member);    (* tarfile.open(..., 'r:gz') *)
  read_file : string -> option string;   (* bytes of the regular file at a path *)
  read_error : string -> string;         (* str(e) of opening a path that cannot be read *)
  os_error : string -> string -> string; (* str(e) of the OSError with this strerror that
                                            writing to a path raises *)
  scandir : string -> string -> list string -> nat;
                                         (* in a listing of the directory at a path: where a
                                            name is shown among the other names *)
  mkdtemp : string;                      (* the path tempfile.TemporaryDirectory() makes *)
  ask_save_as : string;                  (* filedialog.asksaveasfilename *)
  config_error : option string;          (* the exception of save_config's write, if any *)
  open_error : string -> option string   (* the exception of opening a path for writing, if any *)
}.

(** What the program does to its surroundings, in order. *)
Inductive event : Type :=
| Makedirs (path : string)
| Which (name : string)
| AskYesNo (title msg : string)
| ShowError (title msg : string)
| ShowInfo (title msg : string)
| ShowWarning (title msg : string)
| UrlOpen (url : string)
| UrlRetrieve (url path : string)
| ExtractAll (archive dest : string)
| Chmod (path : string) (mode : Z)
| AskSaveAs (title : string)
| SaveConfig (key value : string)
| WriteZip (out : string) (entries : list (string * string))
| Status (text : string)
| Log (msg : string)
| Popen (cmd : list string).

(** The engine directory and the trace so far. *)
Record state : Type := {
  dest : dir;
  trace : list event
}.

(** ** Statements

    A block of statements of a function returning [R] either goes on with
    a value, executes [return], or raises. *)

Inductive flow (R A : Type) : Type :=
| Next (a : A)
| Return (r : R)
| Raise (e : exn).
Arguments Next {R A} a.
Arguments Return {R A} r.
Arguments Raise {R A} e.

Definition M (R A : Type) : Type := state -> flow R A * state.

Definition ret {R A : Type} (a : A) : M R A := fun s => (Next a, s).

Definition bind {R A B : Type} (m : M R A) (k : A -> M R B) : M R B :=
  fun s =>
    match m s with
    | (Next a, s') => k a s'
    | (Return r, s') => (Return r, s')
    | (Raise e, s') => (Raise e, s')
    end.

Declare Scope py_scope.
Delimit Scope py_scope with py.
Notation "x <- m ;; k" := (bind m (fun x => k))
  (at level 100, m at next level, right associativity) : py_scope.
Notation "m ;; k" := (bind m (fun _ => k))
  (at level 100, right associativity) : py_scope.
Local Open Scope py_scope.

Definition py_return {R A : Type} (r : R) : M R A := fun s => (Return r, s).
Definition py_raise {R A : Type} (e : exn) : M R A := fun s => (Raise e, s).

Definition emit {R : Type} (e : event) : M R unit :=
  fun s => (Next tt, {| dest := dest s; trace := trace s ++ [e] |}).

Definition get_dest {R : Type} : M R dir := fun s => (Next (dest s), s).
Definition set_dest {R : Type} (d : dir) : M R unit :=
  fun s => (Next tt, {| dest := d; trace := trace s |}).

Definition eval {R A : Type} (r : result A) : M R A :=
  match r with
  | Ok a => ret a
  | Err e => py_raise e
  end.

(** The outcome of a call. *)
Inductive outcome (A : Type) : Type :=
| Returned (a : A)
| Raised (e : exn).
Arguments Returned {A} a.
Arguments Raised {A} e.

Definition Fn (A : Type) : Type := state -> outcome A * state.

(** A function body whose last statement yields the value returned. *)
Definition def {A : Type} (body : M A A) : Fn A :=
  fun s =>
    match body s with
    | (Next a, s') => (Returned a, s')
    | (Return a, s') => (Returned a, s')
    | (Raise e, s') => (Raised e, s')
    end.

(** A call from inside another body. *)
Definition call {R A : Type} (f : Fn A) : M R A :=
  fun s =>
    match f s with
    | (Returned a, s') => (Next a, s')
    | (Raised e, s') => (Raise e, s')
    end.

Definition bind_result {A B : Type} (r : result A) (k : A -> result B) : result B :=
  match r with
  | Ok a => k a
  | Err e => Err e
  end.

(** ** The program *)

Definition ENGINES : list string := ["gzdoom"; "chocolate-doom"; "prboom"; "zdoom"].

Definition GZDOOM_API_LATEST : string :=
  "https://api.github.com/repos/gzdoom/gzdoom/releases/latest".

(** Truth value of a variable that holds [None] or a string. *)
Definition truthy_opt (v : option string) : bool :=
  match v with
  | Some s => PyStr.truthy s
  | None => false
  end.

(** The test of the [if]/[elif] chain on an asset's lowercased name; the
    three branches make the same assignment. *)
Definition platform_match (system name : string) : bool :=
  if (String.eqb system "Windows" && PyStr.contains "windows" name
      && PyStr.endswith ".zip" name)%bool then true
  else if (String.eqb system "Darwin"
           && (PyStr.contains "macos" name || PyStr.contains "osx" name))%bool then true
  else if (String.eqb system "Linux"
           && (PyStr.contains "linux" name && PyStr.endswith ".tar.gz" name))%bool then true
  else false.

(** The loop over the assets; [asset_url] is the variable of that name. *)
Fixpoint scan_assets (system : string) (assets : list json) (asset_url : json)
  : result json :=
  match assets with
  | [] => Ok asset_url
  | asset :: rest =>
      bind_result (Py.get asset "name" (JStr "")) (fun n =>
      bind_result (Py.lower n) (fun name =>
      bind_result (if platform_match system name
                   then Py.getitem asset "browser_download_url"
                   else Ok asset_url) (fun asset_url' =>
      if Py.truthy asset_url' then Ok asset_url'
      else scan_assets system rest asset_url')))
  end.

(** The hardcoded release 4.14.1. *)
Definition fallback_url (system : string) : string :=
  if String.eqb system "Windows" then
    "https://github.com/ZDoom/gzdoom/releases/download/g4.14.1/gzdoom-4-14-1-windows.zip"
  else if String.eqb system "Darwin" then
    "https://github.com/ZDoom/gzdoom/releases/download/g4.14.1/gzdoom-4-14-1-macos.zip"
  else
    "https://github.com/ZDoom/gzdoom/releases/download/g4.14.1/gzdoom_4.14.1_amd64.deb".

(** [asset_url] after the [if data: ... else: ...] statement. *)
Definition choose_asset_url (system : string) (data : json) : result json :=
  if Py.truthy data then
    bind_result (Py.get data "assets" (JList [])) (fun assets =>
    bind_result (Py.iter assets) (fun items =>
    scan_assets system items JNull))
  else Ok (JStr (fallback_url system)).

(** The test on a file name in the search for the executable. *)
Definition is_engine_file (file : string) : bool :=
  let low := PyStr.lower file in
  (PyStr.contains "gzdoom" low
   && (PyStr.endswith ".exe" low
       || negb (PyStr.truthy (PosixPath.splitext_ext low))))%bool.

Definition mode_755 : Z := 493.

Section Program.

Variable w : world.

Definition dest_dir : string :=
  PosixPath.join (script_dir w) ["engines"; "gzdoom"].

(** *** [download_gzdoom] *)

(** The metadata query: the value of [data] after the [try] statement,
    [JNull] standing for [None]. *)
Definition fetch_release_data : M (option string) json :=
  emit (UrlOpen GZDOOM_API_LATEST) ;;
  match api_latest w with
  | RespOk data => ret data
  | RespHTTPError code =>
      if negb (Z.eqb code 404) then
        emit (ShowError "Download Failed"
                ("Could not fetch GZDoom releases: HTTP " ++ PyStr.of_Z code)) ;;
        py_return None
      else ret JNull
  | RespError text =>
      emit (ShowError "Download Failed"
              ("Could not fetch GZDoom releases: " ++ text)) ;;
      py_return None
  end.

Definition archive_path_of (asset_url : string) : string :=
  PosixPath.join dest_dir [PosixPath.basename asset_url].

(** The tree of the directory at [top] as a listing shows it. *)
Definition listdir (top : string) (d : dir) : dir :=
  FS.listed (fun at_ => scandir w (PosixPath.join top at_)) [] d.

(** [zf.extract(m, top)] below [d], the tree of [top]: the tree as the
    call leaves it, and the text of its exception if it raised. *)
Definition extract_member (top : string) (m : member) (d : dir)
  : dir * option string :=
  match m with
  | MFile _ path data =>
      match FS.write_file path data d with
      | Done d' => (d', None)
      | Failed kind =>
          (FS.made_on_the_way path d, Some (os_error w kind (PosixPath.join top path)))
      end
  | MDir _ path =>
      match FS.make_dirs path d with
      | Done d' => (d', None)
      | Failed kind =>
          (FS.made_on_the_way path d, Some (os_error w kind (PosixPath.join top path)))
      end
  | MBad _ path data text =>
      match FS.write_file path data d with
      | Done d' => (d', Some text)
      | Failed kind =>
          (FS.made_on_the_way path d, Some (os_error w kind (PosixPath.join top path)))
      end
  end.

(** [extractall(top)]: the members in archive order; the first failure
    stops the extraction and leaves what was unpacked before it. *)
Fixpoint extractall (top : string) (ms : list member) (d : dir)
  : dir * option string :=
  match ms with
  | [] => (d, None)
  | m :: rest =>
      match extract_member top m d with
      | (d', None) => extractall top rest d'
      | (d', Some text) => (d', Some text)
      end
  end.

(** What a failed [urlretrieve] leaves of the file named [n] in [d]. *)
Definition left_by_fetch (r : retrieved) (n : string) (d : dir) : dir :=
  match r with
  | FetchError _ (Some bytes) =>
      match FS.write_file [n] bytes d with
      | Done d' => d'
      | Failed _ => d
      end
  | _ => d
  end.

(** The download: the bytes now stored at [archive_path]. *)
Definition fetch_archive (asset_url : string) : M (option string) string :=
  emit (UrlRetrieve asset_url (archive_path_of asset_url)) ;;
  match urlretrieve w asset_url with
  | Fetched content =>
      d <- get_dest ;;
      match FS.write_file [PosixPath.basename asset_url] content d with
      | Done d' => set_dest d' ;; ret content
      | Failed kind =>
          emit (ShowError "Download Failed"
                  ("Error downloading archive: "
                     ++ os_error w kind (archive_path_of asset_url))) ;;
          py_return None
      end
  | FetchHTTPError code reason =>
      emit (ShowError "Download Failed"
              ("HTTP Error " ++ PyStr.of_Z code ++ ": " ++ reason)) ;;
      py_return None
  | FetchError text partial =>
      d <- get_dest ;;
      set_dest (left_by_fetch (FetchError text partial)
                  (PosixPath.basename asset_url) d) ;;
      emit (ShowError "Download Failed"
              ("Error downloading archive: " ++ text)) ;;
      py_return None
  end.

(** One branch of the extraction: open the archive, [extractall].  An
    archive that cannot be opened leaves the tree as it is; a failure in
    [extractall] leaves what was unpacked before it. *)
Definition extract_with (reader : string -> io (list member))
           (archive_path content : string) : M (option string) unit :=
  emit (ExtractAll archive_path dest_dir) ;;
  d <- get_dest ;;
  match reader content with
  | Done ms =>
      match extractall dest_dir ms d with
      | (d', None) => set_dest d'
      | (d', Some text) =>
          set_dest d' ;;
          emit (ShowError "Extraction Failed"
                  ("Could not extract GZDoom: " ++ text)) ;;
          py_return None
      end
  | Failed text =>
      emit (ShowError "Extraction Failed"
              ("Could not extract GZDoom: " ++ text)) ;;
      py_return None
  end.

(** The [# Extract archive] statement. *)
Definition extract_archive (archive_path content : string)
  : M (option string) unit :=
  if PyStr.endswith ".zip" archive_path then
    extract_with (unzip w) archive_path content
  else if PyStr.endswith ".tar.gz" archive_path then
    extract_with (untar w) archive_path content
  else if PyStr.endswith ".dmg" archive_path then
    emit (ShowInfo "Manual Step Required"
            ("Please mount " ++ archive_path ++ " and copy GZDoom.app to "
               ++ dest_dir ++ ".")) ;;
    py_return None
  else ret tt.

(** The inner loop of the search: [Some p] when it assigned [exe_path]. *)
Fixpoint scan_files (root : string) (files : list string)
  : M (option string) (option string) :=
  match files with
  | [] => ret None
  | file :: rest =>
      if is_engine_file file then
        let exe_path := PosixPath.join root [file] in
        emit (Chmod exe_path mode_755) ;;
        ret (Some exe_path)
      else scan_files root rest
  end.

(** The outer loop, over what [os.walk(dest_dir)] yields. *)
Fixpoint scan_walk (dirs : list (list string * list (string * string)))
         (exe_path : option string) : M (option string) (option string) :=
  match dirs with
  | [] => ret exe_path
  | (at_, files) :: rest =>
      found <- scan_files (PosixPath.join dest_dir at_) (map fst files) ;;
      let exe_path' := match found with
                       | Some p => Some p
                       | None => exe_path
                       end in
      if truthy_opt exe_path' then ret exe_path'
      else scan_walk rest exe_path'
  end.

(** The [# Locate the executable] part, to the end of the function. *)
Definition locate_executable : M (option string) (option string) :=
  d <- get_dest ;;
  exe_path <- scan_walk (FS.walk [] (listdir dest_dir d)) None ;;
  (if negb (truthy_opt exe_path)
   then emit (ShowError "Error" "GZDoom executable not found after extraction.")
   else ret tt) ;;
  ret exe_path.

(** The function up to [archive_path]: the URL to download. *)
Definition select_url : M (option string) string :=
  emit (Makedirs dest_dir) ;;
  data <- fetch_release_data ;;
  asset_url <- eval (choose_asset_url (system w) data) ;;
  (if negb (Py.truthy asset_url)
   then emit (ShowError "Download Failed"
                "No suitable GZDoom build found for your platform.") ;;
        py_return None
   else ret tt) ;;
  eval (Py.as_path asset_url).

(** The function up to the end of the extraction: the archive is in
    place and, where its kind allows, unpacked. *)
Definition acquire_archive : M (option string) unit :=
  asset_url <- select_url ;;
  content <- fetch_archive asset_url ;;
  extract_archive (archive_path_of asset_url) content.

Definition download_gzdoom : Fn (option string) :=
  def (acquire_archive ;; locate_executable).

(** *** [find_engine] *)

Fixpoint try_engine_names (engine_names : list string) : M (option string) unit :=
  match engine_names with
  | [] => ret tt
  | name :: rest =>
      emit (Which name) ;;
      let path := which w name in
      if truthy_opt path then py_return path
      else try_engine_names rest
  end.

Definition find_engine (engine_names : list string) : Fn (option string) :=
  def (try_engine_names engine_names ;;
       emit (AskYesNo "Engine Not Found" "No DOOM engine found. Download GZDoom now?") ;;
       if ask_download w then call download_gzdoom
       else ret None).

(** *** [run_wad] *)

Definition isfile (p : string) : bool :=
  match read_file w p with Some _ => true | None => false end.

(** The loop that checks the mods. *)
Fixpoint check_mods (mod_paths : list string) : M unit (list string) :=
  match mod_paths with
  | [] => ret []
  | p :: rest =>
      if isfile p then
        mods <- check_mods rest ;;
        ret (p :: mods)
      else
        emit (ShowError "Error" ("Mod file '" ++ p ++ "' not found.")) ;;
        py_return tt
  end.

(** The [# Determine engine] statement: the value of [engine_path]. *)
Definition determine_engine (engine_choice custom_engine_path : option string)
  : M unit string :=
  let otherwise : M unit string :=
    if (truthy_opt engine_choice
        && negb (match engine_choice with
                 | Some c => String.eqb c "Auto"
                 | None => false
                 end))%bool
    then
      let name := match engine_choice with Some c => c | None => "" end in
      emit (Which name) ;;
      match which w name with
      | Some p =>
          if PyStr.truthy p then ret p
          else emit (ShowError "Error" ("Engine '" ++ name ++ "' not found on PATH.")) ;;
               py_return tt
      | None =>
          emit (ShowError "Error" ("Engine '" ++ name ++ "' not found on PATH.")) ;;
          py_return tt
      end
    else
      engine_path <- call (find_engine ENGINES) ;;
      match engine_path with
      | Some p => if PyStr.truthy p then ret p else py_return tt
      | None => py_return tt
      end
  in
  match custom_engine_path with
  | Some p => if PyStr.truthy p then ret p else otherwise
  | None => otherwise
  end.

(** [run_wad], to the start of the thread that runs the engine; the
    thread is the event [Popen].  [status_label] tells whether the caller
    passed a label; the launch button only changes its own state. *)
Definition run_wad (wad_path : string)
           (engine_choice custom_engine_path : option string)
           (mod_paths : option (list string))
           (status_label : bool) : Fn unit :=
  def ((if negb (isfile wad_path)
        then emit (ShowError "Error" ("WAD file '" ++ wad_path ++ "' not found.")) ;;
             py_return tt
        else ret tt) ;;
       mods <- check_mods (match mod_paths with Some l => l | None => [] end) ;;
       engine_path <- determine_engine engine_choice custom_engine_path ;;
       let cmd := [engine_path; "-iwad"; wad_path]
                    ++ flat_map (fun m => ["-file"; m]) mods in
       emit (Log ("Launching: " ++ PyStr.join " " cmd)) ;;
       (if status_label then emit (Status "Launching...") else ret tt) ;;
       emit (Popen cmd)).

(** *** [export_mods] *)

Definition save_config (key value : string) : M unit unit :=
  match config_error w with
  | None => emit (SaveConfig key value)
  | Some text =>
      emit (ShowWarning "Config Warning" ("Could not save config: " ++ text))
  end.

(** [shutil.copy(p, os.path.join(tempdir, os.path.basename(p)))]: the
    source is opened first; a destination that is a directory receives
    the file under the source's base name.  A failure carries the text of
    the exception. *)
Definition copy_into (p : string) (tempdir : dir) : io dir :=
  match read_file w p with
  | None => Failed (read_error w p)
  | Some bytes =>
      let n := PosixPath.basename p in
      let dst := if FS.has n (dir_subdirs tempdir)
                 then [n; PosixPath.basename p] else [n] in
      match FS.write_file dst bytes tempdir with
      | Done tempdir' => Done tempdir'
      | Failed kind => Failed (os_error w kind (PosixPath.join (mkdtemp w) dst))
      end
  end.

(** [zipfile.ZipFile(p, 'r').extractall(tempdir)] *)
Definition unpack_into (p : string) (tempdir : dir) : io dir :=
  match read_file w p with
  | None => Failed (read_error w p)
  | Some bytes =>
      match unzip w bytes with
      | Done ms =>
          match extractall (mkdtemp w) ms tempdir with
          | (tempdir', None) => Done tempdir'
          | (_, Some text) => Failed text
          end
      | Failed text => Failed text
      end
  end.

Definition is_archive_ext (ext : string) : bool :=
  existsb (String.eqb ext) [".zip"; ".pk3"].

(** The loop that fills the staging directory. *)
Fixpoint stage_mods (mods : list string) (tempdir : dir) : io dir :=
  match mods with
  | [] => Done tempdir
  | p :: rest =>
      let ext := PyStr.lower (PosixPath.splitext_ext p) in
      match (if is_archive_ext ext then unpack_into p tempdir
             else copy_into p tempdir) with
      | Done tempdir' => stage_mods rest tempdir'
      | Failed text => Failed text
      end
  end.

(** The entries [zf.write(full, arc)] adds, in the order [os.walk(tempdir)]
    gives the files; [arc], the path of [full] relative to the staging
    root, joins the components below the root. *)
Definition archive_entries (tempdir : dir) : list (string * string) :=
  flat_map (fun rf : list string * list (string * string) =>
              map (fun f => (PyStr.join "/" (fst rf ++ [fst f]), snd f)) (snd rf))
           (FS.walk [] (listdir (mkdtemp w) tempdir)).

(** [mods] is what the listbox holds. *)
Definition export_mods (mods : list string) (status_label : bool) : Fn unit :=
  def ((match mods with
        | [] => emit (ShowInfo "Info" "No mods to export.") ;; py_return tt
        | _ :: _ => ret tt
        end) ;;
       emit (AskSaveAs "Export Combined Mod") ;;
       let out_path := ask_save_as w in
       (if negb (PyStr.truthy out_path) then py_return tt else ret tt) ;;
       save_config "last_export_dir" (PosixPath.dirname out_path) ;;
       (if status_label then emit (Status "Exporting mods...") else ret tt) ;;
       (match stage_mods mods empty_dir with
        | Done tempdir =>
            match open_error w out_path with
            | None =>
                emit (WriteZip out_path (archive_entries tempdir)) ;;
                emit (ShowInfo "Success" ("Combined mod exported to " ++ out_path))
            | Some text =>
                emit (ShowError "Error" ("Failed to export combined mod: " ++ text))
            end
        | Failed text =>
            emit (ShowError "Error" ("Failed to export combined mod: " ++ text))
        end) ;;
       (if status_label then emit (Status "Ready") else ret tt)).

End Program.

(** The state after further events. *)
Definition logged (s : state) (es : list event) : state :=
  {| dest := dest s; trace := trace s ++ es |}.

(** ** Sample surroundings

    Concrete worlds on which the statements below are exercised. *)

(** A release asset as the GitHub API lists it. *)
Definition asset (name url : string) : json :=
  JDict [("name", JStr name); ("browser_download_url", JStr url)].

(** [str(e)] of an [OSError] as Python words it, for a path that holds no
    quote or backslash: the error number, the [strerror], the path. *)
Definition oserror_text (kind path : string) : string :=
  let errno := if String.eqb kind "No such file or directory" then "2"
               else if String.eqb kind "File exists" then "17"
               else if String.eqb kind "Not a directory" then "20"
               else "21" in
  "[Errno " ++ errno ++ "] " ++ kind ++ ": '" ++ path ++ "'".

(** A Linux machine: two engines of the preference list are installed,
    the metadata query answers 404, three mods lie on disk; a listing
    shows the entries of a directory in the order they were made. *)
Definition linux_box : world := {|
  script_dir := "/app";
  system := "Linux";
  which := fun n =>
    if String.eqb n "prboom" then Some "/usr/bin/prboom"
    else if String.eqb n "zdoom" then Some "/usr/bin/zdoom"
    else None;
  ask_download := true;
  api_latest := RespHTTPError 404;
  urlretrieve := fun _ => Fetched "bytes";
  unzip := fun _ => Done [MFile "gzdoom-4/README.txt" ["gzdoom-4"; "README.txt"] "r";
                          MFile "gzdoom-4/GZDoom.exe" ["gzdoom-4"; "GZDoom.exe"] "x";
                          MFile "gzdoom.pk3" ["gzdoom.pk3"] "p"];
  untar := fun _ => Failed "not a gzip file";
  read_file := fun p =>
    if String.eqb p "/m/a.wad" then Some "A"
    else if String.eqb p "/n/a.wad" then Some "B"
    else if String.eqb p "/n/b.wad" then Some "C"
    else if String.eqb p "/opt/doom/engine" then Some "ELF"
    else None;
  read_error := oserror_text "No such file or directory";
  os_error := oserror_text;
  scandir := fun _ _ _ => 0;
  mkdtemp := "/tmp/tmpk1tc4t";
  ask_save_as := "/out/all.pk3";
  config_error := None;
  open_error := fun _ => None
|}.

(** The same machine with another system name and another answer of the
    metadata query. *)
Definition with_reply (system : string) (reply : response) : world := {|
  script_dir := script_dir linux_box;
  system := system;
  which := which linux_box;
  ask_download := ask_download linux_box;
  api_latest := reply;
  urlretrieve := urlretrieve linux_box;
  unzip := unzip linux_box;
  untar := untar linux_box;
  read_file := read_file linux_box;
  read_error := read_error linux_box;
  os_error := os_error linux_box;
  scandir := scandir linux_box;
  mkdtemp := mkdtemp linux_box;
  ask_save_as := ask_save_as linux_box;
  config_error := config_error linux_box;
  open_error := open_error linux_box
|}.

(** A fresh start: no engine directory yet, nothing done. *)
Definition fresh : state := {| dest := empty_dir; trace := [] |}.

(** The archives a trace records as written: where, and with what
    entries. *)
Fixpoint archives_written (es : list event)
  : list (string * list (string * string)) :=
  match es with
  | [] => []
  | WriteZip out entries :: r => (out, entries) :: archives_written r
  | _ :: r => archives_written r
  end.

(** The files of a walk in the order the two loops of the search visit
    them: each with the components of its directory. *)
Definition walk_files (dirs : list (list string * list (string * string)))
  : list (list string * string) :=
  flat_map (fun rf => map (fun f => (fst rf, fst f)) (snd rf)) dirs.

(** The first file, in the walk of the tree [d] below [top], that passes
    the test of the search; its path is joined as the search joins it.  The
    search walks the tree as the file system lists it, [listdir w top d]. *)
Definition first_engine_file (top : string) (d : dir) : option string :=
  match find (fun af => is_engine_file (snd af)) (walk_files (FS.walk [] d)) with
  | Some (at_, file) => Some (PosixPath.join (PosixPath.join top at_) [file])
  | None => None
  end.


(** A release with three builds. *)
Definition sample_release : json :=
  JDict [("tag_name", JStr "g4.14.2");
         ("assets",
          JList [asset "gzdoom-4-14-2-macos.zip" "https://h/mac.zip";
                 asset "GZDoom-4-14-2-Windows.ZIP" "https://h/win.zip";
                 asset "gzdoom-4-14-2-windows.zip" "https://h/win2.zip"])].

(** A Windows machine whose metadata query answers with that release. *)
Definition windows_box : world := with_reply "Windows" (RespOk sample_release).

(** ** The naming conventions of the specification *)

Inductive platform : Type := Windows | MacOS | Linux.

(** What [platform.system()] answers on each. *)
Definition system_name (p : platform) : string :=
  match p with
  | Windows => "Windows"
  | MacOS => "Darwin"
  | Linux => "Linux"
  end.

(** The convention a name is held against: on Windows it contains
    "windows" and ends in ".zip"; on macOS it contains "macos" or "osx"; on
    Linux it contains "linux" and ends in ".tar.gz". *)
Definition convention (p : platform) (name : string) : bool :=
  match p with
  | Windows => PyStr.contains "windows" name && PyStr.endswith ".zip" name
  | MacOS => PyStr.contains "macos" name || PyStr.contains "osx" name
  | Linux => PyStr.contains "linux" name && PyStr.endswith ".tar.gz" name
  end.

(** The [name] of an asset as the loop reads it, [asset.get('name', '')],
    when that is a string. *)
Definition asset_name (a : json) : option string :=
  match Py.get a "name" (JStr "") with
  | Ok (JStr n) => Some n
  | _ => None
  end.

(** The download URL of an asset, [asset['browser_download_url']], when
    that is a string. *)
Definition asset_url (a : json) : option string :=
  match Py.getitem a "browser_download_url" with
  | Ok (JStr u) => Some u
  | _ => None
  end.

(** ** Outcomes of the metadata query, as the specification sorts them *)

(** The query failed with "resource not found", or it succeeded with a
    body that Python holds false (such as an empty object). *)
Definition wants_fallback (r : response) : bool :=
  match r with
  | RespOk data => negb (Py.truthy data)
  | RespHTTPError code => Z.eqb code 404
  | RespError _ => false
  end.

(** Any other failure of the query, with the message shown for it. *)
Definition fatal_message (r : response) : option string :=
  match r with
  | RespOk _ => None
  | RespHTTPError code =>
      if Z.eqb code 404 then None
      else Some ("Could not fetch GZDoom releases: HTTP " ++ PyStr.of_Z code)%string
  | RespError text => Some ("Could not fetch GZDoom releases: " ++ text)%string
  end.

(** [s'] is [s] with more events. *)
Definition extends (s s' : state) : Prop :=
  exists es, trace s' = trace s ++ es.

(** A block that only ever adds to the trace. *)
Definition grows {R A : Type} (m : M R A) : Prop :=
  forall s, extends s (snd (m s)).

(** The machine of [linux_box] where the metadata query answers with an
    empty JSON object. *)
Definition empty_reply_box : world := with_reply "Linux" (RespOk (JDict [])).

(** The same where the query fails with a server error. *)
Definition server_error_box : world := with_reply "Linux" (RespHTTPError 500).

(** ** What a block may add to the trace *)

(** Every event a block adds satisfies [P]. *)
Definition emits (P : event -> Prop) {R A : Type} (m : M R A) : Prop :=
  forall s, exists es, trace (snd (m s)) = trace s ++ es /\ Forall P es.

(** The same for a call. *)
Definition fn_emits (P : event -> Prop) {A : Type} (f : Fn A) : Prop :=
  forall s, exists es, trace (snd (f s)) = trace s ++ es /\ Forall P es.

(** The events of an acquisition before the search for the executable. *)
Definition is_fetch_event (e : event) : bool :=
  match e with
  | Makedirs _ | UrlOpen _ | UrlRetrieve _ _ | ExtractAll _ _
  | ShowError _ _ | ShowInfo _ _ => true
  | _ => false
  end.

(** The events of an acquisition. *)
Definition is_download_event (e : event) : bool :=
  match e with
  | Chmod _ _ => true
  | _ => is_fetch_event e
  end.

(** The events of an engine resolution: lookups, the prompt, and those of
    an acquisition. *)
Definition is_resolution_event (e : event) : bool :=
  match e with
  | Which _ | AskYesNo _ _ => true
  | _ => is_download_event e
  end.

(** The message shown for a failed download. *)
Definition fetch_failure_message (r : retrieved) : option string :=
  match r with
  | Fetched _ => None
  | FetchHTTPError code reason =>
      Some ("HTTP Error " ++ PyStr.of_Z code ++ ": " ++ reason)%string
  | FetchError text _ => Some ("Error downloading archive: " ++ text)%string
  end.

(** The last character of a string. *)
Fixpoint last_char (s : string) : option ascii :=
  match s with
  | EmptyString => None
  | String c r => match r with EmptyString => Some c | _ => last_char r end
  end.

(** The archive reader the extraction picks for a file name, if any. *)
Definition archive_reader (w : world) (name : string)
  : option (string -> io (list member)) :=
  if PyStr.endswith ".zip" name then Some (unzip w)
  else if PyStr.endswith ".tar.gz" name then Some (untar w)
  else None.

(** Opening an archive with a reader and unpacking it below [d], the
    tree of the engine directory: the tree as that leaves it, and the text
    of the exception if one was raised. *)
Definition unpacked (w : world) (reader : string -> io (list member))
           (content : string) (d : dir) : dir * option string :=
  match reader content with
  | Done ms => extractall w (dest_dir w) ms d
  | Failed text => (d, Some text)
  end.

(** A block that executes [return] only with [None]. *)
Definition returns_none {A : Type} (m : M (option string) A) : Prop :=
  forall s r s', m s = (Return r, s') -> r = None.

(** The state once the archive is downloaded into the tree [d']. *)
Definition downloaded_state (w : world) (s : state) (url : string) (d' : dir)
  : state :=
  {| dest := d';
     trace := trace s ++ [Makedirs (dest_dir w); UrlOpen GZDOOM_API_LATEST;
                          UrlRetrieve url (archive_path_of w url)] |}.

(** A machine of [linux_box] on macOS whose release offers a disk image. *)
Definition mac_box : world :=
  with_reply "Darwin"
    (RespOk (JDict [("assets", JList [asset "GZDoom-4.14.2-macOS.dmg" "https://h/gz.dmg"])])).

(** The machine of [windows_box] with a network that refuses the download. *)
Definition offline_box : world := {|
  script_dir := script_dir windows_box;
  system := system windows_box;
  which := fun _ => None;
  ask_download := false;
  api_latest := api_latest windows_box;
  urlretrieve := fun _ => FetchHTTPError 403 "Forbidden";
  unzip := fun _ => Failed "File is not a zip file";
  untar := untar windows_box;
  read_file := read_file windows_box;
  read_error := read_error windows_box;
  os_error := os_error windows_box;
  scandir := scandir windows_box;
  mkdtemp := mkdtemp windows_box;
  ask_save_as := "";
  config_error := Some "Permission denied";
  open_error := open_error windows_box
|}.

(** The machine of [windows_box] where the download arrives damaged. *)
Definition damaged_box : world := {|
  script_dir := script_dir windows_box;
  system := system windows_box;
  which := which windows_box;
  ask_download := true;
  api_latest := api_latest windows_box;
  urlretrieve := urlretrieve windows_box;
  unzip := fun _ => Failed "File is not a zip file";
  untar := untar windows_box;
  read_file := read_file windows_box;
  read_error := read_error windows_box;
  os_error := os_error windows_box;
  scandir := scandir windows_box;
  mkdtemp := mkdtemp windows_box;
  ask_save_as := ask_save_as windows_box;
  config_error := None;
  open_error := open_error windows_box
|}.

(** A release whose Windows build lacks its download URL. *)
Definition broken_release : json :=
  JDict [("assets",
          JList [asset "gzdoom-4-14-2-macos.zip" "https://h/mac.zip";
                 JDict [("name", JStr "gzdoom-4-14-2-windows.zip")]])].

(** ** The command [run_wad] starts *)

(** [[engine_path, '-iwad', wad_path] + sum([['-file', m] for m in mods], [])] *)
Definition command_line (engine_path wad_path : string) (mods : list string)
  : list string :=
  [engine_path; "-iwad"; wad_path] ++ flat_map (fun m => ["-file"; m]) mods.

(** What [run_wad] does once the engine is known. *)
Definition launch_events (status_label : bool) (cmd : list string) : list event :=
  [Log ("Launching: " ++ PyStr.join " " cmd)]
    ++ (if status_label then [Status "Launching..."] else [])
    ++ [Popen cmd].

(** The mods of a call: [None] and the empty list alike give none. *)
Definition mods_of (mod_paths : option (list string)) : list string :=
  match mod_paths with
  | Some l => l
  | None => []
  end.

(** ** What [export_mods] stages and shows *)




(** What [save_config] adds to the trace. *)
Definition config_events (w : world) (key value : string) : list event :=
  match config_error w with
  | None => [SaveConfig key value]
  | Some text => [ShowWarning "Config Warning" ("Could not save config: " ++ text)]
  end.

(** A change of the status label, when there is one. *)
Definition status_events (status_label : bool) (text : string) : list event :=
  if status_label then [Status text] else [].


(** ** The list of mods *)

(** [p in listbox.get(0, tk.END)] *)
Definition in_listbox (p : string) (listbox : list string) : bool :=
  existsb (String.eqb p) listbox.

(** The loop of [add_mods]: a path not yet in the listbox goes to its
    end. *)
Fixpoint insert_new (paths listbox : list string) : list string :=
  match paths with
  | [] => listbox
  | p :: rest =>
      insert_new rest (if in_listbox p listbox then listbox else listbox ++ [p])
  end.

(** [listbox.delete(idx)]: an index past the end deletes nothing. *)
Definition listbox_delete (idx : nat) (listbox : list string) : list string :=
  firstn idx listbox ++ skipn (S idx) listbox.

(** [remove_selected]; [selection] is [listbox.curselection()]. *)
Definition remove_selected (selection : list nat) (listbox : list string)
  : list string :=
  fold_left (fun l idx => listbox_delete idx l) (rev selection) listbox.

(** The items of a list, counted from [i], whose index is not selected. *)
Fixpoint unselected (selection : list nat) (i : nat) (l : list string)
  : list string :=
  match l with
  | [] => []
  | x :: r =>
      if existsb (Nat.eqb i) selection then unselected selection (S i) r
      else x :: unselected selection (S i) r
  end.

(** ** The form and its presets *)

(** A preset as the configuration holds it; [None] is a missing key. *)
Record preset : Type := {
  p_wad : option string;
  p_engine : option string;
  p_custom : option string;
  p_mods : option (list string)
}.

(** The variables of the form of [create_gui], the dict [presets], and
    the presets the configuration file holds. *)
Record gui : Type := {
  presets : list (string * preset);
  saved_presets : list (string * preset);
  preset_values : list string;            (* preset_cb['values'] *)
  preset_var : string;
  wad_var : string;
  engine_var : string;
  custom_var : string;
  mod_listbox : list string
}.

(** [presets.pop(name)] *)
Fixpoint remove_assoc {A : Type} (k : string) (l : list (string * A))
  : list (string * A) :=
  match l with
  | [] => []
  | (k', v) :: r =>
      if String.eqb k' k then remove_assoc k r else (k', v) :: remove_assoc k r
  end.

(** [data.get(key, default)] on a preset. *)
Definition get_or {A : Type} (v : option A) (default : A) : A :=
  match v with
  | Some x => x
  | None => default
  end.

(** The test of [download_freedoom] on a member. *)
Definition is_freedoom2 (m : member) : bool :=
  PyStr.endswith "freedoom2.wad" (PyStr.lower (member_name m)).

(** [zf.getinfo(name)]: of the members with that name the archive's
    directory keeps the last; [m] is one of them. *)
Definition getinfo (name : string) (ms : list member) (m : member) : member :=
  fold_left (fun found x => if String.eqb (member_name x) name then x else found)
            ms m.

Definition FREEDOOM_URL : string :=
  "https://github.com/freedoom/freedoom/releases/download/v0.13.0/freedoom-0.13.0.zip".

(** [str(e)] for a failed [urlretrieve]. *)
Definition fetch_error_text (r : retrieved) : string :=
  match r with
  | Fetched _ => ""
  | FetchHTTPError code reason => "HTTP Error " ++ PyStr.of_Z code ++ ": " ++ reason
  | FetchError text _ => text
  end.

Section Gui.

Variable w : world.

(** [add_mods]; [paths] is what the file dialog returns, [listbox] what
    the listbox holds; the result is what it holds afterwards. *)
Definition add_mods (paths listbox : list string) : Fn (list string) :=
  def (match paths with
       | [] => ret listbox
       | first :: _ =>
           call (def (save_config w "last_mod_dir" (PosixPath.dirname first))) ;;
           ret (insert_new paths listbox)
       end).

(** [config['presets'] = presets; save_config(config)] *)
Definition save_presets (g : gui) : M gui gui :=
  match config_error w with
  | None =>
      ret {| presets := presets g;
             saved_presets := presets g;
             preset_values := preset_values g;
             preset_var := preset_var g;
             wad_var := wad_var g;
             engine_var := engine_var g;
             custom_var := custom_var g;
             mod_listbox := mod_listbox g |}
  | Some text =>
      emit (ShowWarning "Config Warning" ("Could not save config: " ++ text)) ;;
      ret g
  end.

(** [save_current_preset]; [answer] is what the name dialog returns. *)
Definition save_current_preset (answer : option string) (g : gui) : Fn gui :=
  def (if negb (truthy_opt answer) then py_return g
       else
         let name := get_or answer "" in
         let entry := {| p_wad := Some (wad_var g);
                         p_engine := Some (engine_var g);
                         p_custom := Some (custom_var g);
                         p_mods := Some (mod_listbox g) |} in
         g1 <- save_presets
                 {| presets := Py.set_assoc name entry (presets g);
                    saved_presets := saved_presets g;
                    preset_values := preset_values g;
                    preset_var := preset_var g;
                    wad_var := wad_var g;
                    engine_var := engine_var g;
                    custom_var := custom_var g;
                    mod_listbox := mod_listbox g |} ;;
         emit (Status ("Preset '" ++ name ++ "' saved.")) ;;
         ret {| presets := presets g1;
                saved_presets := saved_presets g1;
                preset_values := map fst (presets g1);
                preset_var := name;
                wad_var := wad_var g1;
                engine_var := engine_var g1;
                custom_var := custom_var g1;
                mod_listbox := mod_listbox g1 |}).

(** [load_preset] *)
Definition load_preset (g : gui) : Fn gui :=
  def (let name := preset_var g in
       match (if PyStr.truthy name then Py.assoc name (presets g) else None) with
       | None => py_return g
       | Some data =>
           emit (Status ("Preset '" ++ name ++ "' loaded.")) ;;
           ret {| presets := presets g;
                  saved_presets := saved_presets g;
                  preset_values := preset_values g;
                  preset_var := preset_var g;
                  wad_var := get_or (p_wad data) "";
                  engine_var := get_or (p_engine data) "Auto";
                  custom_var := get_or (p_custom data) "";
                  mod_listbox := get_or (p_mods data) [] |}
       end).

(** [delete_current_preset]; [confirm] is the answer to the question. *)
Definition delete_current_preset (confirm : bool) (g : gui) : Fn gui :=
  def (let name := preset_var g in
       match (if PyStr.truthy name then Py.assoc name (presets g) else None) with
       | None => py_return g
       | Some _ =>
           emit (AskYesNo "Delete Preset" ("Delete preset '" ++ name ++ "'?")) ;;
           if confirm then
             g1 <- save_presets
                     {| presets := remove_assoc name (presets g);
                        saved_presets := saved_presets g;
                        preset_values := preset_values g;
                        preset_var := preset_var g;
                        wad_var := wad_var g;
                        engine_var := engine_var g;
                        custom_var := custom_var g;
                        mod_listbox := mod_listbox g |} ;;
             emit (Status ("Preset '" ++ name ++ "' deleted.")) ;;
             ret {| presets := presets g1;
                    saved_presets := saved_presets g1;
                    preset_values := map fst (presets g1);
                    preset_var := "";
                    wad_var := "";
                    engine_var := "Auto";
                    custom_var := "";
                    mod_listbox := [] |}
           else ret g
       end).

(** The loop over [zf.namelist()] of [download_freedoom], with its
    [else]: the first member whose lowercased name ends in
    "freedoom2.wad". *)
Fixpoint first_freedoom2 (ms : list member) : option member :=
  match ms with
  | [] => None
  | m :: rest => if is_freedoom2 m then Some m else first_freedoom2 rest
  end.

(** The [try] block of [download_freedoom] up to the extraction: the tree
    of the directory as the block leaves it, with the value of [freedoom2]
    (the directory joined with the member's name as the archive lists it),
    [None] when the archive holds no such member, or the text of the
    exception. *)
Definition fetch_freedoom (dest_path : string) (iwads : dir)
  : dir * io (option string) :=
  let zip_name := "freedoom-0.13.0.zip" in
  match urlretrieve w FREEDOOM_URL with
  | Fetched content =>
      match FS.write_file [zip_name] content iwads with
      | Done iwads1 =>
          match unzip w content with
          | Done ms =>
              match first_freedoom2 ms with
              | Some m =>
                  let name := member_name m in
                  match extract_member w dest_path (getinfo name ms m) iwads1 with
                  | (iwads2, None) =>
                      (iwads2, Done (Some (PosixPath.join dest_path [name])))
                  | (iwads2, Some text) => (iwads2, Failed text)
                  end
              | None => (iwads1, Done None)
              end
          | Failed text => (iwads1, Failed text)
          end
      | Failed kind =>
          (iwads, Failed (os_error w kind (PosixPath.join dest_path [zip_name])))
      end
  | failure =>
      (left_by_fetch failure zip_name iwads, Failed (fetch_error_text failure))
  end.

(** [download_freedoom]; [freedoom_dir] is [config.get('freedoom_dir')],
    [iwads] the tree of the destination directory, [wad] the value of
    [wad_var]; the result is the tree and [wad_var] afterwards. *)
Definition download_freedoom (freedoom_dir : option string)
           (iwads : dir) (wad : string) : Fn (dir * string) :=
  def (emit (Status "Downloading FreeDoom IWAD...") ;;
       let dest_path := get_or freedoom_dir (PosixPath.join (script_dir w) ["iwads"]) in
       emit (Makedirs dest_path) ;;
       emit (UrlRetrieve FREEDOOM_URL (PosixPath.join dest_path ["freedoom-0.13.0.zip"])) ;;
       match fetch_freedoom dest_path iwads with
       | (iwads', Done (Some freedoom2)) =>
           call (def (save_config w "last_wad_dir" dest_path)) ;;
           emit (Status "FreeDoom IWAD ready.") ;;
           ret (iwads', freedoom2)
       | (iwads', Done None) =>
           emit (ShowError "Error" "freedoom2.wad not found in archive.") ;;
           emit (Status "Ready") ;;
           py_return (iwads', wad)
       | (iwads', Failed text) =>
           emit (ShowError "Download Failed" ("Failed to download FreeDoom: " ++ text)) ;;
           emit (Status "Ready") ;;
           ret (iwads', wad)
       end).

End Gui.

(** Indices in strictly ascending order, as [curselection] gives them. *)
Fixpoint ascending (l : list nat) : bool :=
  match l with
  | [] => true
  | a :: r =>
      match r with
      | [] => true
      | b :: _ => Nat.ltb a b && ascending r
      end
  end.

(** A form as [create_gui] starts it, with no presets. *)
Definition blank_form : gui := {|
  presets := [];
  saved_presets := [];
  preset_values := [];
  preset_var := "";
  wad_var := "";
  engine_var := "Auto";
  custom_var := "";
  mod_listbox := []
|}.

(** A form filled in by the user. *)
Definition filled_form : gui := {|
  presets := [("vanilla", {| p_wad := Some "/m/doom.wad"; p_engine := None;
                             p_custom := None; p_mods := None |})];
  saved_presets := [];
  preset_values := ["vanilla"];
  preset_var := "";
  wad_var := "/m/a.wad";
  engine_var := "prboom";
  custom_var := "";
  mod_listbox := ["/n/b.wad"; "/n/a.wad"]
|}.

(** The machine of [linux_box] where the FreeDoom archive unpacks. *)
Definition freedoom_box : world := {|
  script_dir := script_dir linux_box;
  system := system linux_box;
  which := which linux_box;
  ask_download := ask_download linux_box;
  api_latest := api_latest linux_box;
  urlretrieve := urlretrieve linux_box;
  unzip := fun _ => Done [MDir "freedoom-0.13.0/" ["freedoom-0.13.0"];
                          MFile "freedoom-0.13.0/COPYING.txt"
                                ["freedoom-0.13.0"; "COPYING.txt"] "c";
                          MFile "freedoom-0.13.0/freedoom1.wad"
                                ["freedoom-0.13.0"; "freedoom1.wad"] "one";
                          MFile "freedoom-0.13.0/FreeDoom2.WAD"
                                ["freedoom-0.13.0"; "FreeDoom2.WAD"] "two";
                          MFile "freedoom-0.13.0/extra/freedoom2.wad"
                                ["freedoom-0.13.0"; "extra"; "freedoom2.wad"] "other"];
  untar := untar linux_box;
  read_file := read_file linux_box;
  read_error := read_error linux_box;
  os_error := os_error linux_box;
  scandir := scandir linux_box;
  mkdtemp := mkdtemp linux_box;
  ask_save_as := ask_save_as linux_box;
  config_error := config_error linux_box;
  open_error := open_error linux_box
|}.

(** ** Further sample surroundings *)

(** The machine of [windows_box] whose archive holds [ms] and whose file
    system lists a directory as [place] says. *)
Definition box_with (ms : list member)
           (place : string -> string -> list string -> nat) : world := {|
  script_dir := script_dir windows_box;
  system := system windows_box;
  which := which windows_box;
  ask_download := ask_download windows_box;
  api_latest := api_latest windows_box;
  urlretrieve := urlretrieve windows_box;
  unzip := fun _ => Done ms;
  untar := untar windows_box;
  read_file := read_file windows_box;
  read_error := read_error windows_box;
  os_error := os_error windows_box;
  scandir := place;
  mkdtemp := mkdtemp windows_box;
  ask_save_as := ask_save_as windows_box;
  config_error := config_error windows_box;
  open_error := open_error windows_box
|}.

(** A listing in the order the entries were made, and one in the reverse
    order. *)
Definition oldest_first : string -> string -> list string -> nat :=
  fun _ _ _ => 0.
Definition newest_first : string -> string -> list string -> nat :=
  fun _ _ names => length names.

(** An archive with two files that pass the test of the search. *)
Definition two_engines : list member :=
  [MFile "gzdoom-a" ["gzdoom-a"] "a"; MFile "gzdoom-b" ["gzdoom-b"] "b"].

(** An archive whose second member lies below its first, a file. *)
Definition clashing_archive : list member :=
  [MFile "gzdoom" ["gzdoom"] "x";
   MFile "gzdoom/readme.txt" ["gzdoom"; "readme.txt"] "r"].

(** The machine of [windows_box] where the transfer stops after three of
    five bytes. *)
Definition stalled_box : world := {|
  script_dir := script_dir windows_box;
  system := system windows_box;
  which := which windows_box;
  ask_download := ask_download windows_box;
  api_latest := api_latest windows_box;
  urlretrieve := fun _ =>
    FetchError "<urlopen error retrieval incomplete: got only 3 out of 5 bytes>"
               (Some "byt");
  unzip := unzip windows_box;
  untar := untar windows_box;
  read_file := read_file windows_box;
  read_error := read_error windows_box;
  os_error := os_error windows_box;
  scandir := scandir windows_box;
  mkdtemp := mkdtemp windows_box;
  ask_save_as := ask_save_as windows_box;
  config_error := config_error windows_box;
  open_error := open_error windows_box
|}.

(** * Properties *)

(** ** Paths *)

Example basename_url :
  PosixPath.basename "https://h/d/gzdoom_4.14.1_amd64.deb" = "gzdoom_4.14.1_amd64.deb".
Proof. reflexivity. Qed.

Example dirname_examples :
  map PosixPath.dirname ["/a/b/out.pk3"; "out.pk3"; "/out.pk3"; "a//b"; "//x"]
  = ["/a/b"; ""; "/"; "a"; "//"].
Proof. reflexivity. Qed.

Example splitext_examples :
  map PosixPath.splitext_ext
      ["gzdoom"; "gzdoom.exe"; ".gzdoom"; "a.tar.gz"; "dir.d/gzdoom"; "gzdoom."; "..x.y"; "/x/A.PK3"]
  = [""; ".exe"; ""; ".gz"; ""; "."; ".y"; ".PK3"].
Proof. reflexivity. Qed.

(** ** Reasoning about traces *)

Lemma logged_nil (s : state) : logged s [] = s.
Proof. destruct s; unfold logged; simpl. now rewrite app_nil_r. Qed.

Lemma logged_logged (s : state) (es es' : list event) :
  logged (logged s es) es' = logged s (es ++ es').
Proof. unfold logged; simpl. now rewrite app_assoc. Qed.

Lemma emit_logged {R : Type} (e : event) (s : state) :
  @emit R e s = (Next tt, logged s [e]).
Proof. reflexivity. Qed.

Lemma dest_logged (s : state) (es : list event) : dest (logged s es) = dest s.
Proof. reflexivity. Qed.

(** How a block goes on after its first statement. *)
Lemma bind_next {R A B : Type} (m : M R A) (k : A -> M R B)
      (s s' : state) (a : A) :
  m s = (Next a, s') -> bind m k s = k a s'.
Proof. intros H. unfold bind. now rewrite H. Qed.

Lemma bind_return {R A B : Type} (m : M R A) (k : A -> M R B)
      (s s' : state) (r : R) :
  m s = (Return r, s') -> bind m k s = (Return r, s').
Proof. intros H. unfold bind. now rewrite H. Qed.

Lemma bind_emit {R B : Type} (e : event) (k : unit -> M R B) (s : state) :
  bind (emit e) k s = k tt (logged s [e]).
Proof. reflexivity. Qed.

(** ** [find_engine]: the first resolvable name wins *)

Section FindEngine.

Variable w : world.

(** Names that do not resolve are asked of the search path, one after the
    other, and the loop goes on. *)
Lemma try_engine_names_skip (pre rest : list string) (s : state) :
  (forall n, In n pre -> truthy_opt (which w n) = false) ->
  try_engine_names w (pre ++ rest) s
  = try_engine_names w rest (logged s (map Which pre)).
Proof.
  revert s. induction pre as [|n pre IH]; intros s Hpre; simpl.
  - now rewrite logged_nil.
  - unfold bind at 1. rewrite emit_logged.
    rewrite (Hpre n (or_introl eq_refl)).
    rewrite IH by (intros m Hm; apply Hpre; now right).
    now rewrite logged_logged.
Qed.

Lemma try_engine_names_hit (name path : string) (rest : list string) (s : state) :
  which w name = Some path ->
  PyStr.truthy path = true ->
  try_engine_names w (name :: rest) s = (Return (Some path), logged s [Which name]).
Proof.
  intros Hw Ht. simpl. unfold bind. rewrite emit_logged.
  rewrite Hw. simpl. now rewrite Ht.
Qed.

End FindEngine.

(** C1. For a preference list in which some entry resolves on the search
    path, [find_engine] returns the path of the first entry that resolves:
    the entries before it are looked up and fail, the entry itself is
    looked up, and nothing after it is consulted, whether or not it would
    resolve; no prompt is shown and nothing is downloaded. *)
Theorem find_engine_first_resolvable
        (w : world) (pre post : list string) (name path : string) (s : state) :
  (forall n, In n pre -> truthy_opt (which w n) = false) ->
  which w name = Some path ->
  PyStr.truthy path = true ->
  find_engine w (pre ++ name :: post) s
  = (Returned (Some path), logged s (map Which pre ++ [Which name])).
Proof.
  intros Hpre Hw Ht. unfold find_engine, def, bind.
  rewrite (try_engine_names_skip w pre (name :: post) s Hpre).
  rewrite (try_engine_names_hit w name path post _ Hw Ht).
  now rewrite logged_logged.
Qed.

Lemma find_engine_first_resolvable_witness :
  find_engine linux_box ENGINES fresh
  = (Returned (Some "/usr/bin/prboom"),
     logged fresh [Which "gzdoom"; Which "chocolate-doom"; Which "prboom"]).
Proof.
  apply (find_engine_first_resolvable
           linux_box ["gzdoom"; "chocolate-doom"] ["zdoom"]
           "prboom" "/usr/bin/prboom" fresh).
  - intros n [<-|[<-|[]]]; reflexivity.
  - reflexivity.
  - reflexivity.
Defined.

(** ** [run_wad]: a custom engine path is taken as it is *)

(** A custom path that is a non-empty string is the engine path; the state
    is untouched, so nothing was looked up and nothing was shown. *)
Lemma determine_engine_custom
      (w : world) (engine_choice : option string) (p : string) (s : state) :
  PyStr.truthy p = true ->
  determine_engine w engine_choice (Some p) s = (Next p, s).
Proof.
  intros Hp. unfold determine_engine. now rewrite Hp.
Qed.

(** C5. When the custom engine path names an existing file, it is the
    engine path that resolution yields, whatever the search path would
    resolve: the state, and with it the trace of lookups, is unchanged, so
    the preference list is not consulted. *)
Theorem custom_engine_overrides_preference_list
        (w : world) (engine_choice : option string) (p : string) (s : state) :
  PyStr.truthy p = true ->
  isfile w p = true ->
  determine_engine w engine_choice (Some p) s = (Next p, s)
  /\ forall n, In (Which n) (trace (snd (determine_engine w engine_choice (Some p) s)))
               -> In (Which n) (trace s).
Proof.
  intros Hp _. rewrite (determine_engine_custom w engine_choice p s Hp).
  split; [reflexivity | intros n Hn; exact Hn].
Qed.

Lemma custom_engine_overrides_preference_list_witness :
  truthy_opt (which linux_box "prboom") = true
  /\ determine_engine linux_box (Some "Auto") (Some "/opt/doom/engine") fresh
     = (Next "/opt/doom/engine", fresh).
Proof.
  split; [reflexivity|].
  apply (custom_engine_overrides_preference_list
           linux_box (Some "Auto") "/opt/doom/engine" fresh);
    reflexivity.
Defined.

(** C9. A custom engine path is used with no check: for every non-empty
    string, in every world (so also where no such file exists),
    resolution yields that very string and leaves the state as it was;
    neither the search path nor the file system is asked, and [run_wad]
    goes on to start that string as the engine. *)
Theorem custom_engine_path_is_unchecked
        (w : world) (engine_choice : option string) (p : string) (s : state) :
  PyStr.truthy p = true ->
  determine_engine w engine_choice (Some p) s = (Next p, s)
  /\ forall wad_path status_label,
       isfile w wad_path = true ->
       run_wad w wad_path engine_choice (Some p) None status_label s
       = (Returned tt,
          logged s ([Log ("Launching: " ++ PyStr.join " " [p; "-iwad"; wad_path])]
                      ++ (if status_label then [Status "Launching..."] else [])
                      ++ [Popen [p; "-iwad"; wad_path]])).
Proof.
  intros Hp. split.
  - now apply determine_engine_custom.
  - intros wad_path status_label Hwad.
    unfold run_wad, def.
    erewrite bind_next by (rewrite Hwad; reflexivity).
    erewrite bind_next by reflexivity.
    erewrite bind_next by (now apply determine_engine_custom).
    rewrite bind_emit.
    destruct status_label.
    + rewrite bind_emit, emit_logged, !logged_logged. reflexivity.
    + erewrite bind_next by reflexivity.
      rewrite emit_logged, !logged_logged. reflexivity.
Qed.

Lemma custom_engine_path_is_unchecked_witness :
  isfile linux_box "/nonexistent/engine" = false
  /\ determine_engine linux_box (Some "gzdoom") (Some "/nonexistent/engine") fresh
     = (Next "/nonexistent/engine", fresh).
Proof.
  split; [reflexivity|].
  apply (custom_engine_path_is_unchecked
           linux_box (Some "gzdoom") "/nonexistent/engine" fresh).
  reflexivity.
Defined.

(** ** [export_mods] *)

(** The archives written over two stretches of a trace. *)
Lemma archives_written_app (es es' : list event) :
  archives_written (es ++ es') = archives_written es ++ archives_written es'.
Proof.
  induction es as [|e es IH]; simpl; [reflexivity|].
  destruct e; simpl; now rewrite ?IH.
Qed.

(** C7. With no mods in the list, [export_mods] shows "No mods to export."
    and returns: this is an ordinary return, no exception and no error
    dialog, the save dialog is not opened and no archive is written. *)
Theorem export_nothing (w : world) (status_label : bool) (s : state) :
  export_mods w [] status_label s
  = (Returned tt, logged s [ShowInfo "Info" "No mods to export."])
  /\ archives_written (trace (snd (export_mods w [] status_label s)))
     = archives_written (trace s).
Proof.
  split; [reflexivity|].
  simpl. rewrite archives_written_app. simpl. now rewrite app_nil_r.
Qed.

(** ** Listings

    Whatever order the file system lists a directory in, the listing holds
    the entries of the directory, each once. *)

Lemma insert_at_permutation {A : Type} (i : nat) (x : A) (l : list A) :
  Permutation (FS.insert_at i x l) (x :: l).
Proof.
  unfold FS.insert_at. symmetry.
  rewrite <- (firstn_skipn i l) at 1.
  apply Permutation_middle.
Qed.

Lemma arrange_permutation {A : Type} (place : string -> list string -> nat)
      (l : list (string * A)) :
  Permutation (FS.arrange place l) l.
Proof.
  induction l as [|x l IH]; cbn [FS.arrange]; [constructor|].
  rewrite insert_at_permutation. now constructor.
Qed.

Lemma arrange_single {A : Type} (place : string -> list string -> nat)
      (x : string * A) :
  FS.arrange place [x] = [x].
Proof.
  cbn [FS.arrange map]. unfold FS.insert_at.
  now rewrite firstn_nil, skipn_nil.
Qed.

Lemma arrange_ext {A : Type} (place place' : string -> list string -> nat)
      (l : list (string * A)) :
  (forall n names, In n (map fst l) -> place n names = place' n names) ->
  FS.arrange place l = FS.arrange place' l.
Proof.
  induction l as [|x l IH]; intros H; [reflexivity|].
  cbn [FS.arrange]. rewrite IH by (intros; apply H; now right).
  rewrite H by now left. reflexivity.
Qed.

Lemma insert_at_length {A : Type} (x : A) (a b : list A) :
  FS.insert_at (length a) x (a ++ b) = a ++ x :: b.
Proof.
  unfold FS.insert_at.
  rewrite firstn_app, skipn_app, Nat.sub_diag, firstn_all, skipn_all.
  cbn [firstn skipn app]. now rewrite app_nil_r.
Qed.

(** No order is left out: every order of the entries of a directory is
    the listing some file system gives. *)
Lemma arrange_any_order {A : Type} (l l' : list (string * A)) :
  NoDup (map fst l) -> Permutation l l' ->
  exists place, FS.arrange place l = l'.
Proof.
  intros Hnd. revert l'. induction l as [|x l IH]; intros l' Hperm.
  - apply Permutation_nil in Hperm. subst. now exists (fun _ _ => 0).
  - inversion Hnd as [|? ? Hnotin Hnd']; subst.
    assert (Hin : In x l') by (apply (Permutation_in _ Hperm); now left).
    apply in_split in Hin. destruct Hin as (a & b & ->).
    apply Permutation_cons_app_inv in Hperm.
    destruct (IH Hnd' _ Hperm) as [place Hplace].
    exists (fun n names => if String.eqb n (fst x) then length a else place n names).
    cbn [FS.arrange].
    rewrite (arrange_ext _ place l).
    + rewrite Hplace, String.eqb_refl. apply insert_at_length.
    + intros y names Hy. destruct (String.eqb y (fst x)) eqn:E; [|reflexivity].
      apply String.eqb_eq in E. subst. contradiction.
Qed.

(** The files a listing of a directory shows are the files it holds. *)
Lemma listdir_files_permutation (w : world) (top : string) (d : dir) :
  Permutation (dir_files (listdir w top d)) (dir_files d).
Proof.
  destruct d as [fs ds]. unfold listdir. cbn [FS.listed dir_files].
  apply arrange_permutation.
Qed.

(** A directory that holds one file and nothing else is listed as it is. *)
Lemma listdir_single (w : world) (top : string) (x : string * string) :
  listdir w top (Dir [x] []) = Dir [x] [].
Proof.
  unfold listdir. cbn [FS.listed map].
  now rewrite arrange_single.
Qed.

(** ** [download_gzdoom]: the search for the executable *)

Lemma truthy_app_r (a b : string) :
  PyStr.truthy b = true -> PyStr.truthy (a ++ b) = true.
Proof. destruct a; simpl; auto. Qed.

(** A file name that passes the test is not empty, and neither is a path
    joined with it: the [if exe_path: break] of the outer loop fires. *)
Lemma engine_file_path_truthy (root file : string) :
  is_engine_file file = true ->
  PyStr.truthy (PosixPath.join root [file]) = true.
Proof.
  intros H.
  assert (Hf : PyStr.truthy file = true).
  { destruct file; [discriminate H | reflexivity]. }
  unfold PosixPath.join; simpl. unfold PosixPath.join2.
  destruct (PyStr.startswith PosixPath.sep file); [exact Hf|].
  destruct (negb (PyStr.truthy root) || PyStr.endswith PosixPath.sep root)%bool.
  - now apply truthy_app_r.
  - apply truthy_app_r. now apply truthy_app_r.
Qed.

Section Search.

Variable w : world.

(** The inner loop stops at the first name that passes the test. *)
Lemma scan_files_find (root : string) (files : list string) (s : state) :
  scan_files root files s
  = match find is_engine_file files with
    | Some file =>
        (Next (Some (PosixPath.join root [file])),
         logged s [Chmod (PosixPath.join root [file]) mode_755])
    | None => (Next None, s)
    end.
Proof.
  induction files as [|file files IH]; simpl; [reflexivity|].
  destruct (is_engine_file file); [reflexivity | exact IH].
Qed.

Lemma find_names {A : Type} (at_ : list string) (files : list (string * A)) :
  find (fun af : list string * string => is_engine_file (snd af))
       (map (fun f => (at_, fst f)) files)
  = option_map (fun file => (at_, file)) (find is_engine_file (map fst files)).
Proof.
  induction files as [|f files IH]; simpl; [reflexivity|].
  destruct (is_engine_file (fst f)); [reflexivity | exact IH].
Qed.

Lemma find_app_first {A : Type} (p : A -> bool) (l l' : list A) :
  find p (l ++ l')
  = match find p l with Some x => Some x | None => find p l' end.
Proof.
  induction l as [|x l IH]; simpl; [reflexivity|].
  destruct (p x); [reflexivity | exact IH].
Qed.

(** The two loops together stop at the first file, in walk order, that
    passes the test. *)
Lemma scan_walk_find (dirs : list (list string * list (string * string)))
      (s : state) :
  scan_walk w dirs None s
  = match find (fun af => is_engine_file (snd af)) (walk_files dirs) with
    | Some (at_, file) =>
        let p := PosixPath.join (PosixPath.join (dest_dir w) at_) [file] in
        (Next (Some p), logged s [Chmod p mode_755])
    | None => (Next None, s)
    end.
Proof.
  induction dirs as [|[at_ files] dirs IH]; simpl; [reflexivity|].
  rewrite find_app_first, find_names.
  unfold bind. rewrite scan_files_find.
  destruct (find is_engine_file (map fst files)) as [file|] eqn:Hfind; simpl.
  - apply find_some in Hfind. destruct Hfind as [_ Hfile].
    pose proof (engine_file_path_truthy
                  (PosixPath.join (dest_dir w) at_) file Hfile) as Ht.
    change (PyStr.truthy (PosixPath.join2 (PosixPath.join (dest_dir w) at_) file)
            = true) in Ht.
    now rewrite Ht.
  - exact IH.
Qed.

(** The last part of the function, on the tree it finds. *)
Lemma locate_executable_first (s : state) :
  locate_executable w s
  = match first_engine_file (dest_dir w) (listdir w (dest_dir w) (dest s)) with
    | Some p => (Next (Some p), logged s [Chmod p mode_755])
    | None =>
        (Next None,
         logged s [ShowError "Error" "GZDoom executable not found after extraction."])
    end.
Proof.
  unfold locate_executable, first_engine_file.
  erewrite bind_next by reflexivity.
  unfold bind at 1. rewrite scan_walk_find.
  destruct (find _ _) as [[at_ file]|] eqn:Hfind.
  - apply find_some in Hfind. destruct Hfind as [_ Hfile]. simpl in Hfile.
    cbv zeta. unfold bind, truthy_opt.
    rewrite (engine_file_path_truthy _ _ Hfile). reflexivity.
  - reflexivity.
Qed.

End Search.



(** Two files pass the test of the search: which of them is returned is up
    to the order in which the file system lists them. *)
Example listing_order_decides_the_engine :
  fst (download_gzdoom (box_with two_engines oldest_first) fresh)
  = Returned (Some "/app/engines/gzdoom/gzdoom-a")
  /\ fst (download_gzdoom (box_with two_engines newest_first) fresh)
     = Returned (Some "/app/engines/gzdoom/gzdoom-b").
Proof. split; reflexivity. Qed.

(** ** [download_gzdoom]: the choice of the asset *)

(** On the three platforms the test of the loop is the convention. *)
Lemma platform_match_convention (p : platform) (name : string) :
  platform_match (system_name p) name = convention p name.
Proof.
  destruct p; unfold platform_match, convention; simpl.
  - now destruct (PyStr.contains "windows" name && PyStr.endswith ".zip" name)%bool.
  - now destruct (PyStr.contains "macos" name || PyStr.contains "osx" name)%bool.
  - now destruct (PyStr.contains "linux" name && PyStr.endswith ".tar.gz" name)%bool.
Qed.

Lemma asset_name_get (a : json) (n : string) :
  asset_name a = Some n -> Py.get a "name" (JStr "") = Ok (JStr n).
Proof.
  unfold asset_name. destruct (Py.get a "name" (JStr "")) as [v|e]; [|discriminate].
  destruct v; try discriminate. now intros [= ->].
Qed.

Lemma asset_url_getitem (a : json) (u : string) :
  asset_url a = Some u -> Py.getitem a "browser_download_url" = Ok (JStr u).
Proof.
  unfold asset_url.
  destruct (Py.getitem a "browser_download_url") as [v|e]; [|discriminate].
  destruct v; try discriminate. now intros [= ->].
Qed.

(** Assets whose lowercased name fails the test leave [asset_url] as it
    is, and the loop goes on. *)
Lemma scan_assets_skip (system : string) (pre rest : list json) (v : json) :
  Py.truthy v = false ->
  (forall x, In x pre ->
     exists n, asset_name x = Some n /\ platform_match system (PyStr.lower n) = false) ->
  scan_assets system (pre ++ rest) v = scan_assets system rest v.
Proof.
  intros Hv. induction pre as [|x pre IH]; intros Hpre; [reflexivity|].
  destruct (Hpre x (or_introl eq_refl)) as (n & Hn & Hm).
  simpl. rewrite (asset_name_get x n Hn). simpl. rewrite Hm. simpl. rewrite Hv.
  apply IH. intros y Hy. apply Hpre. now right.
Qed.

(** An asset whose lowercased name passes the test and whose URL is a
    non-empty string ends the loop. *)
Lemma scan_assets_hit (system : string) (a : json) (rest : list json)
      (v : json) (n u : string) :
  asset_name a = Some n ->
  platform_match system (PyStr.lower n) = true ->
  asset_url a = Some u ->
  PyStr.truthy u = true ->
  scan_assets system (a :: rest) v = Ok (JStr u).
Proof.
  intros Hn Hm Hu Ht. simpl.
  rewrite (asset_name_get a n Hn). simpl. rewrite Hm.
  rewrite (asset_url_getitem a u Hu). simpl. now rewrite Ht.
Qed.

Lemma getitem_truthy (data : json) (k : string) (v : json) :
  Py.getitem data k = Ok v ->
  Py.truthy data = true /\ Py.get data k (JList []) = Ok v.
Proof.
  destruct data as [| | | | |ms]; try discriminate. simpl.
  destruct (Py.assoc k ms) as [x|] eqn:Hk; [|discriminate].
  intros [= ->]. split; [|reflexivity].
  destruct ms; [discriminate Hk | reflexivity].
Qed.

(** C3, amended. The names are held against the platform's convention
    after lowercasing.  For a release whose asset list starts with assets
    whose lowercased names fail the convention, followed by an asset whose
    lowercased name passes it and that carries a non-empty download URL,
    the URL chosen is that asset's, whatever follows it in the list; and it
    is the URL [download_gzdoom] goes on to download. *)
Theorem asset_selection_first_match
        (p : platform) (data : json) (pre post : list json) (a : json)
        (name url : string) :
  Py.getitem data "assets" = Ok (JList (pre ++ a :: post)) ->
  (forall x, In x pre ->
     exists n, asset_name x = Some n /\ convention p (PyStr.lower n) = false) ->
  asset_name a = Some name ->
  convention p (PyStr.lower name) = true ->
  asset_url a = Some url ->
  PyStr.truthy url = true ->
  choose_asset_url (system_name p) data = Ok (JStr url)
  /\ forall w s,
       system w = system_name p ->
       api_latest w = RespOk data ->
       select_url w s
       = (Next url, logged s [Makedirs (dest_dir w); UrlOpen GZDOOM_API_LATEST]).
Proof.
  intros Hassets Hpre Hname Hmatch Hurl Htruthy.
  destruct (getitem_truthy _ _ _ Hassets) as [Hdata Hget].
  assert (Hchoose : choose_asset_url (system_name p) data = Ok (JStr url)).
  { unfold choose_asset_url. rewrite Hdata, Hget. simpl.
    rewrite scan_assets_skip; [ | reflexivity | ].
    - apply (scan_assets_hit _ a post JNull name url); auto.
      now rewrite platform_match_convention.
    - intros x Hx. destruct (Hpre x Hx) as (n & Hn & Hc).
      exists n. split; [exact Hn|]. now rewrite platform_match_convention. }
  split; [exact Hchoose|].
  intros w s Hsys Hapi. unfold select_url, fetch_release_data.
  rewrite bind_emit.
  erewrite bind_next by (rewrite bind_emit, Hapi; reflexivity).
  rewrite Hsys, Hchoose.
  erewrite bind_next by reflexivity.
  erewrite bind_next by (simpl; rewrite Htruthy; reflexivity).
  simpl. now rewrite logged_logged.
Qed.

Lemma asset_selection_first_match_witness :
  choose_asset_url "Windows" sample_release = Ok (JStr "https://h/win.zip").
Proof.
  apply (proj1 (asset_selection_first_match
                  Windows sample_release
                  [asset "gzdoom-4-14-2-macos.zip" "https://h/mac.zip"]
                  [asset "gzdoom-4-14-2-windows.zip" "https://h/win2.zip"]
                  (asset "GZDoom-4-14-2-Windows.ZIP" "https://h/win.zip")
                  "GZDoom-4-14-2-Windows.ZIP" "https://h/win.zip"
                  ltac:(reflexivity)
                  ltac:(intros x [<-|[]]; eexists; split; reflexivity)
                  ltac:(reflexivity) ltac:(reflexivity)
                  ltac:(reflexivity) ltac:(reflexivity))).
Defined.

(** C3 as stated fails: on Windows, of two assets the first is named
    "GZDoom-4-14-2-Windows.ZIP", which neither contains "windows" nor ends
    in ".zip", and the second "gzdoom-4-14-2-windows.zip", which does both;
    the URL chosen is the first one's. *)
Lemma asset_selection_by_written_name_counterexample :
  let first := asset "GZDoom-4-14-2-Windows.ZIP" "https://h/win.zip" in
  let second := asset "gzdoom-4-14-2-windows.zip" "https://h/win2.zip" in
  option_map (convention Windows) (asset_name first) = Some false
  /\ option_map (convention Windows) (asset_name second) = Some true
  /\ choose_asset_url (system_name Windows) (JDict [("assets", JList [first; second])])
     = Ok (JStr "https://h/win.zip")
  /\ asset_url second = Some "https://h/win2.zip".
Proof. repeat split. Qed.

(** ** [download_gzdoom]: the metadata query and the fallback *)

Lemma extends_refl (s : state) : extends s s.
Proof. exists []. now rewrite app_nil_r. Qed.

Lemma extends_trans (s1 s2 s3 : state) :
  extends s1 s2 -> extends s2 s3 -> extends s1 s3.
Proof.
  intros [es Hes] [es' Hes']. exists (es ++ es').
  now rewrite Hes', Hes, app_assoc.
Qed.

Lemma extends_logged (s : state) (es : list event) : extends s (logged s es).
Proof. now exists es. Qed.

Lemma grows_ret {R A : Type} (a : A) : grows (@ret R A a).
Proof. intros s. apply extends_refl. Qed.

Lemma grows_py_return {R A : Type} (r : R) : grows (@py_return R A r).
Proof. intros s. apply extends_refl. Qed.

Lemma grows_py_raise {R A : Type} (e : exn) : grows (@py_raise R A e).
Proof. intros s. apply extends_refl. Qed.

Lemma grows_eval {R A : Type} (r : result A) : grows (@eval R A r).
Proof. destruct r; [apply grows_ret | apply grows_py_raise]. Qed.

Lemma grows_emit {R : Type} (e : event) : grows (@emit R e).
Proof. intros s. apply extends_logged. Qed.

Lemma grows_get_dest {R : Type} : grows (@get_dest R).
Proof. intros s. apply extends_refl. Qed.

Lemma grows_set_dest {R : Type} (d : dir) : grows (@set_dest R d).
Proof. intros s. exists []. simpl. now rewrite app_nil_r. Qed.

(** What follows a statement adds to what the statement left. *)
Lemma bind_extends {R A B : Type} (m : M R A) (k : A -> M R B) (s : state) :
  (forall a, grows (k a)) -> extends (snd (m s)) (snd (bind m k s)).
Proof.
  intros Hk. unfold bind. destruct (m s) as [[a|r|e] s']; simpl.
  - apply Hk.
  - apply extends_refl.
  - apply extends_refl.
Qed.

Lemma grows_bind {R A B : Type} (m : M R A) (k : A -> M R B) :
  grows m -> (forall a, grows (k a)) -> grows (bind m k).
Proof.
  intros Hm Hk s. eapply extends_trans; [apply Hm | now apply bind_extends].
Qed.

Lemma def_state {A : Type} (m : M A A) (s : state) : snd (def m s) = snd (m s).
Proof. unfold def. now destruct (m s) as [[a|r|e] s']. Qed.

Create HintDb grows.
#[local] Hint Resolve grows_ret grows_py_return grows_py_raise grows_eval
  grows_emit grows_get_dest grows_set_dest : grows.

(** A block that has returned or raised does not go on. *)
Ltac stuck :=
  let H := fresh in
  intros H; cbv beta iota delta [bind eval py_raise py_return emit] in H;
  discriminate H.

Ltac grows_step :=
  first [ apply grows_bind; [|intros ?]
        | solve [auto with grows] ].

Section Growth.

Variable w : world.

Lemma grows_extract_with (reader : string -> io (list member))
      (archive_path content : string) :
  grows (extract_with w reader archive_path content).
Proof.
  unfold extract_with. repeat grows_step.
  destruct (reader content) as [ms|text]; [|repeat grows_step].
  destruct (extractall w _ ms _) as [d' [text|]]; repeat grows_step.
Qed.

Lemma grows_extract_archive (archive_path content : string) :
  grows (extract_archive w archive_path content).
Proof.
  unfold extract_archive.
  destruct (PyStr.endswith ".zip" archive_path); [apply grows_extract_with|].
  destruct (PyStr.endswith ".tar.gz" archive_path); [apply grows_extract_with|].
  destruct (PyStr.endswith ".dmg" archive_path); repeat grows_step.
Qed.

Lemma grows_locate_executable : grows (locate_executable w).
Proof.
  intros s. rewrite locate_executable_first.
  destruct (first_engine_file _ _); apply extends_logged.
Qed.

(** The download starts by asking for the URL. *)
Lemma fetch_archive_asks (url : string) (s : state) :
  extends (logged s [UrlRetrieve url (archive_path_of w url)])
          (snd (fetch_archive w url s)).
Proof.
  unfold fetch_archive. rewrite bind_emit.
  assert (Hshow : forall t m, grows (bind (@emit (option string) (ShowError t m))
                                         (fun _ => @py_return _ string None))).
  { intros t m. repeat grows_step. }
  destruct (urlretrieve w url) as [content|code reason|text partial];
    try apply Hshow.
  - erewrite bind_next by reflexivity.
    destruct (FS.write_file _ content _) as [d'|text]; [|apply Hshow].
    assert (Hset : grows (bind (@set_dest (option string) d') (fun _ => ret content))).
    { repeat grows_step. }
    apply Hset.
  - erewrite bind_next by reflexivity.
    match goal with
    | |- extends _ (snd (bind (set_dest ?d) ?k ?s0)) =>
        assert (Hset : grows (bind (@set_dest (option string) d) k))
          by repeat grows_step;
        apply Hset
    end.
Qed.

(** Once the URL is chosen, the function asks for it and only adds to the
    trace from there. *)
Lemma download_asks_for_selected (url : string) (s s1 : state) :
  select_url w s = (Next url, s1) ->
  extends (logged s1 [UrlRetrieve url (archive_path_of w url)])
          (snd (download_gzdoom w s)).
Proof.
  intros Hsel. unfold download_gzdoom. rewrite def_state.
  unfold acquire_archive. unfold bind at 1.
  rewrite (bind_next _ _ _ _ _ Hsel).
  eapply extends_trans; [apply fetch_archive_asks|].
  eapply extends_trans.
  - apply (bind_extends (fetch_archive w url)
             (fun content => extract_archive w (archive_path_of w url) content)).
    intros content. apply grows_extract_archive.
  - set (m := bind (fetch_archive w url) _).
    destruct (m s1) as [[[]|r|e] s2]; simpl;
      [apply grows_locate_executable | apply extends_refl | apply extends_refl].
Qed.

End Growth.

Lemma fallback_url_truthy (system : string) :
  PyStr.truthy (fallback_url system) = true.
Proof.
  unfold fallback_url.
  destruct (String.eqb system "Windows"); [reflexivity|].
  now destruct (String.eqb system "Darwin").
Qed.

(** With a reply that calls for the fallback, the URL chosen is the
    hardcoded one of the platform. *)
Lemma select_url_fallback (w : world) (s : state) :
  wants_fallback (api_latest w) = true ->
  select_url w s
  = (Next (fallback_url (system w)),
     logged s [Makedirs (dest_dir w); UrlOpen GZDOOM_API_LATEST]).
Proof.
  intros Hwant. unfold select_url, fetch_release_data.
  rewrite bind_emit.
  assert (Hdata : exists data,
             Py.truthy data = false
             /\ bind (emit (UrlOpen GZDOOM_API_LATEST))
                     (fun _ =>
                        match api_latest w with
                        | RespOk data => ret data
                        | RespHTTPError code =>
                            if negb (Z.eqb code 404) then
                              bind (emit (ShowError "Download Failed"
                                            ("Could not fetch GZDoom releases: HTTP "
                                               ++ PyStr.of_Z code)))
                                   (fun _ => py_return None)
                            else ret JNull
                        | RespError text =>
                            bind (emit (ShowError "Download Failed"
                                          ("Could not fetch GZDoom releases: " ++ text)))
                                 (fun _ => py_return None)
                        end)
                     (logged s [Makedirs (dest_dir w)])
                = (@Next (option string) json data,
                   logged s [Makedirs (dest_dir w); UrlOpen GZDOOM_API_LATEST])).
  { rewrite bind_emit, logged_logged. simpl.
    destruct (api_latest w) as [data|code|text]; simpl in Hwant.
    - exists data. split; [now destruct (Py.truthy data) | reflexivity].
    - exists JNull. rewrite Hwant. split; reflexivity.
    - discriminate. }
  destruct Hdata as (data & Hfalsy & Hfetch).
  erewrite bind_next by exact Hfetch.
  unfold choose_asset_url. rewrite Hfalsy.
  erewrite bind_next by reflexivity.
  erewrite bind_next
    by (cbn [Py.truthy]; rewrite fallback_url_truthy; reflexivity).
  reflexivity.
Qed.

(** A failure of the query other than 404 ends the function at once. *)
Lemma download_fatal (w : world) (s : state) (msg : string) :
  fatal_message (api_latest w) = Some msg ->
  download_gzdoom w s
  = (Returned None,
     logged s [Makedirs (dest_dir w); UrlOpen GZDOOM_API_LATEST;
               ShowError "Download Failed" msg]).
Proof.
  intros Hfatal. unfold download_gzdoom, def, acquire_archive, select_url.
  assert (Hsel : fetch_release_data w (logged s [Makedirs (dest_dir w)])
                 = (Return None,
                    logged s [Makedirs (dest_dir w); UrlOpen GZDOOM_API_LATEST;
                              ShowError "Download Failed" msg])).
  { unfold fetch_release_data. rewrite bind_emit, logged_logged. simpl.
    destruct (api_latest w) as [data|code|text]; simpl in Hfatal.
    - discriminate.
    - destruct (Z.eqb code 404); [discriminate|]. injection Hfatal as <-.
      simpl. rewrite bind_emit, logged_logged. reflexivity.
    - injection Hfatal as <-. rewrite bind_emit, logged_logged. reflexivity. }
  erewrite bind_return; [reflexivity|].
  erewrite bind_return; [reflexivity|].
  rewrite bind_emit. erewrite bind_return; [reflexivity | exact Hsel].
Qed.

(** A body that Python holds true in which no asset is chosen ends the
    function with "No suitable GZDoom build": the fallback is not used. *)
Lemma download_no_suitable_build (w : world) (s : state) (data v : json) :
  api_latest w = RespOk data ->
  Py.truthy data = true ->
  choose_asset_url (system w) data = Ok v ->
  Py.truthy v = false ->
  download_gzdoom w s
  = (Returned None,
     logged s [Makedirs (dest_dir w); UrlOpen GZDOOM_API_LATEST;
               ShowError "Download Failed"
                 "No suitable GZDoom build found for your platform."]).
Proof.
  intros Hapi Hdata Hchoose Hv.
  unfold download_gzdoom, def, acquire_archive, select_url.
  erewrite bind_return; [reflexivity|].
  erewrite bind_return; [reflexivity|].
  rewrite bind_emit.
  erewrite bind_next
    by (unfold fetch_release_data; rewrite bind_emit, Hapi; reflexivity).
  rewrite Hchoose. erewrite bind_next by reflexivity.
  erewrite bind_return; [reflexivity|].
  rewrite Hv. simpl. rewrite bind_emit, !logged_logged. reflexivity.
Qed.

(** C2, amended. When the metadata query fails with HTTP 404, or succeeds
    with a body that Python holds false, [download_gzdoom] takes the
    hardcoded URL of the platform and goes on to download it: after
    creating the directory and asking the API, the next thing it does is
    ask for that URL.  Any other failure of the query, another HTTP status
    or another exception, makes it show "Download Failed" and return
    [None]; nothing is downloaded.  With a body that Python holds true the
    fallback is not used: when no asset is chosen from it, the function
    shows "No suitable GZDoom build" and returns [None]. *)
Theorem fallback_on_not_found (w : world) (s : state) :
  (wants_fallback (api_latest w) = true ->
   exists rest,
     trace (snd (download_gzdoom w s))
     = trace s
         ++ [Makedirs (dest_dir w); UrlOpen GZDOOM_API_LATEST;
             UrlRetrieve (fallback_url (system w))
                         (archive_path_of w (fallback_url (system w)))]
         ++ rest)
  /\ (forall msg,
        fatal_message (api_latest w) = Some msg ->
        download_gzdoom w s
        = (Returned None,
           logged s [Makedirs (dest_dir w); UrlOpen GZDOOM_API_LATEST;
                     ShowError "Download Failed" msg]))
  /\ (forall data v,
        api_latest w = RespOk data ->
        Py.truthy data = true ->
        choose_asset_url (system w) data = Ok v ->
        Py.truthy v = false ->
        download_gzdoom w s
        = (Returned None,
           logged s [Makedirs (dest_dir w); UrlOpen GZDOOM_API_LATEST;
                     ShowError "Download Failed"
                       "No suitable GZDoom build found for your platform."])).
Proof.
  split; [|split].
  - intros Hwant.
    destruct (download_asks_for_selected w _ s _ (select_url_fallback w s Hwant))
      as [rest Hrest].
    exists rest. rewrite Hrest. simpl. rewrite <- !app_assoc. reflexivity.
  - intros msg. apply download_fatal.
  - intros data v. apply download_no_suitable_build.
Qed.

Lemma fallback_on_not_found_witness :
  (exists rest,
     trace (snd (download_gzdoom linux_box fresh))
     = [Makedirs "/app/engines/gzdoom"; UrlOpen GZDOOM_API_LATEST;
        UrlRetrieve (fallback_url "Linux") "/app/engines/gzdoom/gzdoom_4.14.1_amd64.deb"]
         ++ rest)
  /\ download_gzdoom server_error_box fresh
     = (Returned None,
        logged fresh [Makedirs "/app/engines/gzdoom"; UrlOpen GZDOOM_API_LATEST;
                      ShowError "Download Failed"
                        "Could not fetch GZDoom releases: HTTP 500"]).
Proof.
  split.
  - apply (proj1 (fallback_on_not_found linux_box fresh)). reflexivity.
  - apply (proj1 (proj2 (fallback_on_not_found server_error_box fresh))).
    reflexivity.
Defined.

(** C2 as stated fails in its "only if": the query succeeds, answering with
    an empty JSON object, and the function downloads the hardcoded Linux
    URL all the same. *)
Lemma fallback_without_not_found_counterexample :
  api_latest empty_reply_box = RespOk (JDict [])
  /\ download_gzdoom empty_reply_box fresh
     = (Returned None,
        {| dest := Dir [("gzdoom_4.14.1_amd64.deb", "bytes")] [];
           trace := [Makedirs "/app/engines/gzdoom";
                     UrlOpen GZDOOM_API_LATEST;
                     UrlRetrieve (fallback_url "Linux")
                       "/app/engines/gzdoom/gzdoom_4.14.1_amd64.deb";
                     ShowError "Error"
                       "GZDoom executable not found after extraction."] |}).
Proof. split; reflexivity. Qed.

(** ** Suffixes of joined paths *)

Lemma prefix_empty (s : string) : String.prefix "" s = true.
Proof. now destruct s. Qed.

Lemma startswith_sep_cons (c : ascii) (r : string) :
  PyStr.startswith PosixPath.sep (String c r) = Ascii.eqb c "/".
Proof.
  unfold PyStr.startswith, PosixPath.sep. cbn [String.prefix].
  destruct (ascii_dec "/" c) as [<-|Hne].
  - now rewrite prefix_empty.
  - symmetry. apply Ascii.eqb_neq. congruence.
Qed.

Lemma contains_sep_cons (c : ascii) (r : string) :
  PyStr.contains PosixPath.sep (String c r)
  = (Ascii.eqb c "/" || PyStr.contains PosixPath.sep r)%bool.
Proof.
  cbn [PyStr.contains]. rewrite startswith_sep_cons.
  now destruct (Ascii.eqb c "/").
Qed.

Lemma startswith_contains (sub s : string) :
  PyStr.startswith sub s = true -> PyStr.contains sub s = true.
Proof. intros H. destruct s; cbn [PyStr.contains]; now rewrite H. Qed.

(** A base name holds no separator. *)
Lemma basename_no_sep (p : string) :
  PyStr.contains PosixPath.sep (PosixPath.basename p) = false.
Proof.
  induction p as [|c r IH]; [reflexivity|].
  simpl PosixPath.basename.
  destruct (PyStr.contains PosixPath.sep r) eqn:Hr; [exact IH|].
  destruct (Ascii.eqb c "/") eqn:Hc; [exact Hr|].
  now rewrite contains_sep_cons, Hc, Hr.
Qed.

Lemma contains_sep_app (a b : string) :
  PyStr.contains PosixPath.sep (a ++ PosixPath.sep ++ b) = true.
Proof.
  induction a as [|c a IH].
  - change ("" ++ PosixPath.sep ++ b)%string with (String "/" b).
    now rewrite contains_sep_cons.
  - change (String c a ++ PosixPath.sep ++ b)%string
      with (String c (a ++ PosixPath.sep ++ b)).
    rewrite contains_sep_cons, IH. apply orb_true_r.
Qed.

Lemma eqb_sep_free (s suf : string) :
  PyStr.contains PosixPath.sep s = true ->
  PyStr.contains PosixPath.sep suf = false ->
  String.eqb s suf = false.
Proof.
  intros Hs Hsuf. apply String.eqb_neq. intros ->. congruence.
Qed.

(** A suffix without separator is looked for in the last component. *)
Lemma endswith_after_sep (suf a b : string) :
  PyStr.contains PosixPath.sep suf = false ->
  PyStr.endswith suf (a ++ PosixPath.sep ++ b) = PyStr.endswith suf b.
Proof.
  intros Hsuf. induction a as [|c a IH].
  - change ("" ++ PosixPath.sep ++ b)%string with (String "/" b).
    cbn [PyStr.endswith].
    rewrite (eqb_sep_free (String "/" b) suf); [reflexivity | | exact Hsuf].
    now rewrite contains_sep_cons.
  - change (String c a ++ PosixPath.sep ++ b)%string
      with (String c (a ++ PosixPath.sep ++ b)).
    cbn [PyStr.endswith].
    rewrite (eqb_sep_free _ suf); [exact IH | | exact Hsuf].
    rewrite contains_sep_cons, contains_sep_app. apply orb_true_r.
Qed.

Lemma endswith_sep_split (a : string) :
  PyStr.endswith PosixPath.sep a = true ->
  exists a', a = (a' ++ PosixPath.sep)%string.
Proof.
  induction a as [|c a IH]; [discriminate|].
  cbn [PyStr.endswith].
  destruct (String.eqb (String c a) PosixPath.sep) eqn:Heq.
  - intros _. exists "". now apply String.eqb_eq in Heq.
  - intros H. destruct (IH H) as [a' ->]. now exists (String c a').
Qed.

Lemma append_assoc (a b c : string) :
  ((a ++ b) ++ c = a ++ b ++ c)%string.
Proof. induction a as [|x a IH]; simpl; [reflexivity | now rewrite IH]. Qed.

Lemma endswith_join2 (suf a b : string) :
  PyStr.contains PosixPath.sep suf = false ->
  PyStr.contains PosixPath.sep b = false ->
  PyStr.endswith suf (PosixPath.join2 a b) = PyStr.endswith suf b.
Proof.
  intros Hsuf Hb. unfold PosixPath.join2.
  destruct (PyStr.startswith PosixPath.sep b) eqn:Hstart.
  - apply startswith_contains in Hstart. congruence.
  - destruct (negb (PyStr.truthy a)) eqn:Ha; simpl.
    + destruct a; [reflexivity | discriminate].
    + destruct (PyStr.endswith PosixPath.sep a) eqn:Hend.
      * destruct (endswith_sep_split a Hend) as [a' ->].
        rewrite append_assoc. now apply endswith_after_sep.
      * now apply endswith_after_sep.
Qed.

(** The tests of the extraction look at the path of the archive; they see
    the suffix of the downloaded file's name. *)
Lemma endswith_archive_path (w : world) (suf url : string) :
  PyStr.contains PosixPath.sep suf = false ->
  PyStr.endswith suf (archive_path_of w url)
  = PyStr.endswith suf (PosixPath.basename url).
Proof.
  intros Hsuf. unfold archive_path_of, PosixPath.join. simpl fold_left.
  apply endswith_join2; [exact Hsuf | apply basename_no_sep].
Qed.

(** ** [download_gzdoom]: an archive of no known kind *)

(** When a URL is chosen, all that happened so far is the creation of the
    directory and the query. *)
Lemma select_url_state (w : world) (s s1 : state) (url : string) :
  select_url w s = (Next url, s1) ->
  s1 = logged s [Makedirs (dest_dir w); UrlOpen GZDOOM_API_LATEST].
Proof.
  assert (Hfin : forall (v : json) (s2 : state),
             bind (eval (Ok v))
                  (fun asset_url =>
                     bind (if negb (Py.truthy asset_url)
                           then bind (emit (ShowError "Download Failed"
                                  "No suitable GZDoom build found for your platform."))
                                     (fun _ => py_return None)
                           else ret tt)
                          (fun _ => eval (Py.as_path asset_url))) s2
             = (@Next (option string) string url, s1) -> s1 = s2).
  { intros v s2. unfold bind, eval, ret.
    destruct (Py.truthy v); simpl; [|discriminate].
    destruct (Py.as_path v); simpl; [|discriminate].
    now intros [= _ <-]. }
  unfold select_url, fetch_release_data. rewrite bind_emit.
  unfold bind at 1. rewrite bind_emit, logged_logged. simpl app.
  destruct (api_latest w) as [data|code|text].
  - unfold ret at 1.
    destruct (choose_asset_url (system w) data) as [v|e]; [apply Hfin | stuck].
  - destruct (Z.eqb code 404); cbn [negb].
    + unfold ret at 1.
      destruct (choose_asset_url (system w) JNull) as [v|e]; [apply Hfin | stuck].
    + stuck.
  - stuck.
Qed.

(** With none of the three suffixes, the extraction statement does
    nothing at all. *)
Lemma extract_archive_skips (w : world) (url content : string) (s : state) :
  PyStr.endswith ".zip" (PosixPath.basename url) = false ->
  PyStr.endswith ".tar.gz" (PosixPath.basename url) = false ->
  PyStr.endswith ".dmg" (PosixPath.basename url) = false ->
  extract_archive w (archive_path_of w url) content s = (Next tt, s).
Proof.
  intros Hzip Htar Hdmg. unfold extract_archive.
  rewrite !endswith_archive_path by reflexivity.
  now rewrite Hzip, Htar, Hdmg.
Qed.

(** C10. When the name of the downloaded file ends in none of ".zip",
    ".tar.gz" and ".dmg", the extraction is skipped in silence: between the
    download and the search nothing is extracted and nothing is shown.  The
    search runs over the engine directory as the download left it, which is
    the tree from before with the archive written into it, in the order the
    file system lists it; for a directory that started empty it holds the
    archive alone, and so does its listing. *)
Theorem unknown_archive_kind_is_not_extracted
        (w : world) (s s1 : state) (url content : string) (d' : dir) :
  select_url w s = (Next url, s1) ->
  urlretrieve w url = Fetched content ->
  FS.write_file [PosixPath.basename url] content (dest s) = Done d' ->
  PyStr.endswith ".zip" (PosixPath.basename url) = false ->
  PyStr.endswith ".tar.gz" (PosixPath.basename url) = false ->
  PyStr.endswith ".dmg" (PosixPath.basename url) = false ->
  let downloaded :=
    {| dest := d';
       trace := trace s ++ [Makedirs (dest_dir w); UrlOpen GZDOOM_API_LATEST;
                            UrlRetrieve url (archive_path_of w url)] |} in
  acquire_archive w s = (Next tt, downloaded)
  /\ download_gzdoom w s
     = match first_engine_file (dest_dir w) (listdir w (dest_dir w) d') with
       | Some p => (Returned (Some p), logged downloaded [Chmod p mode_755])
       | None =>
           (Returned None,
            logged downloaded
                   [ShowError "Error" "GZDoom executable not found after extraction."])
       end
  /\ (dest s = empty_dir ->
      d' = Dir [(PosixPath.basename url, content)] []
      /\ listdir w (dest_dir w) d' = d').
Proof.
  intros Hsel Hget Hwrite Hzip Htar Hdmg downloaded.
  pose proof (select_url_state w s s1 url Hsel) as ->.
  assert (Hfetch : fetch_archive w url
                     (logged s [Makedirs (dest_dir w); UrlOpen GZDOOM_API_LATEST])
                   = (Next content, downloaded)).
  { unfold fetch_archive. rewrite bind_emit, logged_logged, Hget.
    erewrite bind_next by reflexivity.
    rewrite dest_logged, Hwrite. reflexivity. }
  assert (Hacq : acquire_archive w s = (Next tt, downloaded)).
  { unfold acquire_archive.
    erewrite bind_next by exact Hsel.
    erewrite bind_next by exact Hfetch.
    now apply extract_archive_skips. }
  split; [exact Hacq|]. split.
  - unfold download_gzdoom, def.
    erewrite bind_next by exact Hacq.
    rewrite locate_executable_first.
    change (dest downloaded) with d'.
    now destruct (first_engine_file (dest_dir w) (listdir w (dest_dir w) d')).
  - intros Hempty. rewrite Hempty in Hwrite. unfold FS.write_file in Hwrite.
    destruct (negb (FS.valid_name (PosixPath.basename url))); [discriminate|].
    simpl in Hwrite. injection Hwrite as <-.
    split; [reflexivity | apply listdir_single].
Qed.

Lemma unknown_archive_kind_is_not_extracted_witness :
  api_latest linux_box = RespHTTPError 404
  /\ download_gzdoom linux_box fresh
     = (Returned None,
        {| dest := Dir [("gzdoom_4.14.1_amd64.deb", "bytes")] [];
           trace := [Makedirs "/app/engines/gzdoom";
                     UrlOpen GZDOOM_API_LATEST;
                     UrlRetrieve (fallback_url "Linux")
                       "/app/engines/gzdoom/gzdoom_4.14.1_amd64.deb";
                     ShowError "Error"
                       "GZDoom executable not found after extraction."] |}).
Proof.
  split; [reflexivity|].
  apply (proj1 (proj2 (unknown_archive_kind_is_not_extracted
                         linux_box fresh
                         (logged fresh [Makedirs "/app/engines/gzdoom";
                                        UrlOpen GZDOOM_API_LATEST])
                         (fallback_url "Linux") "bytes"
                         (Dir [("gzdoom_4.14.1_amd64.deb", "bytes")] [])
                         ltac:(reflexivity) ltac:(reflexivity) ltac:(reflexivity)
                         ltac:(reflexivity) ltac:(reflexivity) ltac:(reflexivity)))).
Defined.

(** ** [export_mods]: plain files in the staging directory *)

Section ExportMods.

Variable w : world.

(** A plain file goes into a staging directory without subdirectories
    under its base name, over a file of that name if there is one. *)
Lemma copy_into_flat (p bytes : string) (fs : list (string * string)) :
  read_file w p = Some bytes ->
  FS.valid_name (PosixPath.basename p) = true ->
  copy_into w p (Dir fs [])
  = Done (Dir (Py.set_assoc (PosixPath.basename p) bytes fs) []).
Proof.
  intros Hread Hvalid. unfold copy_into. rewrite Hread.
  cbn [dir_subdirs FS.has Py.assoc FS.write_file dir_files].
  now rewrite Hvalid.
Qed.

Lemma stage_plain (p bytes : string) (rest : list string)
      (fs : list (string * string)) :
  is_archive_ext (PyStr.lower (PosixPath.splitext_ext p)) = false ->
  read_file w p = Some bytes ->
  FS.valid_name (PosixPath.basename p) = true ->
  stage_mods w (p :: rest) (Dir fs [])
  = stage_mods w rest (Dir (Py.set_assoc (PosixPath.basename p) bytes fs) []).
Proof.
  intros Hplain Hread Hvalid. cbn [stage_mods].
  now rewrite Hplain, (copy_into_flat p bytes fs Hread Hvalid).
Qed.

Lemma entries_of_top (fs : list (string * string)) :
  map (fun f : string * string => (PyStr.join "/" ([] ++ [fst f]), snd f)) fs = fs.
Proof.
  induction fs as [|[n c] fs IH]; [reflexivity|].
  cbn [map]. now rewrite IH.
Qed.

(** The entries written for a staging directory without subdirectories
    are its files under their own names, in the order of its listing. *)
Lemma archive_entries_flat (fs : list (string * string)) :
  archive_entries w (Dir fs [])
  = FS.arrange (scandir w (PosixPath.join (mkdtemp w) [])) fs.
Proof.
  unfold archive_entries, listdir. cbn [FS.listed FS.arrange map FS.walk flat_map].
  rewrite app_nil_r. apply entries_of_top.
Qed.

Lemma archive_entries_permutation (fs : list (string * string)) :
  Permutation (archive_entries w (Dir fs [])) fs.
Proof. rewrite archive_entries_flat. apply arrange_permutation. Qed.

(** An export that stages its inputs and can open its output writes one
    archive there, holding the staged files, and returns. *)
Lemma export_mods_writes (p : string) (rest : list string)
      (status_label : bool) (s : state) (tempdir : dir) :
  PyStr.truthy (ask_save_as w) = true ->
  stage_mods w (p :: rest) empty_dir = Done tempdir ->
  open_error w (ask_save_as w) = None ->
  fst (export_mods w (p :: rest) status_label s) = Returned tt
  /\ archives_written (trace (snd (export_mods w (p :: rest) status_label s)))
     = archives_written (trace s) ++ [(ask_save_as w, archive_entries w tempdir)].
Proof.
  intros Hout Hstage Hopen.
  unfold export_mods, def, save_config.
  erewrite bind_next by reflexivity.
  rewrite bind_emit.
  erewrite bind_next by (rewrite Hout; reflexivity).
  rewrite Hstage, Hopen.
  destruct (config_error w) as [text|], status_label;
    cbv beta iota delta [bind emit ret fst snd];
    cbn [trace dest logged];
    (split; [reflexivity|]);
    rewrite <- !app_assoc, !archives_written_app;
    cbn [archives_written app]; now rewrite ?app_nil_r.
Qed.

End ExportMods.

(** C8. For two plain input files with distinct base names, [export_mods]
    writes one archive, at the path chosen in the save dialog, with exactly
    two entries: one named by the first file's base name with the first
    file's content, one named by the second's with the second's. *)
Theorem export_two_distinct_names
        (w : world) (a b bytes_a bytes_b : string)
        (status_label : bool) (s : state) :
  is_archive_ext (PyStr.lower (PosixPath.splitext_ext a)) = false ->
  is_archive_ext (PyStr.lower (PosixPath.splitext_ext b)) = false ->
  read_file w a = Some bytes_a ->
  read_file w b = Some bytes_b ->
  FS.valid_name (PosixPath.basename a) = true ->
  FS.valid_name (PosixPath.basename b) = true ->
  PosixPath.basename a <> PosixPath.basename b ->
  PyStr.truthy (ask_save_as w) = true ->
  open_error w (ask_save_as w) = None ->
  exists entries,
    archives_written (trace (snd (export_mods w [a; b] status_label s)))
    = archives_written (trace s) ++ [(ask_save_as w, entries)]
    /\ length entries = 2
    /\ Permutation entries [(PosixPath.basename a, bytes_a);
                            (PosixPath.basename b, bytes_b)].
Proof.
  intros Hpa Hpb Hra Hrb Hva Hvb Hne Hout Hopen.
  assert (Hstage : stage_mods w [a; b] empty_dir
                   = Done (Dir [(PosixPath.basename a, bytes_a);
                                (PosixPath.basename b, bytes_b)] [])).
  { unfold empty_dir.
    rewrite (stage_plain w a bytes_a [b] [] Hpa Hra Hva).
    rewrite (stage_plain w b bytes_b [] _ Hpb Hrb Hvb).
    cbn [Py.set_assoc stage_mods].
    apply String.eqb_neq in Hne. now rewrite Hne. }
  destruct (export_mods_writes w a [b] status_label s _ Hout Hstage Hopen)
    as [_ Hwritten].
  eexists. split; [exact Hwritten|].
  pose proof (archive_entries_permutation w
                [(PosixPath.basename a, bytes_a); (PosixPath.basename b, bytes_b)])
    as Hperm.
  split; [exact (Permutation_length Hperm) | exact Hperm].
Qed.

Lemma export_two_distinct_names_witness :
  exists entries,
    archives_written (trace (snd (export_mods linux_box ["/m/a.wad"; "/n/b.wad"] true fresh)))
    = [("/out/all.pk3", entries)]
    /\ length entries = 2
    /\ Permutation entries [("a.wad", "A"); ("b.wad", "C")].
Proof.
  apply (export_two_distinct_names
           linux_box "/m/a.wad" "/n/b.wad" "A" "C" true fresh);
    try reflexivity.
  simpl; discriminate.
Defined.



(** * Further properties *)

(** ** What [download_gzdoom] adds to the trace *)

Lemma emits_ret {R A : Type} (P : event -> Prop) (a : A) : emits P (@ret R A a).
Proof. intros s. exists []. simpl. now rewrite app_nil_r. Qed.

Lemma emits_py_return {R A : Type} (P : event -> Prop) (r : R) :
  emits P (@py_return R A r).
Proof. intros s. exists []. simpl. now rewrite app_nil_r. Qed.

Lemma emits_py_raise {R A : Type} (P : event -> Prop) (e : exn) :
  emits P (@py_raise R A e).
Proof. intros s. exists []. simpl. now rewrite app_nil_r. Qed.

Lemma emits_eval {R A : Type} (P : event -> Prop) (r : result A) :
  emits P (@eval R A r).
Proof. destruct r; [apply emits_ret | apply emits_py_raise]. Qed.

Lemma emits_emit {R : Type} (P : event -> Prop) (e : event) :
  P e -> emits P (@emit R e).
Proof. intros He s. exists [e]. split; [reflexivity | now constructor]. Qed.

Lemma emits_get_dest {R : Type} (P : event -> Prop) : emits P (@get_dest R).
Proof. intros s. exists []. simpl. now rewrite app_nil_r. Qed.

Lemma emits_set_dest {R : Type} (P : event -> Prop) (d : dir) :
  emits P (@set_dest R d).
Proof. intros s. exists []. simpl. now rewrite app_nil_r. Qed.

Lemma emits_bind {R A B : Type} (P : event -> Prop)
      (m : M R A) (k : A -> M R B) :
  emits P m -> (forall a, emits P (k a)) -> emits P (bind m k).
Proof.
  intros Hm Hk s. unfold bind.
  destruct (Hm s) as (es & Hes & HP).
  destruct (m s) as [[a|r|e] s']; simpl in Hes.
  - destruct (Hk a s') as (es' & Hes' & HP').
    exists (es ++ es'). split.
    + now rewrite Hes', Hes, app_assoc.
    + now apply Forall_app.
  - now exists es.
  - now exists es.
Qed.

Lemma emits_weaken {R A : Type} (P Q : event -> Prop) (m : M R A) :
  (forall e, P e -> Q e) -> emits P m -> emits Q m.
Proof.
  intros HPQ Hm s. destruct (Hm s) as (es & Hes & HP).
  exists es. split; [exact Hes|]. eapply Forall_impl; eauto.
Qed.

Lemma emits_call {R A : Type} (P : event -> Prop) (f : Fn A) :
  fn_emits P f -> emits P (@call R A f).
Proof.
  intros Hf s. unfold call. destruct (Hf s) as (es & Hes & HP).
  destruct (f s) as [[a|e] s']; now exists es.
Qed.

Lemma emits_def {A : Type} (P : event -> Prop) (m : M A A) :
  emits P m -> fn_emits P (def m).
Proof.
  intros Hm s. unfold def. destruct (Hm s) as (es & Hes & HP).
  destruct (m s) as [[a|r|e] s']; now exists es.
Qed.

Create HintDb emits.
#[local] Hint Resolve emits_ret emits_py_return emits_py_raise emits_eval
  emits_get_dest emits_set_dest : emits.

Ltac emits_step :=
  first [ apply emits_bind; [|intros ?]
        | apply emits_emit; reflexivity
        | solve [auto with emits] ].

Section DownloadEvents.

Variable w : world.

Let fetches (e : event) : Prop := is_fetch_event e = true.

Lemma emits_select_url : emits fetches (select_url w).
Proof.
  unfold select_url, fetch_release_data. repeat emits_step.
  - destruct (api_latest w) as [data|code|text]; repeat emits_step.
    destruct (negb (Z.eqb code 404)); repeat emits_step.
  - destruct (negb (Py.truthy _)); repeat emits_step.
Qed.

Lemma emits_fetch_archive (url : string) : emits fetches (fetch_archive w url).
Proof.
  unfold fetch_archive. repeat emits_step.
  destruct (urlretrieve w url) as [content|code reason|text partial];
    repeat emits_step.
  destruct (FS.write_file _ content _) as [d'|text]; repeat emits_step.
Qed.

Lemma emits_extract_with (reader : string -> io (list member))
      (archive_path content : string) :
  emits fetches (extract_with w reader archive_path content).
Proof.
  unfold extract_with. repeat emits_step.
  destruct (reader content) as [ms|text]; [|repeat emits_step].
  destruct (extractall w _ ms _) as [d' [text|]]; repeat emits_step.
Qed.

Lemma emits_extract_archive (archive_path content : string) :
  emits fetches (extract_archive w archive_path content).
Proof.
  unfold extract_archive.
  destruct (PyStr.endswith ".zip" archive_path); [apply emits_extract_with|].
  destruct (PyStr.endswith ".tar.gz" archive_path); [apply emits_extract_with|].
  destruct (PyStr.endswith ".dmg" archive_path); repeat emits_step.
Qed.

(** Up to the search, no permission is changed. *)
Lemma emits_acquire_archive : emits fetches (acquire_archive w).
Proof.
  unfold acquire_archive. apply emits_bind; [apply emits_select_url|].
  intros url. apply emits_bind; [apply emits_fetch_archive|].
  intros content. apply emits_extract_archive.
Qed.

End DownloadEvents.

(** The events of a whole acquisition. *)
Lemma download_gzdoom_events_of (w : world) (s : state) :
  exists es,
    trace (snd (download_gzdoom w s)) = trace s ++ es
    /\ Forall (fun e => is_download_event e = true) es.
Proof.
  apply (emits_def (fun e => is_download_event e = true)).
  apply emits_bind.
  - apply (emits_weaken (fun e => is_fetch_event e = true));
      [|apply emits_acquire_archive].
    intros e He. destruct e; try discriminate He; reflexivity.
  - intros _ s'. rewrite locate_executable_first.
    destruct (first_engine_file _ _) as [p|];
      eexists; (split; [reflexivity|]); repeat constructor.
Qed.

(** X7. Whatever the surroundings answer, [download_gzdoom] starts no
    process, writes no mod archive, asks no yes/no question, looks nothing
    up on the search path and saves no configuration: all it adds to the
    trace are the creation of the engine directory, the query, the
    download, the extraction, error or information dialogs and one change
    of permission. *)
Theorem download_gzdoom_side_effects (w : world) (s : state) :
  exists es,
    trace (snd (download_gzdoom w s)) = trace s ++ es
    /\ Forall (fun e => is_download_event e = true) es
    /\ (forall cmd, ~ In (Popen cmd) es)
    /\ (forall out entries, ~ In (WriteZip out entries) es)
    /\ (forall title msg, ~ In (AskYesNo title msg) es)
    /\ (forall name, ~ In (Which name) es)
    /\ (forall key value, ~ In (SaveConfig key value) es).
Proof.
  destruct (download_gzdoom_events_of w s) as (es & Hes & HP).
  exists es. split; [exact Hes|]. split; [exact HP|].
  rewrite Forall_forall in HP.
  repeat split; intros; intros Hin; apply HP in Hin; discriminate Hin.
Qed.

Section ReturnsNone.

Variable w : world.

Lemma returns_none_bind {A B : Type}
      (m : M (option string) A) (k : A -> M (option string) B) :
  returns_none m -> (forall a, returns_none (k a)) -> returns_none (bind m k).
Proof.
  intros Hm Hk s r s'. unfold bind.
  destruct (m s) as [[a|r0|e] s0] eqn:Hms.
  - apply Hk.
  - intros [= <- _]. now apply (Hm s r0 s0).
  - discriminate.
Qed.

Lemma returns_none_next {A : Type} (m : M (option string) A) :
  (forall s, exists a s', m s = (Next a, s')) -> returns_none m.
Proof. intros H s r s' Hr. destruct (H s) as (a & s0 & Ha). congruence. Qed.

Lemma returns_none_eval {A : Type} (r : result A) :
  returns_none (@eval (option string) A r).
Proof. destruct r; intros s r0 s'; discriminate. Qed.

Lemma returns_none_show {A : Type} (e : event) :
  returns_none (bind (emit e) (fun _ => @py_return (option string) A None)).
Proof. intros s r s'. rewrite bind_emit. now intros [= <- _]. Qed.

Ltac returns_step :=
  first [ apply returns_none_show
        | apply returns_none_eval
        | apply returns_none_next; intros ?; eexists; eexists; reflexivity
        | apply returns_none_bind; [|intros ?] ].

Lemma returns_none_extract_with (reader : string -> io (list member))
      (archive_path content : string) :
  returns_none (extract_with w reader archive_path content).
Proof.
  unfold extract_with.
  apply returns_none_bind; [returns_step|]. intros _.
  apply returns_none_bind; [returns_step|]. intros d.
  destruct (reader content) as [ms|text]; [|returns_step].
  destruct (extractall w _ ms d) as [d' [text|]]; repeat returns_step.
Qed.

Lemma returns_none_acquire_archive : returns_none (acquire_archive w).
Proof.
  unfold acquire_archive. returns_step; [|returns_step].
  - unfold select_url, fetch_release_data. repeat returns_step.
    + destruct (api_latest w) as [data|code|text]; repeat returns_step.
      destruct (negb (Z.eqb code 404)); repeat returns_step.
    + destruct (negb (Py.truthy _)); repeat returns_step.
  - unfold fetch_archive. repeat returns_step.
    destruct (urlretrieve w _) as [content|code reason|text partial];
      repeat returns_step.
    destruct (FS.write_file _ content _); repeat returns_step.
  - unfold extract_archive.
    destruct (PyStr.endswith ".zip" _); [apply returns_none_extract_with|].
    destruct (PyStr.endswith ".tar.gz" _); [apply returns_none_extract_with|].
    destruct (PyStr.endswith ".dmg" _); repeat returns_step.
Qed.

End ReturnsNone.

(** X8. [download_gzdoom] changes the permission of one file at most, the
    one whose path it returns, and sets it to 0o755: a [chmod] in what it
    did means that this path is the result, and a path is the result only
    after a [chmod] of it. *)
Theorem chmod_only_of_returned_path (w : world) (s : state) :
  exists es,
    trace (snd (download_gzdoom w s)) = trace s ++ es
    /\ (forall p m, In (Chmod p m) es ->
                    fst (download_gzdoom w s) = Returned (Some p) /\ m = mode_755)
    /\ (forall p, fst (download_gzdoom w s) = Returned (Some p) ->
                  exists es', es = es' ++ [Chmod p mode_755]).
Proof.
  unfold download_gzdoom, def, bind.
  destruct (emits_acquire_archive w s) as (es & Hes & Hfetch).
  pose proof (returns_none_acquire_archive w s) as Hnone.
  assert (Hnochmod : forall p m, ~ In (Chmod p m) es).
  { intros p m Hin. rewrite Forall_forall in Hfetch.
    specialize (Hfetch _ Hin). discriminate Hfetch. }
  destruct (acquire_archive w s) as [[[]|r|e] s1]; simpl in Hes.
  - rewrite locate_executable_first.
    destruct (first_engine_file (dest_dir w) (listdir w (dest_dir w) (dest s1)))
      as [q|]; simpl.
    + exists (es ++ [Chmod q mode_755]). rewrite Hes, app_assoc.
      split; [reflexivity|]. split.
      * intros p m Hin. apply in_app_or in Hin.
        destruct Hin as [Hin|[[= <- <-]|[]]]; [now apply Hnochmod in Hin | auto].
      * intros p [= <-]. now exists es.
    + exists (es ++ [ShowError "Error" "GZDoom executable not found after extraction."]).
      rewrite Hes, app_assoc. split; [reflexivity|]. split.
      * intros p m Hin. apply in_app_or in Hin.
        destruct Hin as [Hin|[Hin|[]]]; [now apply Hnochmod in Hin | discriminate].
      * discriminate.
  - exists es. split; [exact Hes|]. split.
    + intros p m Hin. now apply Hnochmod in Hin.
    + simpl. intros p [= Hr]. now rewrite (Hnone r s1 eq_refl) in Hr.
  - exists es. split; [exact Hes|]. split.
    + intros p m Hin. now apply Hnochmod in Hin.
    + discriminate.
Qed.

(** ** [download_gzdoom]: after the download *)

Section AfterDownload.

Variable w : world.

Lemma fetch_archive_done (url content : string) (s : state) (d' : dir) :
  urlretrieve w url = Fetched content ->
  FS.write_file [PosixPath.basename url] content (dest s) = Done d' ->
  fetch_archive w url s
  = (Next content,
     {| dest := d';
        trace := trace s ++ [UrlRetrieve url (archive_path_of w url)] |}).
Proof.
  intros Hget Hwrite. unfold fetch_archive. rewrite bind_emit, Hget.
  erewrite bind_next by reflexivity.
  rewrite dest_logged, Hwrite. reflexivity.
Qed.

(** With the archive in place the function is the extraction followed by
    the search. *)
Lemma download_after_fetch (s s1 : state) (url content : string) (d' : dir) :
  select_url w s = (Next url, s1) ->
  urlretrieve w url = Fetched content ->
  FS.write_file [PosixPath.basename url] content (dest s) = Done d' ->
  download_gzdoom w s
  = def (bind (extract_archive w (archive_path_of w url) content)
              (fun _ => locate_executable w))
        (downloaded_state w s url d').
Proof.
  intros Hsel Hget Hwrite.
  pose proof (select_url_state w s s1 url Hsel) as ->.
  unfold download_gzdoom, def, acquire_archive. unfold bind at 1 3.
  erewrite bind_next by exact Hsel.
  rewrite (fetch_archive_done url content
             (logged s [Makedirs (dest_dir w); UrlOpen GZDOOM_API_LATEST])
             d' Hget Hwrite).
  unfold bind, downloaded_state, logged. cbn [trace dest].
  rewrite <- app_assoc. cbn [app].
  now destruct (extract_archive w (archive_path_of w url) content _)
    as [[[]|r|e] s2].
Qed.

Lemma extract_archive_reader (reader : string -> io (list member))
      (url content : string) (s : state) :
  archive_reader w (PosixPath.basename url) = Some reader ->
  extract_archive w (archive_path_of w url) content s
  = extract_with w reader (archive_path_of w url) content s.
Proof.
  unfold archive_reader, extract_archive.
  rewrite !endswith_archive_path by reflexivity.
  destruct (PyStr.endswith ".zip" (PosixPath.basename url)); [now intros [= <-]|].
  destruct (PyStr.endswith ".tar.gz" (PosixPath.basename url));
    [now intros [= <-] | discriminate].
Qed.

End AfterDownload.

Lemma endswith_last_char (suf s : string) :
  PyStr.endswith suf s = true -> suf <> ""%string ->
  last_char s = last_char suf.
Proof.
  intros H Hsuf. induction s as [|c r IH].
  - cbn [PyStr.endswith] in H.
    destruct (String.eqb "" suf) eqn:Heq; [|discriminate].
    apply String.eqb_eq in Heq. congruence.
  - cbn [PyStr.endswith] in H.
    destruct (String.eqb (String c r) suf) eqn:Heq.
    + apply String.eqb_eq in Heq. now subst.
    + specialize (IH H). destruct r as [|c' r']; [|exact IH].
      cbn [PyStr.endswith] in H.
      destruct (String.eqb "" suf) eqn:He; [|discriminate].
      apply String.eqb_eq in He. congruence.
Qed.

(** X1. When the downloaded file's name ends in ".dmg", [download_gzdoom]
    shows "Manual Step Required", naming the path of the image and the
    engine directory, and returns [None]: nothing is extracted and the
    directory is not searched. *)
Theorem disk_image_needs_manual_step
        (w : world) (s s1 : state) (url content : string) (d' : dir) :
  select_url w s = (Next url, s1) ->
  urlretrieve w url = Fetched content ->
  FS.write_file [PosixPath.basename url] content (dest s) = Done d' ->
  PyStr.endswith ".dmg" (PosixPath.basename url) = true ->
  download_gzdoom w s
  = (Returned None,
     logged (downloaded_state w s url d')
            [ShowInfo "Manual Step Required"
               ("Please mount " ++ archive_path_of w url
                  ++ " and copy GZDoom.app to " ++ dest_dir w ++ ".")]).
Proof.
  intros Hsel Hget Hwrite Hdmg.
  rewrite (download_after_fetch w s s1 url content d' Hsel Hget Hwrite).
  assert (Hzip : PyStr.endswith ".zip" (PosixPath.basename url) = false).
  { destruct (PyStr.endswith ".zip" (PosixPath.basename url)) eqn:Hz; [|reflexivity].
    apply endswith_last_char in Hz; [|discriminate].
    apply endswith_last_char in Hdmg; [|discriminate].
    rewrite Hz in Hdmg. discriminate Hdmg. }
  assert (Htar : PyStr.endswith ".tar.gz" (PosixPath.basename url) = false).
  { destruct (PyStr.endswith ".tar.gz" (PosixPath.basename url)) eqn:Hz; [|reflexivity].
    apply endswith_last_char in Hz; [|discriminate].
    apply endswith_last_char in Hdmg; [|discriminate].
    rewrite Hz in Hdmg. discriminate Hdmg. }
  unfold def. erewrite bind_return; [reflexivity|].
  unfold extract_archive. rewrite !endswith_archive_path by reflexivity.
  rewrite Hzip, Htar, Hdmg. now rewrite bind_emit.
Qed.

Lemma disk_image_needs_manual_step_witness :
  download_gzdoom mac_box fresh
  = (Returned None,
     {| dest := Dir [("gz.dmg", "bytes")] [];
        trace := [Makedirs "/app/engines/gzdoom"; UrlOpen GZDOOM_API_LATEST;
                  UrlRetrieve "https://h/gz.dmg" "/app/engines/gzdoom/gz.dmg";
                  ShowInfo "Manual Step Required"
                    "Please mount /app/engines/gzdoom/gz.dmg and copy GZDoom.app to /app/engines/gzdoom."] |}).
Proof.
  apply (disk_image_needs_manual_step
           mac_box fresh
           (logged fresh [Makedirs "/app/engines/gzdoom"; UrlOpen GZDOOM_API_LATEST])
           "https://h/gz.dmg" "bytes" (Dir [("gz.dmg", "bytes")] []));
    reflexivity.
Defined.

(** X2. When the download of the chosen URL fails, with an HTTP error or
    any other exception, [download_gzdoom] shows "Download Failed" with
    the reason and returns [None]; nothing is extracted or searched.  After
    an HTTP error, which comes before the target file is opened, the engine
    directory is as before, and so it is after another exception that came
    before that; otherwise the directory holds what the transfer left of
    the archive. *)
Theorem download_failure_is_fatal
        (w : world) (s s1 : state) (url msg : string) :
  select_url w s = (Next url, s1) ->
  fetch_failure_message (urlretrieve w url) = Some msg ->
  let left := left_by_fetch (urlretrieve w url) (PosixPath.basename url) (dest s) in
  download_gzdoom w s
  = (Returned None,
     {| dest := left;
        trace := trace s ++ [Makedirs (dest_dir w); UrlOpen GZDOOM_API_LATEST;
                             UrlRetrieve url (archive_path_of w url);
                             ShowError "Download Failed" msg] |})
  /\ (forall code reason,
        urlretrieve w url = FetchHTTPError code reason -> left = dest s)
  /\ (forall text, urlretrieve w url = FetchError text None -> left = dest s)
  /\ (forall text bytes d',
        urlretrieve w url = FetchError text (Some bytes) ->
        FS.write_file [PosixPath.basename url] bytes (dest s) = Done d' ->
        left = d').
Proof.
  intros Hsel Hfail left.
  pose proof (select_url_state w s s1 url Hsel) as ->.
  split; [|subst left; repeat split; intros until 1; rewrite H; cbn [left_by_fetch];
           [reflexivity | reflexivity | intros Hw; now rewrite Hw]].
  unfold download_gzdoom, def, acquire_archive.
  erewrite bind_return; [reflexivity|].
  erewrite bind_next by exact Hsel.
  erewrite bind_return; [reflexivity|].
  unfold fetch_archive. rewrite bind_emit, logged_logged.
  subst left.
  destruct (urlretrieve w url) as [content|code reason|text partial];
    simpl in Hfail; [discriminate| |]; injection Hfail as <-.
  - now rewrite bind_emit, logged_logged.
  - unfold bind, get_dest, set_dest, emit, py_return, logged.
    cbn [dest trace]. now rewrite <- app_assoc.
Qed.

Lemma download_failure_is_fatal_witness :
  download_gzdoom offline_box fresh
  = (Returned None,
     {| dest := empty_dir;
        trace := [Makedirs "/app/engines/gzdoom"; UrlOpen GZDOOM_API_LATEST;
                  UrlRetrieve "https://h/win.zip" "/app/engines/gzdoom/win.zip";
                  ShowError "Download Failed" "HTTP Error 403: Forbidden"] |})
  /\ download_gzdoom stalled_box fresh
     = (Returned None,
        {| dest := Dir [("win.zip", "byt")] [];
           trace := [Makedirs "/app/engines/gzdoom"; UrlOpen GZDOOM_API_LATEST;
                     UrlRetrieve "https://h/win.zip" "/app/engines/gzdoom/win.zip";
                     ShowError "Download Failed"
                       "Error downloading archive: <urlopen error retrieval incomplete: got only 3 out of 5 bytes>"] |}).
Proof.
  split.
  - exact (proj1 (download_failure_is_fatal
                    offline_box fresh
                    (logged fresh [Makedirs "/app/engines/gzdoom";
                                   UrlOpen GZDOOM_API_LATEST])
                    "https://h/win.zip" "HTTP Error 403: Forbidden"
                    eq_refl eq_refl)).
  - exact (proj1 (download_failure_is_fatal
                    stalled_box fresh
                    (logged fresh [Makedirs "/app/engines/gzdoom";
                                   UrlOpen GZDOOM_API_LATEST])
                    "https://h/win.zip"
                    "Error downloading archive: <urlopen error retrieval incomplete: got only 3 out of 5 bytes>"
                    eq_refl eq_refl)).
Defined.

(** An extraction that has unpacked some members and fails at the next
    leaves those members, and what the failing one left, in place. *)
Lemma extractall_stops (w : world) (top : string) (before : list member)
      (m : member) (rest : list member) (d d0 d1 : dir) (text : string) :
  extractall w top before d = (d0, None) ->
  extract_member w top m d0 = (d1, Some text) ->
  extractall w top (before ++ m :: rest) d = (d1, Some text).
Proof.
  revert d. induction before as [|x before IH]; intros d Hbefore Hm.
  - cbn [extractall] in Hbefore. injection Hbefore as ->.
    cbn [app extractall]. now rewrite Hm.
  - cbn [app extractall] in *.
    destruct (extract_member w top x d) as [dx [t|]]; [discriminate|].
    now apply IH.
Qed.

(** X3. When the archive is a zip or a gzipped tar and opening or unpacking
    it raises, [download_gzdoom] shows "Extraction Failed" with the text of
    the exception and returns [None]; the engine directory is not searched
    and no permission is changed.  An archive that cannot be opened leaves
    the directory as the download left it; a failure while unpacking
    leaves the members unpacked before it. *)
Theorem extraction_failure_is_fatal
        (w : world) (s s1 : state) (url content text : string) (d' d'' : dir)
        (reader : string -> io (list member)) :
  select_url w s = (Next url, s1) ->
  urlretrieve w url = Fetched content ->
  FS.write_file [PosixPath.basename url] content (dest s) = Done d' ->
  archive_reader w (PosixPath.basename url) = Some reader ->
  unpacked w reader content d' = (d'', Some text) ->
  download_gzdoom w s
  = (Returned None,
     {| dest := d'';
        trace := trace s ++ [Makedirs (dest_dir w); UrlOpen GZDOOM_API_LATEST;
                             UrlRetrieve url (archive_path_of w url);
                             ExtractAll (archive_path_of w url) (dest_dir w);
                             ShowError "Extraction Failed"
                               ("Could not extract GZDoom: " ++ text)] |})
  /\ (forall t, reader content = Failed t -> d'' = d' /\ text = t)
  /\ (forall before m rest d0 d1 t,
        reader content = Done (before ++ m :: rest) ->
        extractall w (dest_dir w) before d' = (d0, None) ->
        extract_member w (dest_dir w) m d0 = (d1, Some t) ->
        d'' = d1 /\ text = t).
Proof.
  intros Hsel Hget Hwrite Hreader Hfail.
  split; [|split].
  - rewrite (download_after_fetch w s s1 url content d' Hsel Hget Hwrite).
    unfold def. erewrite bind_return; [reflexivity|].
    rewrite (extract_archive_reader w reader url content _ Hreader).
    unfold extract_with. rewrite bind_emit.
    erewrite bind_next by reflexivity.
    unfold unpacked in Hfail. cbn [dest logged downloaded_state].
    destruct (reader content) as [ms|t].
    + rewrite Hfail.
      unfold bind, set_dest, emit, py_return, logged, downloaded_state.
      cbn [dest trace]. now rewrite <- !app_assoc.
    + injection Hfail as <- <-. rewrite bind_emit.
      unfold py_return, logged, downloaded_state.
      cbn [dest trace]. now rewrite <- !app_assoc.
  - intros t Ht. unfold unpacked in Hfail. rewrite Ht in Hfail.
    now injection Hfail as <- <-.
  - intros before m rest d0 d1 t Hms Hbefore Hm.
    unfold unpacked in Hfail. rewrite Hms in Hfail.
    rewrite (extractall_stops w _ before m rest d' d0 d1 t Hbefore Hm) in Hfail.
    now injection Hfail as <- <-.
Qed.

Lemma extraction_failure_is_fatal_witness :
  download_gzdoom damaged_box fresh
  = (Returned None,
     {| dest := Dir [("win.zip", "bytes")] [];
        trace := [Makedirs "/app/engines/gzdoom"; UrlOpen GZDOOM_API_LATEST;
                  UrlRetrieve "https://h/win.zip" "/app/engines/gzdoom/win.zip";
                  ExtractAll "/app/engines/gzdoom/win.zip" "/app/engines/gzdoom";
                  ShowError "Extraction Failed"
                    "Could not extract GZDoom: File is not a zip file"] |})
  /\ download_gzdoom (box_with clashing_archive oldest_first) fresh
     = (Returned None,
        {| dest := Dir [("win.zip", "bytes"); ("gzdoom", "x")] [];
           trace := [Makedirs "/app/engines/gzdoom"; UrlOpen GZDOOM_API_LATEST;
                     UrlRetrieve "https://h/win.zip" "/app/engines/gzdoom/win.zip";
                     ExtractAll "/app/engines/gzdoom/win.zip" "/app/engines/gzdoom";
                     ShowError "Extraction Failed"
                       "Could not extract GZDoom: [Errno 20] Not a directory: '/app/engines/gzdoom/gzdoom/readme.txt'"] |}).
Proof.
  split.
  - exact (proj1 (extraction_failure_is_fatal
                    damaged_box fresh
                    (logged fresh [Makedirs "/app/engines/gzdoom";
                                   UrlOpen GZDOOM_API_LATEST])
                    "https://h/win.zip" "bytes" "File is not a zip file"
                    (Dir [("win.zip", "bytes")] []) (Dir [("win.zip", "bytes")] [])
                    (unzip damaged_box)
                    eq_refl eq_refl eq_refl eq_refl eq_refl)).
  - exact (proj1 (extraction_failure_is_fatal
                    (box_with clashing_archive oldest_first) fresh
                    (logged fresh [Makedirs "/app/engines/gzdoom";
                                   UrlOpen GZDOOM_API_LATEST])
                    "https://h/win.zip" "bytes"
                    "[Errno 20] Not a directory: '/app/engines/gzdoom/gzdoom/readme.txt'"
                    (Dir [("win.zip", "bytes")] [])
                    (Dir [("win.zip", "bytes"); ("gzdoom", "x")] [])
                    (unzip (box_with clashing_archive oldest_first))
                    eq_refl eq_refl eq_refl eq_refl eq_refl)).
Defined.



(** ** [download_gzdoom]: releases without a usable asset *)

Lemma bind_raise {R A B : Type} (m : M R A) (k : A -> M R B)
      (s s' : state) (e : exn) :
  m s = (Raise e, s') -> bind m k s = (Raise e, s').
Proof. intros H. unfold bind. now rewrite H. Qed.

(** X5. When the first asset whose lowercased name passes the platform's
    test has no "browser_download_url" key, the [KeyError] of the lookup
    leaves [download_gzdoom] uncaught, after the query and before any
    download. *)
Theorem asset_without_url_raises
        (w : world) (s : state) (data : json) (pre post : list json)
        (a : json) (name : string) :
  api_latest w = RespOk data ->
  Py.getitem data "assets" = Ok (JList (pre ++ a :: post)) ->
  (forall x, In x pre ->
     exists n, asset_name x = Some n
               /\ platform_match (system w) (PyStr.lower n) = false) ->
  asset_name a = Some name ->
  platform_match (system w) (PyStr.lower name) = true ->
  Py.getitem a "browser_download_url" = Err KeyError ->
  download_gzdoom w s
  = (Raised KeyError,
     logged s [Makedirs (dest_dir w); UrlOpen GZDOOM_API_LATEST]).
Proof.
  intros Hapi Hassets Hpre Hname Hmatch Hkey.
  destruct (getitem_truthy _ _ _ Hassets) as [Hdata Hget].
  assert (Hchoose : choose_asset_url (system w) data = Err KeyError).
  { unfold choose_asset_url. rewrite Hdata, Hget. simpl.
    rewrite scan_assets_skip by (auto; reflexivity).
    simpl. rewrite (asset_name_get a name Hname). simpl.
    now rewrite Hmatch, Hkey. }
  unfold download_gzdoom, def, acquire_archive, select_url.
  erewrite bind_raise; [reflexivity|].
  erewrite bind_raise; [reflexivity|].
  rewrite bind_emit.
  erewrite bind_next
    by (unfold fetch_release_data; rewrite bind_emit, Hapi; reflexivity).
  rewrite Hchoose. erewrite bind_raise; [|reflexivity].
  now rewrite logged_logged.
Qed.

Lemma asset_without_url_raises_witness :
  download_gzdoom (with_reply "Windows" (RespOk broken_release)) fresh
  = (Raised KeyError,
     logged fresh [Makedirs "/app/engines/gzdoom"; UrlOpen GZDOOM_API_LATEST]).
Proof.
  apply (asset_without_url_raises
           (with_reply "Windows" (RespOk broken_release)) fresh broken_release
           [asset "gzdoom-4-14-2-macos.zip" "https://h/mac.zip"] []
           (JDict [("name", JStr "gzdoom-4-14-2-windows.zip")])
           "gzdoom-4-14-2-windows.zip");
    try reflexivity.
  intros x [<-|[]]. eexists. split; reflexivity.
Defined.

(** X6. When the release lists assets and the lowercased name of none of
    them passes the platform's test, [download_gzdoom] shows "No suitable
    GZDoom build found for your platform." and returns [None]; nothing is
    downloaded and the hardcoded release is not used. *)
Theorem no_matching_asset_no_download
        (w : world) (s : state) (data : json) (assets : list json) :
  api_latest w = RespOk data ->
  Py.getitem data "assets" = Ok (JList assets) ->
  (forall x, In x assets ->
     exists n, asset_name x = Some n
               /\ platform_match (system w) (PyStr.lower n) = false) ->
  download_gzdoom w s
  = (Returned None,
     logged s [Makedirs (dest_dir w); UrlOpen GZDOOM_API_LATEST;
               ShowError "Download Failed"
                 "No suitable GZDoom build found for your platform."]).
Proof.
  intros Hapi Hassets Hnone.
  destruct (getitem_truthy _ _ _ Hassets) as [Hdata Hget].
  apply (download_no_suitable_build w s data JNull Hapi Hdata); [|reflexivity].
  unfold choose_asset_url. rewrite Hdata, Hget. simpl.
  rewrite <- (app_nil_r assets).
  now rewrite scan_assets_skip.
Qed.

Lemma no_matching_asset_no_download_witness :
  download_gzdoom (with_reply "FreeBSD" (RespOk sample_release)) fresh
  = (Returned None,
     logged fresh [Makedirs "/app/engines/gzdoom"; UrlOpen GZDOOM_API_LATEST;
                   ShowError "Download Failed"
                     "No suitable GZDoom build found for your platform."]).
Proof.
  apply (no_matching_asset_no_download
           (with_reply "FreeBSD" (RespOk sample_release)) fresh sample_release
           [asset "gzdoom-4-14-2-macos.zip" "https://h/mac.zip";
            asset "GZDoom-4-14-2-Windows.ZIP" "https://h/win.zip";
            asset "gzdoom-4-14-2-windows.zip" "https://h/win2.zip"]);
    try reflexivity.
  intros x [<-|[<-|[<-|[]]]]; eexists; split; reflexivity.
Defined.

(** ** [find_engine] when nothing resolves *)

(** X9. When no name of the list resolves on the search path,
    [find_engine] has looked every name up, in order, and asks whether to
    download: on "no" it returns [None] and does nothing more; on "yes" its
    result is that of [download_gzdoom]. *)
Theorem find_engine_none_resolvable
        (w : world) (engine_names : list string) (s : state) :
  (forall n, In n engine_names -> truthy_opt (which w n) = false) ->
  let asked :=
    logged s (map Which engine_names
                ++ [AskYesNo "Engine Not Found"
                      "No DOOM engine found. Download GZDoom now?"]) in
  find_engine w engine_names s
  = if ask_download w then download_gzdoom w asked else (Returned None, asked).
Proof.
  intros Hnone asked. unfold find_engine, def.
  rewrite <- (app_nil_r engine_names) at 1.
  unfold bind at 1. rewrite (try_engine_names_skip w engine_names [] s Hnone).
  cbn [try_engine_names ret]. rewrite bind_emit, logged_logged.
  fold asked. destruct (ask_download w); [|reflexivity].
  unfold call. now destruct (download_gzdoom w asked) as [[r|e] s'].
Qed.

Lemma find_engine_none_resolvable_witness :
  find_engine offline_box ENGINES fresh
  = (Returned None,
     logged fresh [Which "gzdoom"; Which "chocolate-doom"; Which "prboom";
                   Which "zdoom";
                   AskYesNo "Engine Not Found"
                     "No DOOM engine found. Download GZDoom now?"]).
Proof.
  apply (find_engine_none_resolvable offline_box ENGINES fresh).
  reflexivity.
Defined.

(** ** [run_wad] *)

Section RunWad.

Variable w : world.

Lemma check_mods_ok (mods : list string) (s : state) :
  forallb (isfile w) mods = true ->
  check_mods w mods s = (Next mods, s).
Proof.
  induction mods as [|p mods IH]; intros Hall; [reflexivity|].
  cbn [forallb] in Hall. apply andb_prop in Hall. destruct Hall as [Hp Hall].
  cbn [check_mods]. rewrite Hp.
  erewrite bind_next by (apply IH; exact Hall). reflexivity.
Qed.

Lemma check_mods_missing (pre post : list string) (m : string) (s : state) :
  forallb (isfile w) pre = true ->
  isfile w m = false ->
  check_mods w (pre ++ m :: post) s
  = (Return tt, logged s [ShowError "Error" ("Mod file '" ++ m ++ "' not found.")]).
Proof.
  induction pre as [|p pre IH]; intros Hall Hm.
  - cbn [app check_mods]. rewrite Hm. now rewrite bind_emit.
  - cbn [forallb] in Hall. apply andb_prop in Hall. destruct Hall as [Hp Hall].
    cbn [app check_mods]. rewrite Hp.
    erewrite bind_return; [reflexivity | now apply IH].
Qed.

(** Either every mod is a file, or the first one that is not is named in
    an error dialog and the function returns. *)
Lemma check_mods_cases (mods : list string) (s : state) :
  (forallb (isfile w) mods = true /\ check_mods w mods s = (Next mods, s))
  \/ (exists m, check_mods w mods s
                = (Return tt,
                   logged s [ShowError "Error" ("Mod file '" ++ m ++ "' not found.")])).
Proof.
  induction mods as [|p mods IH]; [left; split; reflexivity|].
  cbn [check_mods forallb]. destruct (isfile w p) eqn:Hp.
  - destruct IH as [[Hall Hok]|[m Hm]].
    + left. split; [exact Hall|]. now erewrite bind_next by exact Hok.
    + right. exists m. now erewrite bind_return by exact Hm.
  - right. exists p. now rewrite bind_emit.
Qed.

(** The statements after the engine is known. *)
Lemma launch_tail (status_label : bool) (cmd : list string) (s : state) :
  bind (@emit unit (Log ("Launching: " ++ PyStr.join " " cmd)))
       (fun _ => bind (if status_label then emit (Status "Launching...") else ret tt)
                      (fun _ => emit (Popen cmd))) s
  = (Next tt, logged s (launch_events status_label cmd)).
Proof.
  rewrite bind_emit. unfold launch_events.
  destruct status_label.
  - rewrite bind_emit, emit_logged, !logged_logged. reflexivity.
  - erewrite bind_next by reflexivity.
    rewrite emit_logged, !logged_logged. reflexivity.
Qed.

(** [run_wad] with its files in place: the engine choice, then the
    launch. *)
Lemma run_wad_files_ok (wad_path : string)
      (engine_choice custom_engine_path : option string)
      (mod_paths : option (list string)) (status_label : bool) (s : state) :
  isfile w wad_path = true ->
  forallb (isfile w) (mods_of mod_paths) = true ->
  run_wad w wad_path engine_choice custom_engine_path mod_paths status_label s
  = match determine_engine w engine_choice custom_engine_path s with
    | (Next engine_path, s') =>
        (Returned tt,
         logged s' (launch_events status_label
                      (command_line engine_path wad_path (mods_of mod_paths))))
    | (Return r, s') => (Returned r, s')
    | (Raise e, s') => (Raised e, s')
    end.
Proof.
  intros Hwad Hmods. unfold run_wad, def.
  erewrite bind_next by (rewrite Hwad; reflexivity).
  erewrite bind_next by (apply check_mods_ok; exact Hmods).
  unfold bind at 1.
  destruct (determine_engine w engine_choice custom_engine_path s)
    as [[engine_path|r|e] s']; [|reflexivity|reflexivity].
  fold (mods_of mod_paths).
  fold (command_line engine_path wad_path (mods_of mod_paths)).
  now rewrite launch_tail.
Qed.

Let resolves (e : event) : Prop := is_resolution_event e = true.

Lemma emits_try_engine_names (engine_names : list string) :
  emits resolves (try_engine_names w engine_names).
Proof.
  induction engine_names as [|n names IH]; cbn [try_engine_names].
  - apply emits_ret.
  - apply emits_bind; [apply emits_emit; reflexivity|]. intros _.
    destruct (truthy_opt (which w n)); [apply emits_py_return | exact IH].
Qed.

Lemma fn_emits_download_gzdoom : fn_emits resolves (download_gzdoom w).
Proof.
  intros s. destruct (download_gzdoom_events_of w s) as (es & Hes & HP).
  exists es. split; [exact Hes|].
  eapply Forall_impl; [|exact HP].
  intros e He. unfold resolves, is_resolution_event.
  destruct e; try discriminate He; reflexivity.
Qed.

Lemma fn_emits_find_engine (engine_names : list string) :
  fn_emits resolves (find_engine w engine_names).
Proof.
  apply emits_def.
  apply emits_bind; [apply emits_try_engine_names|]. intros _.
  apply emits_bind; [apply emits_emit; reflexivity|]. intros _.
  destruct (ask_download w);
    [apply emits_call, fn_emits_download_gzdoom | apply emits_ret].
Qed.

(** The engine choice adds lookups, the prompt and what an acquisition
    does; the engine path it yields is a non-empty string. *)
Lemma determine_engine_resolves (engine_choice custom_engine_path : option string)
      (s : state) :
  exists es,
    trace (snd (determine_engine w engine_choice custom_engine_path s))
    = trace s ++ es
    /\ Forall resolves es
    /\ forall p, fst (determine_engine w engine_choice custom_engine_path s) = Next p ->
                 PyStr.truthy p = true.
Proof.
  assert (Hnil : forall (f : flow unit string),
             exists es, trace s = trace s ++ es /\ Forall resolves es).
  { intros _. exists []. now rewrite app_nil_r. }
  assert (Hother :
            exists es,
              trace (snd (
                (if (truthy_opt engine_choice
                     && negb (match engine_choice with
                              | Some c => String.eqb c "Auto"
                              | None => false
                              end))%bool
                 then
                   let name := match engine_choice with Some c => c | None => "" end in
                   bind (emit (Which name))
                        (fun _ =>
                           match which w name with
                           | Some p =>
                               if PyStr.truthy p then ret p
                               else bind (emit (ShowError "Error"
                                                  ("Engine '" ++ name ++ "' not found on PATH.")))
                                         (fun _ => py_return tt)
                           | None =>
                               bind (emit (ShowError "Error"
                                             ("Engine '" ++ name ++ "' not found on PATH.")))
                                    (fun _ => py_return tt)
                           end)
                 else
                   bind (call (find_engine w ENGINES))
                        (fun engine_path =>
                           match engine_path with
                           | Some p => if PyStr.truthy p then ret p else py_return tt
                           | None => py_return tt
                           end)) s))
              = trace s ++ es
              /\ Forall resolves es
              /\ forall p,
                  fst (
                    (if (truthy_opt engine_choice
                         && negb (match engine_choice with
                                  | Some c => String.eqb c "Auto"
                                  | None => false
                                  end))%bool
                     then
                       let name := match engine_choice with Some c => c | None => "" end in
                       bind (emit (Which name))
                            (fun _ =>
                               match which w name with
                               | Some p =>
                                   if PyStr.truthy p then ret p
                                   else bind (emit (ShowError "Error"
                                                      ("Engine '" ++ name ++ "' not found on PATH.")))
                                             (fun _ => py_return tt)
                               | None =>
                                   bind (emit (ShowError "Error"
                                                 ("Engine '" ++ name ++ "' not found on PATH.")))
                                        (fun _ => py_return tt)
                               end)
                     else
                       bind (call (find_engine w ENGINES))
                            (fun engine_path =>
                               match engine_path with
                               | Some p => if PyStr.truthy p then ret p else py_return tt
                               | None => py_return tt
                               end)) s) = Next p ->
                  PyStr.truthy p = true).
  { destruct (truthy_opt engine_choice && _)%bool.
    - cbv zeta. rewrite bind_emit.
      destruct (which w _) as [p|].
      + destruct (PyStr.truthy p) eqn:Hp.
        * exists [Which (match engine_choice with Some c => c | None => "" end)].
          split; [reflexivity|]. split; [repeat constructor|].
          now intros q [= <-].
        * rewrite bind_emit. eexists. split; [simpl; now rewrite <- app_assoc|].
          split; [repeat constructor | discriminate].
      + rewrite bind_emit. eexists. split; [simpl; now rewrite <- app_assoc|].
        split; [repeat constructor | discriminate].
    - unfold bind, call.
      destruct (fn_emits_find_engine ENGINES s) as (es & Hes & HP).
      destruct (find_engine w ENGINES s) as [[[p|]|e] s']; simpl in Hes.
      + destruct (PyStr.truthy p) eqn:Hp; exists es;
          (split; [exact Hes|]); (split; [exact HP|]).
        * now intros q [= <-].
        * discriminate.
      + exists es. split; [exact Hes|]. split; [exact HP | discriminate].
      + exists es. split; [exact Hes|]. split; [exact HP | discriminate]. }
  unfold determine_engine.
  destruct custom_engine_path as [p|]; [|exact Hother].
  destruct (PyStr.truthy p) eqn:Hp; [|exact Hother].
  exists []. rewrite app_nil_r. split; [reflexivity|]. split; [constructor|].
  now intros q [= <-].
Qed.

End RunWad.

(** X10. [run_wad] starts a process only when the data file is a file and
    every mod is a file, and then exactly the command made of a non-empty
    engine path, "-iwad" and the data file, and "-file" before each mod in
    the order given; whatever else happens, nothing is started. *)
Theorem run_wad_starts_only_checked_files
        (w : world) (wad_path : string)
        (engine_choice custom_engine_path : option string)
        (mod_paths : option (list string)) (status_label : bool) (s : state) :
  exists es,
    trace (snd (run_wad w wad_path engine_choice custom_engine_path
                        mod_paths status_label s))
    = trace s ++ es
    /\ forall cmd,
        In (Popen cmd) es ->
        isfile w wad_path = true
        /\ forallb (isfile w) (mods_of mod_paths) = true
        /\ exists engine_path,
            PyStr.truthy engine_path = true
            /\ cmd = command_line engine_path wad_path (mods_of mod_paths).
Proof.
  destruct (isfile w wad_path) eqn:Hwad.
  - destruct (check_mods_cases w (mods_of mod_paths) s) as [[Hall Hok]|[m Hm]].
    + rewrite (run_wad_files_ok w wad_path engine_choice custom_engine_path
                 mod_paths status_label s Hwad Hall).
      destruct (determine_engine_resolves w engine_choice custom_engine_path s)
        as (es & Hes & HP & Htruthy).
      assert (Hno : forall cmd, ~ In (Popen cmd) es).
      { intros cmd Hin. rewrite Forall_forall in HP.
        apply HP in Hin. discriminate Hin. }
      destruct (determine_engine w engine_choice custom_engine_path s)
        as [[engine_path|r|e] s']; simpl in Hes, Htruthy.
      * exists (es ++ launch_events status_label
                        (command_line engine_path wad_path (mods_of mod_paths))).
        cbn [snd trace logged]. rewrite Hes, app_assoc.
        split; [reflexivity|]. intros cmd Hin.
        split; [reflexivity|]. split; [exact Hall|].
        exists engine_path. split; [now apply Htruthy|].
        apply in_app_or in Hin. destruct Hin as [Hin|Hin];
          [now apply Hno in Hin|].
        unfold launch_events in Hin. cbn [app] in Hin.
        destruct Hin as [Hin|Hin]; [discriminate|].
        destruct status_label; cbn [app] in Hin.
        -- destruct Hin as [Hin|[Hin|[]]]; [discriminate | now injection Hin].
        -- destruct Hin as [Hin|[]]. now injection Hin.
      * exists es. split; [exact Hes|]. intros cmd Hin. now apply Hno in Hin.
      * exists es. split; [exact Hes|]. intros cmd Hin. now apply Hno in Hin.
    + exists [ShowError "Error" ("Mod file '" ++ m ++ "' not found.")].
      unfold run_wad, def.
      erewrite bind_next by (rewrite Hwad; reflexivity).
      fold (mods_of mod_paths).
      erewrite bind_return by exact Hm.
      split; [reflexivity|]. intros cmd [Hin|[]]. discriminate.
  - exists [ShowError "Error" ("WAD file '" ++ wad_path ++ "' not found.")].
    unfold run_wad, def.
    erewrite bind_return
      by (rewrite Hwad; cbn [negb]; rewrite bind_emit; reflexivity).
    split; [reflexivity|]. intros cmd [Hin|[]]. discriminate.
Qed.

(** X11. With no custom path and an engine named other than "Auto",
    [run_wad] looks up that one name: found, it starts it; not found, it
    shows "Engine ... not found on PATH." and returns, without turning to
    the preference list and without offering the download. *)
Theorem explicit_engine_choice
        (w : world) (wad_path choice : string) (custom_engine_path : option string)
        (mod_paths : option (list string)) (status_label : bool) (s : state) :
  isfile w wad_path = true ->
  forallb (isfile w) (mods_of mod_paths) = true ->
  truthy_opt custom_engine_path = false ->
  PyStr.truthy choice = true ->
  choice <> "Auto"%string ->
  run_wad w wad_path (Some choice) custom_engine_path mod_paths status_label s
  = (Returned tt,
     logged s
       (Which choice
          :: match which w choice with
             | Some p =>
                 if PyStr.truthy p
                 then launch_events status_label
                        (command_line p wad_path (mods_of mod_paths))
                 else [ShowError "Error"
                         ("Engine '" ++ choice ++ "' not found on PATH.")]
             | None =>
                 [ShowError "Error" ("Engine '" ++ choice ++ "' not found on PATH.")]
             end)).
Proof.
  intros Hwad Hmods Hcustom Hchoice Hauto.
  rewrite (run_wad_files_ok w wad_path (Some choice) custom_engine_path
             mod_paths status_label s Hwad Hmods).
  apply String.eqb_neq in Hauto.
  assert (Hdet : determine_engine w (Some choice) custom_engine_path s
                 = match which w choice with
                   | Some p =>
                       if PyStr.truthy p then (Next p, logged s [Which choice])
                       else (Return tt,
                             logged s [Which choice;
                                       ShowError "Error"
                                         ("Engine '" ++ choice ++ "' not found on PATH.")])
                   | None =>
                       (Return tt,
                        logged s [Which choice;
                                  ShowError "Error"
                                    ("Engine '" ++ choice ++ "' not found on PATH.")])
                   end).
  { unfold determine_engine. cbn [truthy_opt]. rewrite Hchoice, Hauto.
    cbn [negb andb]. cbv zeta.
    assert (Hgo : bind (emit (Which choice))
                    (fun _ =>
                       match which w choice with
                       | Some p =>
                           if PyStr.truthy p then ret p
                           else bind (emit (ShowError "Error"
                                              ("Engine '" ++ choice ++ "' not found on PATH.")))
                                     (fun _ => @py_return unit string tt)
                       | None =>
                           bind (emit (ShowError "Error"
                                         ("Engine '" ++ choice ++ "' not found on PATH.")))
                                (fun _ => py_return tt)
                       end) s
                  = match which w choice with
                    | Some p =>
                        if PyStr.truthy p then (Next p, logged s [Which choice])
                        else (Return tt,
                              logged s [Which choice;
                                        ShowError "Error"
                                          ("Engine '" ++ choice ++ "' not found on PATH.")])
                    | None =>
                        (Return tt,
                         logged s [Which choice;
                                   ShowError "Error"
                                     ("Engine '" ++ choice ++ "' not found on PATH.")])
                    end).
    { rewrite bind_emit. destruct (which w choice) as [p|].
      - destruct (PyStr.truthy p); [reflexivity|].
        now rewrite bind_emit, logged_logged.
      - now rewrite bind_emit, logged_logged. }
    destruct custom_engine_path as [c|]; [|exact Hgo].
    cbn [truthy_opt] in Hcustom. rewrite Hcustom. exact Hgo. }
  rewrite Hdet. destruct (which w choice) as [p|]; [|reflexivity].
  destruct (PyStr.truthy p); [|reflexivity].
  now rewrite logged_logged.
Qed.

Lemma explicit_engine_choice_witness :
  run_wad linux_box "/m/a.wad" (Some "zdoom") None (Some ["/n/b.wad"; "/n/a.wad"])
          false fresh
  = (Returned tt,
     logged fresh
       [Which "zdoom";
        Log "Launching: /usr/bin/zdoom -iwad /m/a.wad -file /n/b.wad -file /n/a.wad";
        Popen ["/usr/bin/zdoom"; "-iwad"; "/m/a.wad"; "-file"; "/n/b.wad";
               "-file"; "/n/a.wad"]])
  /\ run_wad linux_box "/m/a.wad" (Some "gzdoom") None None true fresh
     = (Returned tt,
        logged fresh [Which "gzdoom";
                      ShowError "Error" "Engine 'gzdoom' not found on PATH."]).
Proof.
  split.
  - apply (explicit_engine_choice linux_box "/m/a.wad" "zdoom" None
             (Some ["/n/b.wad"; "/n/a.wad"]) false fresh);
      first [reflexivity | discriminate].
  - apply (explicit_engine_choice linux_box "/m/a.wad" "gzdoom" None None true fresh);
      first [reflexivity | discriminate].
Defined.

(** X12. With no custom path and the engine left on "Auto" (or not given),
    [run_wad] takes what [find_engine] returns for the preference list:
    a non-empty path is started, [None] ends the function in silence, with
    nothing started. *)
Theorem auto_engine_choice
        (w : world) (wad_path : string) (engine_choice custom_engine_path : option string)
        (mod_paths : option (list string)) (status_label : bool) (s : state) :
  isfile w wad_path = true ->
  forallb (isfile w) (mods_of mod_paths) = true ->
  truthy_opt custom_engine_path = false ->
  (truthy_opt engine_choice = false \/ engine_choice = Some "Auto"%string) ->
  run_wad w wad_path engine_choice custom_engine_path mod_paths status_label s
  = match find_engine w ENGINES s with
    | (Returned (Some p), s') =>
        if PyStr.truthy p
        then (Returned tt,
              logged s' (launch_events status_label
                           (command_line p wad_path (mods_of mod_paths))))
        else (Returned tt, s')
    | (Returned None, s') => (Returned tt, s')
    | (Raised e, s') => (Raised e, s')
    end.
Proof.
  intros Hwad Hmods Hcustom Hauto.
  rewrite (run_wad_files_ok w wad_path engine_choice custom_engine_path
             mod_paths status_label s Hwad Hmods).
  assert (Htest : (truthy_opt engine_choice
                   && negb (match engine_choice with
                            | Some c => String.eqb c "Auto"
                            | None => false
                            end))%bool = false).
  { destruct Hauto as [H| ->]; [now rewrite H | reflexivity]. }
  assert (Hdet : determine_engine w engine_choice custom_engine_path s
                 = bind (call (find_engine w ENGINES))
                        (fun engine_path =>
                           match engine_path with
                           | Some p => if PyStr.truthy p then ret p else py_return tt
                           | None => py_return tt
                           end) s).
  { unfold determine_engine. rewrite Htest.
    destruct custom_engine_path as [c|]; [|reflexivity].
    cbn [truthy_opt] in Hcustom. now rewrite Hcustom. }
  rewrite Hdet. unfold bind, call.
  destruct (find_engine w ENGINES s) as [[[p|]|e] s']; try reflexivity.
  now destruct (PyStr.truthy p).
Qed.

Lemma auto_engine_choice_witness :
  run_wad linux_box "/m/a.wad" (Some "Auto") None (Some ["/n/b.wad"]) true fresh
  = (Returned tt,
     logged fresh
       [Which "gzdoom"; Which "chocolate-doom"; Which "prboom";
        Log "Launching: /usr/bin/prboom -iwad /m/a.wad -file /n/b.wad";
        Status "Launching...";
        Popen ["/usr/bin/prboom"; "-iwad"; "/m/a.wad"; "-file"; "/n/b.wad"]]).
Proof.
  apply (auto_engine_choice linux_box "/m/a.wad" (Some "Auto") None
           (Some ["/n/b.wad"]) true fresh);
    first [reflexivity | right; reflexivity].
Defined.

(** X13. When the data file is a file and a mod is not, [run_wad] names the
    first such mod in an error dialog and returns: the mods after it are
    not looked at, no engine is resolved and nothing is started. *)
Theorem missing_mod_stops_run
        (w : world) (wad_path : string) (engine_choice custom_engine_path : option string)
        (pre post : list string) (m : string) (status_label : bool) (s : state) :
  isfile w wad_path = true ->
  forallb (isfile w) pre = true ->
  isfile w m = false ->
  run_wad w wad_path engine_choice custom_engine_path
          (Some (pre ++ m :: post)) status_label s
  = (Returned tt,
     logged s [ShowError "Error" ("Mod file '" ++ m ++ "' not found.")]).
Proof.
  intros Hwad Hpre Hm. unfold run_wad, def.
  erewrite bind_next by (rewrite Hwad; reflexivity).
  erewrite bind_return; [reflexivity|].
  now apply check_mods_missing.
Qed.

Lemma missing_mod_stops_run_witness :
  run_wad linux_box "/m/a.wad" None (Some "/opt/doom/engine")
          (Some ["/n/b.wad"; "/n/gone.pk3"; "/n/also-gone.wad"]) true fresh
  = (Returned tt,
     logged fresh [ShowError "Error" "Mod file '/n/gone.pk3' not found."]).
Proof.
  apply (missing_mod_stops_run linux_box "/m/a.wad" None (Some "/opt/doom/engine")
           ["/n/b.wad"] ["/n/also-gone.wad"] "/n/gone.pk3" true fresh);
    reflexivity.
Defined.

(** ** [export_mods]: any number of plain files *)

Lemma assoc_set_assoc {A : Type} (k n : string) (v : A) (l : list (string * A)) :
  Py.assoc n (Py.set_assoc k v l)
  = if String.eqb k n then Some v else Py.assoc n l.
Proof.
  induction l as [|[k' v'] l IH]; cbn [Py.set_assoc Py.assoc]; [reflexivity|].
  destruct (String.eqb k' k) eqn:Hk; cbn [Py.assoc].
  - apply String.eqb_eq in Hk. subst k'.
    now destruct (String.eqb k n).
  - rewrite IH. destruct (String.eqb k' n) eqn:Hn; [|reflexivity].
    apply String.eqb_eq in Hn. subst k'.
    rewrite String.eqb_sym in Hk. now rewrite Hk.
Qed.

Lemma keys_set_assoc {A : Type} (k x : string) (v : A) (l : list (string * A)) :
  In x (map fst (Py.set_assoc k v l)) <-> x = k \/ In x (map fst l).
Proof.
  induction l as [|[k' v'] l IH]; cbn [Py.set_assoc map fst In].
  - intuition.
  - destruct (String.eqb k' k) eqn:Hk; cbn [map fst In].
    + apply String.eqb_eq in Hk. subst k'. intuition.
    + rewrite IH. intuition.
Qed.

Lemma nodup_set_assoc {A : Type} (k : string) (v : A) (l : list (string * A)) :
  NoDup (map fst l) -> NoDup (map fst (Py.set_assoc k v l)).
Proof.
  induction l as [|[k' v'] l IH]; cbn [Py.set_assoc map fst]; intros Hnd.
  - repeat constructor. intros [].
  - inversion Hnd as [|? ? Hnotin Hnd']; subst.
    destruct (String.eqb k' k) eqn:Hk; cbn [map fst].
    + apply String.eqb_eq in Hk. subst k'. now constructor.
    + constructor; [|now apply IH].
      rewrite keys_set_assoc. intros [->|Hin]; [|contradiction].
      now rewrite String.eqb_refl in Hk.
Qed.



Section ExportMany.

Variable w : world.





End ExportMany.



(** ** [export_mods]: when nothing is written *)


(** X16. When an input cannot be staged, because a file is missing or an
    archive cannot be read or unpacked, [export_mods] shows "Failed to
    export combined mod" with the text of the exception; by then the
    directory of the chosen path has been saved to the configuration, and
    the status label is set back to "Ready" as after a success.  For a
    first input that cannot be read, the text is that of the exception of
    opening it. *)
Theorem export_staging_failure
        (w : world) (p : string) (rest : list string) (text : string)
        (status_label : bool) (s : state) :
  PyStr.truthy (ask_save_as w) = true ->
  stage_mods w (p :: rest) empty_dir = Failed text ->
  export_mods w (p :: rest) status_label s
  = (Returned tt,
     logged s ([AskSaveAs "Export Combined Mod"]
                 ++ config_events w "last_export_dir"
                                  (PosixPath.dirname (ask_save_as w))
                 ++ status_events status_label "Exporting mods..."
                 ++ [ShowError "Error" ("Failed to export combined mod: " ++ text)]
                 ++ status_events status_label "Ready"))
  /\ (read_file w p = None -> text = read_error w p).
Proof.
  intros Hout Hstage.
  split;
    [|intros Hread; cbn [stage_mods] in Hstage;
      unfold copy_into, unpack_into in Hstage; rewrite Hread in Hstage;
      destruct (is_archive_ext _); now injection Hstage as <-].
  unfold export_mods, def, save_config, config_events, status_events.
  erewrite bind_next by reflexivity. rewrite bind_emit.
  erewrite bind_next by (rewrite Hout; reflexivity).
  rewrite Hstage.
  destruct (config_error w), status_label;
    cbv beta iota delta [bind emit ret fst snd];
    unfold logged; cbn [trace dest app];
    rewrite <- ?app_assoc; reflexivity.
Qed.

Lemma export_staging_failure_witness :
  export_mods linux_box ["/m/a.wad"; "/n/gone.wad"] true fresh
  = (Returned tt,
     logged fresh [AskSaveAs "Export Combined Mod";
                   SaveConfig "last_export_dir" "/out";
                   Status "Exporting mods...";
                   ShowError "Error"
                     "Failed to export combined mod: [Errno 2] No such file or directory: '/n/gone.wad'";
                   Status "Ready"]).
Proof.
  apply (proj1 (export_staging_failure linux_box "/m/a.wad" ["/n/gone.wad"]
                  "[Errno 2] No such file or directory: '/n/gone.wad'" true fresh
                  ltac:(reflexivity) ltac:(reflexivity))).
Defined.

(** ** The list of mods: [add_mods] and [remove_selected] *)

Lemma in_listbox_In (p : string) (l : list string) :
  in_listbox p l = true <-> In p l.
Proof.
  unfold in_listbox. rewrite existsb_exists. split.
  - intros (x & Hin & Heq). apply String.eqb_eq in Heq. now subst.
  - intros Hin. exists p. split; [exact Hin | apply String.eqb_refl].
Qed.

(** The loop appends paths that are new to the list, each once, keeps a
    list free of duplicates free of them, and leaves exactly the old items
    and the chosen paths in the list. *)
Lemma insert_new_spec (paths l : list string) :
  exists added,
    insert_new paths l = l ++ added
    /\ NoDup added
    /\ (forall p, In p added -> ~ In p l)
    /\ (NoDup l -> NoDup (l ++ added))
    /\ forall p, In p (l ++ added) <-> In p l \/ In p paths.
Proof.
  revert l. induction paths as [|p rest IH]; intros l.
  - exists []. rewrite app_nil_r. cbn [insert_new In].
    split; [reflexivity|]. split; [constructor|]. intuition.
  - cbn [insert_new]. destruct (in_listbox p l) eqn:Hin.
    + apply in_listbox_In in Hin.
      destruct (IH l) as (added & Heq & Hadded & Hnew & Hnd & Hmem).
      exists added. split; [exact Heq|]. split; [exact Hadded|].
      split; [exact Hnew|]. split; [exact Hnd|].
      intros x. rewrite Hmem. cbn [In]. intuition (subst; auto).
    + assert (Hnotin : ~ In p l).
      { intros H. apply in_listbox_In in H. congruence. }
      destruct (IH (l ++ [p])) as (added & Heq & Hadded & Hnew & Hnd & Hmem).
      exists (p :: added). rewrite Heq, <- app_assoc. split; [reflexivity|].
      split; [|split; [|split]].
      * constructor; [|exact Hadded].
        intros Hp. apply (Hnew p Hp). apply in_or_app. right. now left.
      * intros x [<-|Hx]; [exact Hnotin|].
        intros Hl. apply (Hnew x Hx). apply in_or_app. now left.
      * intros Hl. change (l ++ p :: added) with (l ++ [p] ++ added).
        rewrite app_assoc. apply Hnd.
        apply NoDup_app; [exact Hl | repeat constructor; intros [] | ].
        intros x Hx [<-|[]]. contradiction.
      * intros x. change (l ++ p :: added) with (l ++ [p] ++ added).
        rewrite app_assoc, Hmem, in_app_iff. cbn [In]. intuition.
Qed.

(** X17. [add_mods] appends to the listbox the chosen paths that are not
    in it yet, each once: the old items keep their places, what is appended
    holds no path twice and none the list held, so a list without
    duplicates stays without duplicates, and afterwards the list holds
    exactly the old items and the chosen paths.  The directory of the first
    chosen path is saved to the configuration; with nothing chosen nothing
    is saved and the list is as before. *)
Theorem add_mods_appends_without_duplicates
        (w : world) (paths listbox : list string) (s : state) :
  exists added,
    add_mods w paths listbox s
    = (Returned (listbox ++ added),
       logged s match paths with
                | [] => []
                | first :: _ =>
                    config_events w "last_mod_dir" (PosixPath.dirname first)
                end)
    /\ NoDup added
    /\ (forall p, In p added -> ~ In p listbox)
    /\ (NoDup listbox -> NoDup (listbox ++ added))
    /\ (forall p, In p (listbox ++ added) <-> In p listbox \/ In p paths)
    /\ (paths = [] -> added = []).
Proof.
  destruct (insert_new_spec paths listbox)
    as (added & Heq & Hadded & Hnew & Hnd & Hmem).
  destruct paths as [|first rest].
  - exists []. rewrite app_nil_r. cbn [insert_new] in Heq.
    split; [unfold add_mods, def, ret; now rewrite logged_nil|].
    split; [constructor|]. split; [intros p []|].
    split; [trivial|]. split; [|reflexivity].
    intros p. cbn [In]. intuition.
  - exists added.
    split; [|split; [exact Hadded|split; [exact Hnew|split;
               [exact Hnd|split; [exact Hmem|discriminate]]]]].
    unfold add_mods, def, call, save_config, config_events, bind.
    rewrite Heq. now destruct (config_error w).
Qed.

Lemma add_mods_appends_without_duplicates_witness :
  exists added,
    add_mods linux_box ["/n/c.wad"; "/n/a.wad"; "/n/c.wad"]
             ["/n/a.wad"; "/n/b.wad"; "/n/a.wad"] fresh
    = (Returned (["/n/a.wad"; "/n/b.wad"; "/n/a.wad"] ++ added),
       logged fresh [SaveConfig "last_mod_dir" "/n"])
    /\ NoDup added
    /\ (forall p, In p added -> ~ In p ["/n/a.wad"; "/n/b.wad"; "/n/a.wad"]).
Proof.
  destruct (add_mods_appends_without_duplicates
              linux_box ["/n/c.wad"; "/n/a.wad"; "/n/c.wad"]
              ["/n/a.wad"; "/n/b.wad"; "/n/a.wad"] fresh)
    as (added & Heq & Hnd & Hnew & _).
  exists added. split; [exact Heq | split; [exact Hnd | exact Hnew]].
Defined.

Lemma remove_selected_cons (a : nat) (selection : list nat) (l : list string) :
  remove_selected (a :: selection) l
  = listbox_delete a (remove_selected selection l).
Proof.
  unfold remove_selected. cbn [rev]. now rewrite fold_left_app.
Qed.

Lemma unselected_nil (i : nat) (l : list string) : unselected [] i l = l.
Proof.
  revert i. induction l as [|x r IH]; intros i; cbn [unselected existsb];
    [reflexivity | now rewrite IH].
Qed.

Lemma unselected_below (a : nat) (selection : list nat) (i : nat) (l : list string) :
  a < i -> unselected (a :: selection) i l = unselected selection i l.
Proof.
  revert i. induction l as [|x r IH]; intros i Hlt; [reflexivity|].
  cbn [unselected existsb].
  assert (Hne : Nat.eqb i a = false) by (apply Nat.eqb_neq; lia).
  rewrite Hne. cbn [orb]. rewrite !IH by lia. reflexivity.
Qed.

Lemma ascending_cons (a : nat) (selection : list nat) :
  ascending (a :: selection) = true ->
  ascending selection = true /\ forall b, In b selection -> a < b.
Proof.
  revert a. induction selection as [|b rest IH]; intros a H.
  - split; [reflexivity | intros ? []].
  - cbn [ascending] in H. apply andb_prop in H. destruct H as [Hab Hrest].
    apply Nat.ltb_lt in Hab.
    destruct (IH b Hrest) as [_ Hall].
    split; [exact Hrest|]. intros c [<-|Hc]; [exact Hab|].
    specialize (Hall c Hc). lia.
Qed.

Lemma not_selected (selection : list nat) (i a : nat) :
  i <= a -> (forall b, In b selection -> a < b) ->
  existsb (Nat.eqb i) selection = false.
Proof.
  intros Hle Hall. destruct (existsb (Nat.eqb i) selection) eqn:H; [|reflexivity].
  apply existsb_exists in H. destruct H as (b & Hb & Heq).
  apply Nat.eqb_eq in Heq. subst b. specialize (Hall i Hb). lia.
Qed.

(** Deleting the smallest selected index from what is left once the
    larger ones are gone. *)
Lemma delete_unselected (a : nat) (selection : list nat) (i : nat) (l : list string) :
  i <= a -> (forall b, In b selection -> a < b) ->
  listbox_delete (a - i) (unselected selection i l)
  = unselected (a :: selection) i l.
Proof.
  revert i. induction l as [|x r IH]; intros i Hle Hall.
  - unfold listbox_delete. cbn [unselected]. now rewrite firstn_nil, skipn_nil.
  - cbn [unselected existsb]. rewrite (not_selected selection i a Hle Hall).
    destruct (Nat.eqb i a) eqn:Hia; cbn [orb].
    + apply Nat.eqb_eq in Hia. subst i. rewrite Nat.sub_diag.
      unfold listbox_delete. cbn [firstn skipn app].
      now rewrite unselected_below by lia.
    + apply Nat.eqb_neq in Hia.
      replace (a - i) with (S (a - S i)) by lia.
      unfold listbox_delete. cbn [firstn skipn app].
      f_equal. apply (IH (S i)); [lia | exact Hall].
Qed.

(** X18. [remove_selected] deletes exactly the selected items: for a
    selection in ascending order, as the listbox reports it, what is left
    are the items at the positions not selected, in their order.  Deleting
    from the highest index down keeps the lower indices valid. *)
Theorem remove_selected_removes_selection
        (selection : list nat) (listbox : list string) :
  ascending selection = true ->
  remove_selected selection listbox = unselected selection 0 listbox.
Proof.
  induction selection as [|a rest IH]; intros Hasc.
  - unfold remove_selected. cbn [rev fold_left]. now rewrite unselected_nil.
  - destruct (ascending_cons a rest Hasc) as [Hrest Hall].
    rewrite remove_selected_cons, (IH Hrest).
    rewrite <- (Nat.sub_0_r a) at 1.
    apply delete_unselected; [lia | exact Hall].
Qed.

Lemma remove_selected_removes_selection_witness :
  remove_selected [0; 2; 3] ["a.wad"; "b.wad"; "c.wad"; "d.wad"; "e.wad"]
  = ["b.wad"; "e.wad"].
Proof.
  apply (remove_selected_removes_selection
           [0; 2; 3] ["a.wad"; "b.wad"; "c.wad"; "d.wad"; "e.wad"]).
  reflexivity.
Defined.

(** ** Presets *)

Lemma assoc_remove_assoc {A : Type} (k n : string) (l : list (string * A)) :
  Py.assoc n (remove_assoc k l)
  = if String.eqb k n then None else Py.assoc n l.
Proof.
  induction l as [|[k' v'] l IH]; cbn [remove_assoc Py.assoc].
  - now destruct (String.eqb k n).
  - destruct (String.eqb k' k) eqn:Hk.
    + rewrite IH. apply String.eqb_eq in Hk. subst k'.
      now destruct (String.eqb k n).
    + cbn [Py.assoc]. rewrite IH.
      destruct (String.eqb k' n) eqn:Hn; [|reflexivity].
      apply String.eqb_eq in Hn. subst k'.
      rewrite String.eqb_sym in Hk. now rewrite Hk.
Qed.

Lemma keys_remove_assoc {A : Type} (k x : string) (l : list (string * A)) :
  In x (map fst (remove_assoc k l)) <-> x <> k /\ In x (map fst l).
Proof.
  induction l as [|[k' v'] l IH]; cbn [remove_assoc map fst In]; [intuition|].
  destruct (String.eqb k' k) eqn:Hk.
  - apply String.eqb_eq in Hk. subst k'. rewrite IH. intuition congruence.
  - apply String.eqb_neq in Hk. cbn [map fst In]. rewrite IH.
    intuition congruence.
Qed.

(** The form after [save_current_preset] with a name. *)
Lemma save_current_preset_result (w : world) (name : string) (g : gui) (s : state) :
  PyStr.truthy name = true ->
  let entry := {| p_wad := Some (wad_var g);
                  p_engine := Some (engine_var g);
                  p_custom := Some (custom_var g);
                  p_mods := Some (mod_listbox g) |} in
  let kept := Py.set_assoc name entry (presets g) in
  save_current_preset w (Some name) g s
  = (Returned {| presets := kept;
                 saved_presets := match config_error w with
                                  | None => kept
                                  | Some _ => saved_presets g
                                  end;
                 preset_values := map fst kept;
                 preset_var := name;
                 wad_var := wad_var g;
                 engine_var := engine_var g;
                 custom_var := custom_var g;
                 mod_listbox := mod_listbox g |},
     logged s (match config_error w with
               | None => []
               | Some text =>
                   [ShowWarning "Config Warning" ("Could not save config: " ++ text)]
               end ++ [Status ("Preset '" ++ name ++ "' saved.")])).
Proof.
  intros Hname entry kept.
  unfold save_current_preset, def, save_presets. cbn [truthy_opt get_or].
  rewrite Hname. cbn [negb].
  destruct (config_error w) as [text|];
    cbv beta iota delta [bind emit ret fst snd];
    unfold logged; cbn [trace dest presets saved_presets preset_values preset_var
                         wad_var engine_var custom_var mod_listbox app];
    rewrite <- ?app_assoc; reflexivity.
Qed.

(** X19. A preset saved under a name and loaded again restores the form:
    after [save_current_preset], whatever the fields of the form are
    changed to, [load_preset] with that name selected sets the data file,
    the engine, the custom path and the list of mods back to what they were
    when the preset was saved. *)
Theorem preset_save_load_round_trip
        (w : world) (name : string) (g : gui) (s : state) :
  PyStr.truthy name = true ->
  exists g1,
    fst (save_current_preset w (Some name) g s) = Returned g1
    /\ preset_var g1 = name
    /\ In name (preset_values g1)
    /\ forall g2 s2,
        presets g2 = presets g1 ->
        preset_var g2 = name ->
        exists g3,
          load_preset g2 s2
          = (Returned g3, logged s2 [Status ("Preset '" ++ name ++ "' loaded.")])
          /\ wad_var g3 = wad_var g
          /\ engine_var g3 = engine_var g
          /\ custom_var g3 = custom_var g
          /\ mod_listbox g3 = mod_listbox g
          /\ presets g3 = presets g2.
Proof.
  intros Hname. rewrite (save_current_preset_result w name g s Hname).
  eexists. split; [reflexivity|]. cbn [preset_var preset_values presets].
  split; [reflexivity|]. split.
  - apply keys_set_assoc. now left.
  - intros g2 s2 Hpresets Hvar.
    unfold load_preset, def. rewrite Hvar, Hname, Hpresets.
    rewrite assoc_set_assoc, String.eqb_refl.
    rewrite bind_emit. eexists. split; [reflexivity|].
    cbn [wad_var engine_var custom_var mod_listbox presets get_or
         p_wad p_engine p_custom p_mods].
    repeat split.
Qed.

Lemma preset_save_load_round_trip_witness :
  exists g1,
    fst (save_current_preset linux_box (Some "mine") filled_form fresh) = Returned g1
    /\ exists g3,
        fst (load_preset
               {| presets := presets g1; saved_presets := saved_presets g1;
                  preset_values := preset_values g1; preset_var := "mine";
                  wad_var := "/elsewhere.wad"; engine_var := "Auto";
                  custom_var := "/x"; mod_listbox := [] |} fresh)
        = Returned g3
        /\ wad_var g3 = "/m/a.wad"
        /\ engine_var g3 = "prboom"
        /\ mod_listbox g3 = ["/n/b.wad"; "/n/a.wad"].
Proof.
  destruct (preset_save_load_round_trip linux_box "mine" filled_form fresh
              ltac:(reflexivity))
    as (g1 & Hsave & _ & _ & Hload).
  exists g1. split; [exact Hsave|].
  destruct (Hload {| presets := presets g1; saved_presets := saved_presets g1;
                     preset_values := preset_values g1; preset_var := "mine";
                     wad_var := "/elsewhere.wad"; engine_var := "Auto";
                     custom_var := "/x"; mod_listbox := [] |} fresh
                  eq_refl eq_refl)
    as (g3 & Hg3 & Hwad & Hengine & _ & Hmods & _).
  exists g3. rewrite Hg3. repeat split; assumption.
Defined.

(** X20. Saving a preset under a name puts the fields of the form under
    that name in the presets, selects that name and offers the names of the
    presets; it touches nothing else: every preset under another name is as
    before, the names are the old ones and the new one, the fields of the
    form are as before, and a name that was already taken keeps one entry.
    The configuration file holds the new presets when it could be written;
    when it could not, a warning is shown and the presets in memory are the
    new ones all the same. *)
Theorem preset_save_keeps_the_rest
        (w : world) (name : string) (g : gui) (s : state) :
  PyStr.truthy name = true ->
  let entry := {| p_wad := Some (wad_var g);
                  p_engine := Some (engine_var g);
                  p_custom := Some (custom_var g);
                  p_mods := Some (mod_listbox g) |} in
  exists g1,
    fst (save_current_preset w (Some name) g s) = Returned g1
    /\ Py.assoc name (presets g1) = Some entry
    /\ preset_var g1 = name
    /\ preset_values g1 = map fst (presets g1)
    /\ (forall other, other <> name ->
                      Py.assoc other (presets g1) = Py.assoc other (presets g))
    /\ (forall x, In x (map fst (presets g1))
                  <-> x = name \/ In x (map fst (presets g)))
    /\ (NoDup (map fst (presets g)) -> NoDup (map fst (presets g1)))
    /\ wad_var g1 = wad_var g /\ engine_var g1 = engine_var g
    /\ custom_var g1 = custom_var g /\ mod_listbox g1 = mod_listbox g
    /\ (config_error w = None ->
        saved_presets g1 = presets g1
        /\ Py.assoc name (saved_presets g1) = Some entry)
    /\ (forall text, config_error w = Some text ->
                     saved_presets g1 = saved_presets g
                     /\ In (ShowWarning "Config Warning"
                                        ("Could not save config: " ++ text))
                           (trace (snd (save_current_preset w (Some name) g s)))).
Proof.
  intros Hname entry. rewrite (save_current_preset_result w name g s Hname).
  eexists. split; [reflexivity|].
  cbn [presets saved_presets preset_var preset_values
       wad_var engine_var custom_var mod_listbox snd trace logged].
  assert (Hentry : Py.assoc name (Py.set_assoc name entry (presets g)) = Some entry)
    by now rewrite assoc_set_assoc, String.eqb_refl.
  split; [exact Hentry|]. split; [reflexivity|]. split; [reflexivity|].
  split; [|split; [|split; [|repeat split]]].
  - intros other Hother. rewrite assoc_set_assoc.
    destruct (String.eqb name other) eqn:Heq; [|reflexivity].
    apply String.eqb_eq in Heq. congruence.
  - intros x. apply keys_set_assoc.
  - apply nodup_set_assoc.
  - now rewrite H.
  - now rewrite H.
  - now rewrite H.
  - rewrite H. apply in_or_app. right. now left.
Qed.

Lemma preset_save_keeps_the_rest_witness :
  exists g1,
    fst (save_current_preset offline_box (Some "mine") filled_form fresh) = Returned g1
    /\ Py.assoc "mine" (presets g1)
       = Some {| p_wad := Some "/m/a.wad"; p_engine := Some "prboom";
                 p_custom := Some ""; p_mods := Some ["/n/b.wad"; "/n/a.wad"] |}
    /\ Py.assoc "vanilla" (presets g1) = Py.assoc "vanilla" (presets filled_form)
    /\ saved_presets g1 = [].
Proof.
  destruct (preset_save_keeps_the_rest offline_box "mine" filled_form fresh
              ltac:(reflexivity))
    as (g1 & Hsave & Hentry & _ & _ & Hother & _ & _ & _ & _ & _ & _ & _ & Hfail).
  exists g1. split; [exact Hsave|]. split; [exact Hentry|]. split.
  - apply Hother. discriminate.
  - now destruct (Hfail "Permission denied" eq_refl).
Defined.

(** X21. Deleting the selected preset, once confirmed, removes that name
    and no other from the presets and from the names offered, and resets
    the form: no preset selected, no data file, engine "Auto", no custom
    path, no mods.  When the question is answered "no", nothing changes. *)
Theorem preset_delete
        (w : world) (confirm : bool) (g : gui) (data : preset) (s : state) :
  PyStr.truthy (preset_var g) = true ->
  Py.assoc (preset_var g) (presets g) = Some data ->
  exists g1,
    fst (delete_current_preset w confirm g s) = Returned g1
    /\ if confirm then
         Py.assoc (preset_var g) (presets g1) = None
         /\ (forall other, other <> preset_var g ->
                           Py.assoc other (presets g1) = Py.assoc other (presets g))
         /\ (forall n, In n (preset_values g1)
                       <-> n <> preset_var g /\ In n (map fst (presets g)))
         /\ preset_var g1 = ""%string /\ wad_var g1 = ""%string
         /\ engine_var g1 = "Auto"%string /\ custom_var g1 = ""%string
         /\ mod_listbox g1 = []
       else g1 = g.
Proof.
  intros Hname Hdata. unfold delete_current_preset, def, save_presets.
  rewrite Hname, Hdata. rewrite bind_emit.
  destruct confirm.
  - destruct (config_error w) as [text|];
      cbv beta iota delta [bind emit ret fst snd];
      (eexists; split; [reflexivity|]);
      cbn [presets preset_values preset_var wad_var engine_var custom_var mod_listbox];
      (split; [now rewrite assoc_remove_assoc, String.eqb_refl|]);
      (split; [intros other Hother; rewrite assoc_remove_assoc;
               destruct (String.eqb (preset_var g) other) eqn:Heq;
               [apply String.eqb_eq in Heq; congruence | reflexivity]|]);
      (split; [intros n; apply keys_remove_assoc|]);
      repeat split.
  - eexists. split; reflexivity.
Qed.

Lemma preset_delete_witness :
  exists g1,
    fst (delete_current_preset linux_box true
           {| presets := presets filled_form; saved_presets := [];
              preset_values := ["vanilla"]; preset_var := "vanilla";
              wad_var := "/m/a.wad"; engine_var := "prboom"; custom_var := "";
              mod_listbox := ["/n/b.wad"] |} fresh) = Returned g1
    /\ presets g1 = [] /\ wad_var g1 = ""%string /\ engine_var g1 = "Auto"%string.
Proof.
  destruct (preset_delete linux_box true
              {| presets := presets filled_form; saved_presets := [];
                 preset_values := ["vanilla"]; preset_var := "vanilla";
                 wad_var := "/m/a.wad"; engine_var := "prboom"; custom_var := "";
                 mod_listbox := ["/n/b.wad"] |}
              {| p_wad := Some "/m/doom.wad"; p_engine := None;
                 p_custom := None; p_mods := None |} fresh
              ltac:(reflexivity) ltac:(reflexivity))
    as (g1 & Hdel & _ & _ & _ & _ & Hwad & Hengine & _).
  exists g1. split; [exact Hdel|].
  split; [|split; assumption].
  injection Hdel as <-. reflexivity.
Defined.

(** X22. A preset that lacks keys loads with the defaults of the form: no
    data file, engine "Auto", no custom path, no mods; and with no preset
    selected, or a name that is not a preset, [load_preset] changes
    nothing and says nothing. *)
Theorem preset_load_defaults (g : gui) (s : state) :
  (forall data,
      PyStr.truthy (preset_var g) = true ->
      Py.assoc (preset_var g) (presets g) = Some data ->
      exists g1,
        fst (load_preset g s) = Returned g1
        /\ wad_var g1 = get_or (p_wad data) ""
        /\ engine_var g1 = get_or (p_engine data) "Auto"
        /\ custom_var g1 = get_or (p_custom data) ""
        /\ mod_listbox g1 = get_or (p_mods data) [])
  /\ (PyStr.truthy (preset_var g) = false
      \/ Py.assoc (preset_var g) (presets g) = None ->
      load_preset g s = (Returned g, s)).
Proof.
  split.
  - intros data Hname Hdata. unfold load_preset, def.
    rewrite Hname, Hdata, bind_emit. eexists. split; [reflexivity|].
    repeat split.
  - intros H. unfold load_preset, def.
    destruct H as [H|H]; [now rewrite H|].
    rewrite H. now destruct (PyStr.truthy (preset_var g)).
Qed.

Lemma preset_load_defaults_witness :
  exists g1,
    fst (load_preset
           {| presets := presets filled_form; saved_presets := [];
              preset_values := ["vanilla"]; preset_var := "vanilla";
              wad_var := "/m/a.wad"; engine_var := "prboom"; custom_var := "/c";
              mod_listbox := ["/n/b.wad"] |} fresh) = Returned g1
    /\ wad_var g1 = "/m/doom.wad"%string
    /\ engine_var g1 = "Auto"%string
    /\ custom_var g1 = ""%string
    /\ mod_listbox g1 = [].
Proof.
  apply (proj1 (preset_load_defaults
                  {| presets := presets filled_form; saved_presets := [];
                     preset_values := ["vanilla"]; preset_var := "vanilla";
                     wad_var := "/m/a.wad"; engine_var := "prboom";
                     custom_var := "/c"; mod_listbox := ["/n/b.wad"] |} fresh)
               {| p_wad := Some "/m/doom.wad"; p_engine := None;
                  p_custom := None; p_mods := None |});
    reflexivity.
Defined.

(** ** [download_freedoom] *)

Lemma first_freedoom2_skip (pre rest : list member) :
  forallb (fun m => negb (is_freedoom2 m)) pre = true ->
  first_freedoom2 (pre ++ rest) = first_freedoom2 rest.
Proof.
  induction pre as [|m pre IH]; intros Hpre; [reflexivity|].
  cbn [forallb] in Hpre. apply andb_prop in Hpre. destruct Hpre as [Hm Hpre].
  cbn [app first_freedoom2].
  destruct (is_freedoom2 m); [discriminate | now apply IH].
Qed.

(** How [download_freedoom] ends, from what the [try] block gave. *)
Lemma download_freedoom_outcome
      (w : world) (freedoom_dir : option string) (iwads : dir) (wad : string)
      (s : state) :
  let dest_path := get_or freedoom_dir (PosixPath.join (script_dir w) ["iwads"]) in
  let started :=
    [Status "Downloading FreeDoom IWAD..."; Makedirs dest_path;
     UrlRetrieve FREEDOOM_URL (PosixPath.join dest_path ["freedoom-0.13.0.zip"])] in
  download_freedoom w freedoom_dir iwads wad s
  = match fetch_freedoom w dest_path iwads with
    | (iwads', Done (Some freedoom2)) =>
        (Returned (iwads', freedoom2),
         logged s (started ++ config_events w "last_wad_dir" dest_path
                     ++ [Status "FreeDoom IWAD ready."]))
    | (iwads', Done None) =>
        (Returned (iwads', wad),
         logged s (started ++ [ShowError "Error" "freedoom2.wad not found in archive.";
                               Status "Ready"]))
    | (iwads', Failed text) =>
        (Returned (iwads', wad),
         logged s (started ++ [ShowError "Download Failed"
                                 ("Failed to download FreeDoom: " ++ text);
                               Status "Ready"]))
    end.
Proof.
  intros dest_path started. unfold download_freedoom, def.
  rewrite !bind_emit, !logged_logged. fold dest_path. cbn [app].
  destruct (fetch_freedoom w dest_path iwads) as [iwads' [[freedoom2|]|text]].
  - unfold call, def, save_config, config_events, bind.
    destruct (config_error w);
      cbv beta iota delta [emit ret]; unfold logged; cbn [trace dest app];
      rewrite <- ?app_assoc; reflexivity.
  - now rewrite !bind_emit, !logged_logged.
  - now rewrite !bind_emit, !logged_logged.
Qed.

(** The member [getinfo] gives has the name asked for. *)
Lemma getinfo_name (name : string) (ms : list member) (m : member) :
  member_name m = name -> member_name (getinfo name ms m) = name.
Proof.
  unfold getinfo. revert m. induction ms as [|x ms IH]; intros m Hm; [exact Hm|].
  cbn [fold_left]. apply IH.
  destruct (String.eqb (member_name x) name) eqn:Hx; [|exact Hm].
  now apply String.eqb_eq in Hx.
Qed.

Lemma getinfo_app (name : string) (before after : list member) (m : member) :
  getinfo name (before ++ after) m = getinfo name after (getinfo name before m).
Proof. unfold getinfo. apply fold_left_app. Qed.

(** Among members of other names it gives the one it was given. *)
Lemma getinfo_other (name : string) (ms : list member) (m : member) :
  forallb (fun x => negb (String.eqb (member_name x) name)) ms = true ->
  getinfo name ms m = m.
Proof.
  unfold getinfo. induction ms as [|x ms IH]; intros Hms; [reflexivity|].
  cbn [forallb] in Hms. apply andb_prop in Hms. destruct Hms as [Hx Hms].
  cbn [fold_left]. destruct (String.eqb (member_name x) name); [discriminate|].
  now apply IH.
Qed.

(** X23. When the FreeDoom archive arrives and unpacks, the name taken is
    the first one, in the order of the archive, that ends in
    "freedoom2.wad" once lowercased.  The member the archive keeps under
    that name, which is that member itself unless a later one has its name,
    is extracted into the destination directory; the data file of the form
    becomes the directory joined with the name as the archive lists it, and
    the directory is saved to the configuration as the last one used. *)
Theorem freedoom_first_member_wins
        (w : world) (freedoom_dir : option string) (iwads iwads1 iwads2 : dir)
        (wad content : string) (pre post : list member) (m : member) (s : state) :
  urlretrieve w FREEDOOM_URL = Fetched content ->
  FS.write_file ["freedoom-0.13.0.zip"] content iwads = Done iwads1 ->
  unzip w content = Done (pre ++ m :: post) ->
  forallb (fun x => negb (is_freedoom2 x)) pre = true ->
  is_freedoom2 m = true ->
  let dest_path := get_or freedoom_dir (PosixPath.join (script_dir w) ["iwads"]) in
  let taken := getinfo (member_name m) (pre ++ m :: post) m in
  extract_member w dest_path taken iwads1 = (iwads2, None) ->
  download_freedoom w freedoom_dir iwads wad s
  = (Returned (iwads2, PosixPath.join dest_path [member_name m]),
     logged s ([Status "Downloading FreeDoom IWAD..."; Makedirs dest_path;
                UrlRetrieve FREEDOOM_URL
                  (PosixPath.join dest_path ["freedoom-0.13.0.zip"])]
                 ++ config_events w "last_wad_dir" dest_path
                 ++ [Status "FreeDoom IWAD ready."]))
  /\ member_name taken = member_name m
  /\ (forallb (fun x => negb (String.eqb (member_name x) (member_name m))) post = true ->
      taken = m).
Proof.
  intros Hget Hwrite Hzip Hpre Hm dest_path taken Hextract.
  split; [|split].
  - rewrite download_freedoom_outcome. fold dest_path.
    unfold fetch_freedoom. rewrite Hget, Hwrite, Hzip.
    rewrite (first_freedoom2_skip pre (m :: post) Hpre).
    cbn [first_freedoom2]. rewrite Hm. fold taken. now rewrite Hextract.
  - now apply getinfo_name.
  - intros Hpost. subst taken.
    rewrite getinfo_app.
    change (m :: post) with ([m] ++ post). rewrite getinfo_app.
    rewrite (getinfo_other _ post _ Hpost).
    unfold getinfo at 1. cbn [fold_left]. now rewrite String.eqb_refl.
Qed.

Lemma freedoom_first_member_wins_witness :
  download_freedoom freedoom_box None empty_dir "" fresh
  = (Returned
       (Dir [("freedoom-0.13.0.zip", "bytes")]
            [("freedoom-0.13.0", Dir [("FreeDoom2.WAD", "two")] [])],
        "/app/iwads/freedoom-0.13.0/FreeDoom2.WAD"),
     logged fresh [Status "Downloading FreeDoom IWAD..."; Makedirs "/app/iwads";
                   UrlRetrieve FREEDOOM_URL "/app/iwads/freedoom-0.13.0.zip";
                   SaveConfig "last_wad_dir" "/app/iwads";
                   Status "FreeDoom IWAD ready."]).
Proof.
  apply (proj1 (freedoom_first_member_wins
           freedoom_box None empty_dir
           (Dir [("freedoom-0.13.0.zip", "bytes")] [])
           (Dir [("freedoom-0.13.0.zip", "bytes")]
                [("freedoom-0.13.0", Dir [("FreeDoom2.WAD", "two")] [])])
           "" "bytes"
           [MDir "freedoom-0.13.0/" ["freedoom-0.13.0"];
            MFile "freedoom-0.13.0/COPYING.txt" ["freedoom-0.13.0"; "COPYING.txt"] "c";
            MFile "freedoom-0.13.0/freedoom1.wad" ["freedoom-0.13.0"; "freedoom1.wad"] "one"]
           [MFile "freedoom-0.13.0/extra/freedoom2.wad"
                  ["freedoom-0.13.0"; "extra"; "freedoom2.wad"] "other"]
           (MFile "freedoom-0.13.0/FreeDoom2.WAD" ["freedoom-0.13.0"; "FreeDoom2.WAD"] "two")
           fresh
           ltac:(reflexivity) ltac:(reflexivity) ltac:(reflexivity)
           ltac:(reflexivity) ltac:(reflexivity) ltac:(reflexivity))).
Defined.

(** X24. When the archive arrives and unpacks but no member's lowercased
    name ends in "freedoom2.wad", [download_freedoom] shows "freedoom2.wad
    not found in archive." and returns: nothing is extracted, the data file
    of the form is as before and the configuration is not saved. *)
Theorem freedoom_member_missing
        (w : world) (freedoom_dir : option string) (iwads iwads1 : dir)
        (wad content : string) (ms : list member) (s : state) :
  urlretrieve w FREEDOOM_URL = Fetched content ->
  FS.write_file ["freedoom-0.13.0.zip"] content iwads = Done iwads1 ->
  unzip w content = Done ms ->
  forallb (fun x => negb (is_freedoom2 x)) ms = true ->
  let dest_path := get_or freedoom_dir (PosixPath.join (script_dir w) ["iwads"]) in
  download_freedoom w freedoom_dir iwads wad s
  = (Returned (iwads1, wad),
     logged s [Status "Downloading FreeDoom IWAD..."; Makedirs dest_path;
               UrlRetrieve FREEDOOM_URL
                 (PosixPath.join dest_path ["freedoom-0.13.0.zip"]);
               ShowError "Error" "freedoom2.wad not found in archive.";
               Status "Ready"]).
Proof.
  intros Hget Hwrite Hzip Hnone dest_path.
  rewrite download_freedoom_outcome. fold dest_path.
  unfold fetch_freedoom. rewrite Hget, Hwrite, Hzip.
  rewrite <- (app_nil_r ms), (first_freedoom2_skip ms [] Hnone).
  reflexivity.
Qed.

Lemma freedoom_member_missing_witness :
  download_freedoom linux_box (Some "/data/iwads") empty_dir "/m/a.wad" fresh
  = (Returned (Dir [("freedoom-0.13.0.zip", "bytes")] [], "/m/a.wad"),
     logged fresh [Status "Downloading FreeDoom IWAD..."; Makedirs "/data/iwads";
                   UrlRetrieve FREEDOOM_URL "/data/iwads/freedoom-0.13.0.zip";
                   ShowError "Error" "freedoom2.wad not found in archive.";
                   Status "Ready"]).
Proof.
  apply (freedoom_member_missing
           linux_box (Some "/data/iwads") empty_dir
           (Dir [("freedoom-0.13.0.zip", "bytes")] []) "/m/a.wad" "bytes"
           [MFile "gzdoom-4/README.txt" ["gzdoom-4"; "README.txt"] "r";
            MFile "gzdoom-4/GZDoom.exe" ["gzdoom-4"; "GZDoom.exe"] "x";
            MFile "gzdoom.pk3" ["gzdoom.pk3"] "p"] fresh);
    reflexivity.
Defined.

(** X25. [download_freedoom] never raises, and it changes the data file of
    the form only when a member was extracted: it ends either on the
    status "FreeDoom IWAD ready.", or, after any failure of the download,
    of the archive or of the extraction, on an error dialog followed by the
    status "Ready", with the data file as it was. *)
Theorem freedoom_changes_wad_only_on_success
        (w : world) (freedoom_dir : option string) (iwads : dir) (wad : string)
        (s : state) :
  exists tree wad' es last,
    download_freedoom w freedoom_dir iwads wad s
    = (Returned (tree, wad'), logged s (es ++ [last]))
    /\ (last = Status "FreeDoom IWAD ready." \/ last = Status "Ready")
    /\ (wad' <> wad -> last = Status "FreeDoom IWAD ready.")
    /\ (last = Status "Ready" ->
        wad' = wad /\ exists title msg, In (ShowError title msg) es).
Proof.
  rewrite download_freedoom_outcome.
  set (dest_path := get_or freedoom_dir (PosixPath.join (script_dir w) ["iwads"])).
  destruct (fetch_freedoom w dest_path iwads) as [iwads' [[freedoom2|]|text]].
  - exists iwads', freedoom2,
      ([Status "Downloading FreeDoom IWAD..."; Makedirs dest_path;
        UrlRetrieve FREEDOOM_URL (PosixPath.join dest_path ["freedoom-0.13.0.zip"])]
         ++ config_events w "last_wad_dir" dest_path),
      (Status "FreeDoom IWAD ready.").
    split; [now rewrite <- app_assoc|].
    split; [now left|]. split; [reflexivity | discriminate].
  - exists iwads', wad,
      [Status "Downloading FreeDoom IWAD..."; Makedirs dest_path;
       UrlRetrieve FREEDOOM_URL (PosixPath.join dest_path ["freedoom-0.13.0.zip"]);
       ShowError "Error" "freedoom2.wad not found in archive."],
      (Status "Ready").
    split; [reflexivity|]. split; [now right|]. split; [congruence|].
    intros _. split; [reflexivity|]. do 2 eexists. right. right. right. now left.
  - exists iwads', wad,
      [Status "Downloading FreeDoom IWAD..."; Makedirs dest_path;
       UrlRetrieve FREEDOOM_URL (PosixPath.join dest_path ["freedoom-0.13.0.zip"]);
       ShowError "Download Failed" ("Failed to download FreeDoom: " ++ text)],
      (Status "Ready").
    split; [reflexivity|]. split; [now right|]. split; [congruence|].
    intros _. split; [reflexivity|]. do 2 eexists. right. right. right. now left.
Qed.
